(** * The test-generation workflow: a shallow embedding and its properties

    The development follows the layout of the repository:

    - [Py]        the Python values and string primitives the code relies on;
    - [Re]        the regular expressions of the sources, each one written
                  out as the matcher it denotes, and the drivers
                  [re.search], [re.findall] and [re.sub];
    - [Ast]       the part of a Python syntax tree that the code reads;
    - [Parser]    src/utils/parser.py;
    - [World]     the working directory, the test runner and the counters
                  of the calls to the external services;
    - [Graph]     src/graph/state.py, src/graph/nodes.py and
                  src/graph/builder.py (framework-aware loop);
    - [Version1]  Version1.py (single-pass generator);
    - [Version2]  Version2.py (function-aware loop);
    - [FileHandler], [Main], [App]  src/utils/file_handler.py, src/main.py
                  and the pre-check of app.py.

    Strings are Python [str] values restricted to code points below 256:
    one [ascii] is one code point.  JSON numbers are integers (the
    counters of a pytest report); floats are outside the model.  The
    libraries [json], [ast] and [re] (for the name patterns of the
    README) and the external services are parameters of the code that
    uses them.  The graph library runs the nodes along the declared
    edges and hands each node the state as the previous node returned
    it; what the function of a conditional edge assigns to the
    dictionary it is handed is no update of the state.  A run counts one
    super-step for each node and is stopped with [GraphRecursionError]
    when a node is due after the 25 super-steps that the library allows
    to a caller who sets no limit. *)

From Stdlib Require Import ZArith List Ascii String Bool Lia DecimalString.
From stdpp Require Import base gmap strings list.
Import ListNotations.

Set Warnings "-register-all".

Local Open Scope Z_scope.
Local Open Scope list_scope.

(* ===================================================================== *)
(** * Python primitives                                                   *)
(* ===================================================================== *)

Module Py.

(** Exceptions that the modelled code can meet, with their message. *)
Inductive exn : Type :=
| AttributeError (msg : string)
| TypeError (msg : string)
| JSONDecodeError (msg : string)
| SyntaxError (msg : string)
| TimeoutExpired (msg : string)
| OSError (msg : string)
| GraphRecursionError (msg : string).

(** [str(e)]. *)
Definition exn_str (e : exn) : string :=
  match e with
  | AttributeError m | TypeError m | JSONDecodeError m
  | SyntaxError m | TimeoutExpired m | OSError m
  | GraphRecursionError m => m
  end.

Definition is_json_decode_error (e : exn) : bool :=
  match e with JSONDecodeError _ => true | _ => false end.

(** A computation that returns or raises. *)
Inductive res (A : Type) : Type :=
| Ok (a : A)
| Raise (e : exn).
Arguments Ok {A} a.
Arguments Raise {A} e.

Definition bind {A B} (m : res A) (k : A -> res B) : res B :=
  match m with
  | Ok a => k a
  | Raise e => Raise e
  end.

Notation "'let*' x ':=' m 'in' k" := (bind m (fun x => k))
  (at level 10, x pattern, m at level 200, k at level 200).

(** ** Characters *)

Definition code (c : ascii) : N := N_of_ascii c.

Definition in_range (lo hi : N) (c : ascii) : bool :=
  ((lo <=? code c) && (code c <=? hi))%N.

(** [str.isspace] on one code point, which is also what [\s] matches. *)
Definition isspace (c : ascii) : bool :=
  in_range 9 13 c || in_range 28 32 c
  || (code c =? 133)%N || (code c =? 160)%N.

Definition is_upper_ascii (c : ascii) : bool := in_range 65 90 c.
Definition is_lower_ascii (c : ascii) : bool := in_range 97 122 c.
Definition is_letter_ascii (c : ascii) : bool :=
  is_upper_ascii c || is_lower_ascii c.

Definition shift32 (c : ascii) : ascii := ascii_of_N (code c + 32).

(** [str.lower] on one code point below 256: A-Z and the Latin-1 capitals
    (192..222 without the multiplication sign 215). *)
Definition lower_char (c : ascii) : ascii :=
  if is_upper_ascii c then shift32 c
  else if in_range 192 222 c && negb (code c =? 215)%N then shift32 c
  else c.

Definition lower_ascii (c : ascii) : ascii :=
  if is_upper_ascii c then shift32 c else c.

(** Two code points are equal under [re.IGNORECASE] when the pattern
    character [p] is the text character [c], or [p] is an ASCII letter and
    [c] is its other case. *)
Definition ci_char (p c : ascii) : bool :=
  Ascii.eqb p c
  || (is_letter_ascii p && Ascii.eqb (lower_ascii p) (lower_ascii c)).

(** ** Strings *)

Fixpoint lower (s : string) : string :=
  match s with
  | EmptyString => EmptyString
  | String c r => String (lower_char c) (lower r)
  end.

(** Whether [s] starts with [p], code points being compared with [eqc]
    (pattern first); the result is what follows the prefix. *)
Fixpoint prefix_by (eqc : ascii -> ascii -> bool) (p s : string)
  : option string :=
  match p, s with
  | EmptyString, _ => Some s
  | String a p', String b s' =>
      if eqc a b then prefix_by eqc p' s' else None
  | String _ _, EmptyString => None
  end.

(** First occurrence of [p] in [s]: the text before it and the text
    after it. *)
Fixpoint find_by (eqc : ascii -> ascii -> bool) (p s : string)
  : option (string * string) :=
  match prefix_by eqc p s with
  | Some rest => Some (EmptyString, rest)
  | None =>
      match s with
      | EmptyString => None
      | String c s' =>
          match find_by eqc p s' with
          | Some (b, a) => Some (String c b, a)
          | None => None
          end
      end
  end.

(** [s.startswith(p)] and [s.find(p)]. *)
Definition strip_prefix : string -> string -> option string :=
  prefix_by Ascii.eqb.

Definition find : string -> string -> option (string * string) :=
  find_by Ascii.eqb.

Definition startswith (p s : string) : bool :=
  match strip_prefix p s with Some _ => true | None => false end.

(** The same under [re.IGNORECASE]. *)
Definition ci_prefix : string -> string -> option string :=
  prefix_by ci_char.

Definition find_ci : string -> string -> option (string * string) :=
  find_by ci_char.

(** [p in s]. *)
Definition contains (p s : string) : bool :=
  match find p s with Some _ => true | None => false end.

Fixpoint lstrip (s : string) : string :=
  match s with
  | EmptyString => EmptyString
  | String c r => if isspace c then lstrip r else s
  end.

Fixpoint rstrip (s : string) : string :=
  match s with
  | EmptyString => EmptyString
  | String c r =>
      match rstrip r with
      | EmptyString => if isspace c then EmptyString else String c EmptyString
      | r' => String c r'
      end
  end.

Definition strip (s : string) : string := rstrip (lstrip s).

Definition newline : ascii := ascii_of_N 10.
Definition nl : string := String newline EmptyString.

(** [s.split('\n')]: never empty. *)
Fixpoint split_lines (s : string) : list string :=
  match s with
  | EmptyString => [EmptyString]
  | String c r =>
      if Ascii.eqb c newline then EmptyString :: split_lines r
      else match split_lines r with
           | l :: ls => String c l :: ls
           | [] => [String c EmptyString]
           end
  end.

(** [sep.join(l)]. *)
Fixpoint join (sep : string) (l : list string) : string :=
  match l with
  | [] => EmptyString
  | [x] => x
  | x :: rest => x +:+ sep +:+ join sep rest
  end.

(** [s[:n]]. *)
Fixpoint str_take (n : nat) (s : string) : string :=
  match n, s with
  | O, _ => EmptyString
  | _, EmptyString => EmptyString
  | S k, String c r => String c (str_take k r)
  end.

(** [l[lo:hi]] with Python's treatment of negative and oversized bounds. *)
Definition clamp_index (len i : Z) : Z :=
  if i <? 0 then Z.max 0 (i + len) else Z.min i len.

Definition slice {A} (l : list A) (lo hi : Z) : list A :=
  let len := Z.of_nat (length l) in
  let lo' := Z.to_nat (clamp_index len lo) in
  let hi' := Z.to_nat (clamp_index len hi) in
  drop lo' (take hi' l).

(** ** Values decoded from JSON *)

(** [None], [bool], [int], [str], [list] and [dict]; a [dict] lists each
    of its keys once, in insertion order. *)
Inductive json : Type :=
| JNull
| JBool (b : bool)
| JInt (n : Z)
| JStr (s : string)
| JArr (l : list json)
| JObj (fields : list (string * json)).

Fixpoint assoc (k : string) (fields : list (string * json)) : option json :=
  match fields with
  | [] => None
  | (k', v) :: rest => if String.eqb k k' then Some v else assoc k rest
  end.

Definition type_name (v : json) : string :=
  match v with
  | JNull => "NoneType"
  | JBool _ => "bool"
  | JInt _ => "int"
  | JStr _ => "str"
  | JArr _ => "list"
  | JObj _ => "dict"
  end.

Definition is_dict (v : json) : bool :=
  match v with JObj _ => true | _ => false end.

Definition no_attribute (v : json) (attr : string) : exn :=
  AttributeError
    ("'" +:+ type_name v +:+ "' object has no attribute '" +:+ attr +:+ "'").

(** [d.get(k, default)]; anything that is not a dict has no [get]. *)
Definition dict_get (d : json) (k : string) (default : json) : res json :=
  match d with
  | JObj fields =>
      Ok (match assoc k fields with Some v => v | None => default end)
  | _ => Raise (no_attribute d "get")
  end.

(** Truth value of a decoded value. *)
Definition truthy (v : json) : bool :=
  match v with
  | JNull => false
  | JBool b => b
  | JInt n => negb (n =? 0)
  | JStr s => negb (String.eqb s EmptyString)
  | JArr l => match l with [] => false | _ => true end
  | JObj f => match f with [] => false | _ => true end
  end.

(** Numbers: [int], and [bool] which Python treats as 0 and 1. *)
Definition as_num (v : json) : option Z :=
  match v with
  | JInt n => Some n
  | JBool b => Some (if b then 1 else 0)
  | _ => None
  end.

(** [v > n] for an integer [n]: an order between a number and anything
    else is a [TypeError]. *)
Definition gt_int (v : json) (n : Z) : res bool :=
  match as_num v with
  | Some m => Ok (n <? m)
  | None =>
      Raise (TypeError ("'>' not supported between instances of '"
                        +:+ type_name v +:+ "' and 'int'"))
  end.

(** [v == n] for an integer [n]: equality never raises. *)
Definition eq_int (v : json) (n : Z) : bool :=
  match as_num v with
  | Some m => m =? n
  | None => false
  end.

(** [v == s] for a string [s]. *)
Definition eq_str (v : json) (s : string) : bool :=
  match v with
  | JStr t => String.eqb t s
  | _ => false
  end.

(** [v == w] for two decoded values of which one is a number. *)
Definition eq_num (v w : json) : bool :=
  match as_num v, as_num w with
  | Some m, Some n => m =? n
  | _, _ => false
  end.

(** The items that [for x in v] visits. *)
Fixpoint chars (s : string) : list json :=
  match s with
  | EmptyString => []
  | String c r => JStr (String c EmptyString) :: chars r
  end.

Definition iter_items (v : json) : res (list json) :=
  match v with
  | JArr l => Ok l
  | JStr s => Ok (chars s)
  | JObj fields => Ok (map (fun kv => JStr (fst kv)) fields)
  | _ => Raise (TypeError ("'" +:+ type_name v +:+ "' object is not iterable"))
  end.

(** [v[:n]]. *)
Definition slice_to (n : nat) (v : json) : res json :=
  match v with
  | JStr s => Ok (JStr (str_take n s))
  | JArr l => Ok (JArr (take n l))
  | JObj _ => Raise (TypeError "unhashable type: 'slice'")
  | _ =>
      Raise (TypeError ("'" +:+ type_name v +:+ "' object is not subscriptable"))
  end.

(** An f-string before rendering: literal text and interpolated values. *)
Inductive frag : Type :=
| Lit (s : string)
| Fmt (v : json).

Definition fstring := list frag.

Definition of_nat (n : nat) : json := JInt (Z.of_nat n).

(** [str(n)] for an integer. *)
Definition decimal (n : Z) : string := NilZero.string_of_int (Z.to_int n).

(** [s.upper()] for ASCII text (the framework tags). *)
Definition upper_char (c : ascii) : ascii :=
  if is_lower_ascii c then ascii_of_N (code c - 32) else c.

Fixpoint upper (s : string) : string :=
  match s with
  | EmptyString => EmptyString
  | String c r => String (upper_char c) (upper r)
  end.

End Py.

Export Py.

(* ===================================================================== *)
(** * Regular expressions of the sources                                  *)
(* ===================================================================== *)

Module Re.

(** A matcher tells, for the text that starts at the current position,
    whether the pattern matches there and, if so, what text remains after
    the match and what group 1 captured.  Its first argument says whether
    the position is the start of a line ([^] under [re.MULTILINE]). *)
Definition matcher := bool -> string -> option (string * string).

Definition consumed (s rest : string) : nat :=
  (String.length s - String.length rest)%nat.

(** [re.search(p, s)]: group 1 of the leftmost match. *)
Fixpoint search_from (m : matcher) (bol : bool) (s : string) : option string :=
  match m bol s with
  | Some (_, g) => Some g
  | None =>
      match s with
      | EmptyString => None
      | String c r => search_from m (Ascii.eqb c newline) r
      end
  end.

Definition search (m : matcher) (s : string) : option string :=
  search_from m true s.

(** [re.findall(p, s)] for a pattern with one group: the captures of the
    successive non-overlapping matches.  [skip] counts the code points of
    the current match that are still to be passed over.  (None of the
    patterns of the sources matches the empty text.) *)
Fixpoint findall_from (m : matcher) (bol : bool) (skip : nat) (s : string)
  : list string :=
  match s with
  | EmptyString => []
  | String c r =>
      let bol' := Ascii.eqb c newline in
      match skip with
      | S k => findall_from m bol' k r
      | O =>
          match m bol s with
          | Some (rest, g) =>
              g :: findall_from m bol' (consumed s rest - 1) r
          | None => findall_from m bol' O r
          end
      end
  end.

Definition findall (m : matcher) (s : string) : list string :=
  findall_from m true O s.

(** [re.sub(p, "", s)]: every match is deleted. *)
Fixpoint sub_from (m : matcher) (bol : bool) (skip : nat) (s : string)
  : string :=
  match s with
  | EmptyString => EmptyString
  | String c r =>
      let bol' := Ascii.eqb c newline in
      match skip with
      | S k => sub_from m bol' k r
      | O =>
          match m bol s with
          | Some (rest, _) =>
              match consumed s rest with
              | O => String c (sub_from m bol' O r)
              | S k => sub_from m bol' k r
              end
          | None => String c (sub_from m bol' O r)
          end
      end
  end.

Definition sub (m : matcher) (s : string) : string := sub_from m true O s.

(** What remains of the text once the current line is passed: the
    newline that ends it and all that follows. *)
Fixpoint line_rest (s : string) : string :=
  match s with
  | EmptyString => EmptyString
  | String c r => if Ascii.eqb c newline then s else line_rest r
  end.

(** A tag pair with a lazy body between them, case-insensitive:
    [open([\s\S]*?)close]. *)
Definition tagged (open close : string) : matcher := fun _ s =>
  match ci_prefix open s with
  | Some rest =>
      match find_ci close rest with
      | Some (body, after) => Some (after, body)
      | None => None
      end
  | None => None
  end.

(** [<PYTEST_FILE>([\s\S]*?)</PYTEST_FILE>], [re.IGNORECASE]. *)
Definition marker : matcher := tagged "<PYTEST_FILE>" "</PYTEST_FILE>".

(** [<think>.*?</think>], [re.DOTALL | re.IGNORECASE]. *)
Definition think : matcher := tagged "<think>" "</think>".

Definition fence_text : string := "```".

(** [```(?:python)?], [re.IGNORECASE]. *)
Definition fence_python : matcher := fun _ s =>
  match strip_prefix fence_text s with
  | Some rest =>
      match ci_prefix "python" rest with
      | Some rest' => Some (rest', EmptyString)
      | None => Some (rest, EmptyString)
      end
  | None => None
  end.

(** [```]. *)
Definition fence : matcher := fun _ s =>
  match strip_prefix fence_text s with
  | Some rest => Some (rest, EmptyString)
  | None => None
  end.

(** [```(?:python)?\s*([\s\S]*?)```], [re.IGNORECASE].  The optional word
    and the white space are greedy, the body is lazy; none of the code
    points they take is a backquote, so giving some back never finds a
    closing fence that the greedy choice misses. *)
Definition fenced_block : matcher := fun _ s =>
  match strip_prefix fence_text s with
  | Some rest =>
      let rest' := match ci_prefix "python" rest with
                   | Some r => r
                   | None => rest
                   end in
      match find fence_text (lstrip rest') with
      | Some (body, after) => Some (after, body)
      | None => None
      end
  | None => None
  end.

(** [^import\s+.*$], [re.MULTILINE].  [\s+] may run over newlines; [.*]
    stops at the next newline, where [$] holds. *)
Definition import_line : matcher := fun bol s =>
  if bol then
    match strip_prefix "import" s with
    | Some rest =>
        match rest with
        | String w _ =>
            if isspace w then Some (line_rest (lstrip rest), EmptyString)
            else None
        | EmptyString => None
        end
    | None => None
    end
  else None.

(** The text after the last [import] of the current line that is followed
    by white space (the newline that ends the line counts). *)
Fixpoint last_import (s : string) : option string :=
  match s with
  | EmptyString => None
  | String c r =>
      if Ascii.eqb c newline then None
      else
        match last_import r with
        | Some x => Some x
        | None =>
            match strip_prefix "import" s with
            | Some (String w t) =>
                if isspace w then Some (String w t) else None
            | _ => None
            end
        end
  end.

(** [^from\s+.*import\s+.*$], [re.MULTILINE].  The first [\s+] takes the
    whole run of white space, the first [.*] the longest stretch of the
    line that is still followed by [import] and white space; a shorter
    [\s+] leaves [.*] inside the run or on the same line, so it finds
    nothing more. *)
Definition from_import_line : matcher := fun bol s =>
  if bol then
    match strip_prefix "from" s with
    | Some rest =>
        match rest with
        | String w _ =>
            if isspace w then
              match last_import (lstrip rest) with
              | Some after => Some (line_rest (lstrip after), EmptyString)
              | None => None
              end
            else None
        | EmptyString => None
        end
    | None => None
    end
  else None.

(** [m = re.search(p, s)] read through [m.start()]: the text before the
    leftmost match and the text from its first code point on. *)
Fixpoint search_span_from (m : matcher) (bol : bool) (s : string)
  : option (string * string) :=
  match m bol s with
  | Some _ => Some (EmptyString, s)
  | None =>
      match s with
      | EmptyString => None
      | String c r =>
          match search_span_from m (Ascii.eqb c newline) r with
          | Some (before, at_match) => Some (String c before, at_match)
          | None => None
          end
      end
  end.

Definition search_span (m : matcher) (s : string)
  : option (string * string) :=
  search_span_from m true s.

End Re.

(* ===================================================================== *)
(** * src/utils/parser.py                                                 *)
(* ===================================================================== *)

Module Ast.

(** The part of a Python syntax tree that the code looks at.  [children]
    lists the child nodes in the order of [ast.iter_child_nodes]; the body
    of a class is kept apart from the children that precede it (bases,
    keywords) and follow it (decorators). *)
Inductive node : Type :=
| FunctionDef (name : string) (lineno end_lineno : Z) (children : list node)
| ClassDef (name : string) (lineno end_lineno : Z)
           (before body after : list node)
| Other (children : list node).

Definition children_of (n : node) : list node :=
  match n with
  | FunctionDef _ _ _ ch => ch
  | ClassDef _ _ _ before body after => before ++ body ++ after
  | Other ch => ch
  end.

Fixpoint size (n : node) : nat :=
  let fix sizes (l : list node) : nat :=
    match l with
    | [] => O
    | x :: r => (size x + sizes r)%nat
    end in
  match n with
  | FunctionDef _ _ _ ch => S (sizes ch)
  | ClassDef _ _ _ before body after =>
      S (sizes before + (sizes body + sizes after))%nat
  | Other ch => S (sizes ch)
  end.

Fixpoint sizes (l : list node) : nat :=
  match l with
  | [] => O
  | x :: r => (size x + sizes r)%nat
  end.

(** [ast.walk]: breadth first, from a queue. *)
Fixpoint walk_queue (fuel : nat) (queue : list node) : list node :=
  match fuel with
  | O => []
  | S f =>
      match queue with
      | [] => []
      | n :: q => n :: walk_queue f (q ++ children_of n)
      end
  end.

Definition walk (tree : node) : list node := walk_queue (size tree) [tree].

End Ast.

Module Parser.

Import Ast.

Definition stopwords : list string :=
  ["module"; "key"; "class"; "object"; "property"; "input"; "output";
   "returns"; "return"].

Definition elem (x : string) (l : list string) : bool :=
  existsb (String.eqb x) l.

(** The loop that removes duplicates while preserving order. *)
Fixpoint unique_loop (functions : list string) (seen : gset string)
    (unique_functions : list string) : list string :=
  match functions with
  | [] => unique_functions
  | func :: rest =>
      if bool_decide (func ∉ seen)
         && negb (startswith "_" func)
         && negb (elem (lower func) stopwords)
      then unique_loop rest ({[func]} ∪ seen) (unique_functions ++ [func])
      else unique_loop rest seen unique_functions
  end.

Section Readme.

(** [re.findall(pattern, text)] or [re.findall(pattern, text,
    re.MULTILINE)] for the name patterns, each of which has one group:
    the list of the captured names. *)
Variable re_findall : string -> bool -> string -> list string.

Definition pattern1 : string := "def\s+([a-zA-Z_][a-zA-Z0-9_]*)\s*\(".
Definition pattern2 : string := "def\s+([a-zA-Z_][a-zA-Z0-9_]*)\s*\(self".
Definition pattern3 : string := "`([a-zA-Z_][a-zA-Z0-9_]*)\s*\([^)]*\)`".
Definition pattern4 : string := "###\s+([a-zA-Z_][a-zA-Z0-9_]*)\s*\(".
Definition pattern5 : string :=
  "^\s*([a-zA-Z_][a-zA-Z0-9_]*)\s*\([^)]*\)(?:\s*$|\s*[-:])".
Definition pattern6 : string :=
  "\*\*([a-zA-Z_][a-zA-Z0-9_]*)\s*\([^)]*\)\*\*".
Definition pattern7 : string := "[-•]\s*([a-zA-Z_][a-zA-Z0-9_]*)\s*\(".
Definition pattern8 : string :=
  "[-•]\s*`[A-Z]+\s+/[^`]*`.*?[-–—]\s*`?([a-zA-Z_][a-zA-Z0-9_]*)\s*\(".

Definition readme_matches (readme : string) : list string :=
  re_findall pattern1 false readme
  ++ re_findall pattern2 false readme
  ++ re_findall pattern3 false readme
  ++ re_findall pattern4 false readme
  ++ re_findall pattern5 true readme
  ++ re_findall pattern6 false readme
  ++ re_findall pattern7 false readme
  ++ re_findall pattern8 false readme.

Definition extract_functions_from_readme (readme : string) : list string :=
  take 20 (unique_loop (readme_matches readme) ∅ []).

End Readme.

Section Source.

(** [ast.parse]. *)
Variable ast_parse : string -> res node.

Definition public_function_name (n : node) : option string :=
  match n with
  | FunctionDef name _ _ _ =>
      if startswith "_" name then None else Some name
  | _ => None
  end.

Definition extract_functions_from_python_file (python_code : string)
  : list string :=
  match ast_parse python_code with
  | Ok tree => take 20 (omap public_function_name (walk tree))
  | Raise _ => []
  end.

Definition source_lines (user_code : string) (lineno end_lineno : Z)
  : string :=
  join nl (slice (split_lines user_code) (lineno - 1) end_lineno).

Definition is_target_method (names : list string) (item : node) : bool :=
  match item with
  | FunctionDef name _ _ _ => elem name names
  | _ => false
  end.

(** The loop over [ast.walk(tree)]. *)
Fixpoint extract_loop (user_code : string) (names : list string)
    (nodes : list node) (extracted_items : list string)
    (extracted_names : gset string) : list string :=
  match nodes with
  | [] => extracted_items
  | FunctionDef name lineno end_lineno _ :: rest =>
      if elem name names && bool_decide (name ∉ extracted_names)
      then extract_loop user_code names rest
             (extracted_items ++ [source_lines user_code lineno end_lineno])
             ({[name]} ∪ extracted_names)
      else extract_loop user_code names rest extracted_items extracted_names
  | ClassDef name lineno end_lineno _ body _ :: rest =>
      if existsb (is_target_method names) body
         && bool_decide (name ∉ extracted_names)
      then extract_loop user_code names rest
             (extracted_items ++ [source_lines user_code lineno end_lineno])
             ({[name]} ∪ extracted_names)
      else extract_loop user_code names rest extracted_items extracted_names
  | Other _ :: rest =>
      extract_loop user_code names rest extracted_items extracted_names
  end.

Definition external_packages : list string :=
  ["requests"; "urllib3"; "chardet"; "idna"].

Definition is_essential_import (line : string) : bool :=
  (startswith "import " (strip line) || startswith "from " (strip line))
  && negb (existsb (fun pkg => contains pkg line) external_packages).

Definition extract_user_functions (user_code : string)
    (detected_function_names : list string) : string :=
  match ast_parse user_code with
  | Raise _ => user_code
  | Ok tree =>
      match extract_loop user_code detected_function_names (walk tree) [] ∅
      with
      | [] => user_code
      | extracted_items =>
          let result := join (nl +:+ nl) extracted_items in
          match List.filter is_essential_import (split_lines user_code) with
          | [] => result
          | essential_imports =>
              join nl essential_imports +:+ nl +:+ nl +:+ result
          end
      end
  end.

End Source.

Definition detect_framework (user_code : string) : string :=
  let code_lower := lower user_code in
  if contains "from flask import" code_lower
     || contains "import flask" code_lower then "flask"
  else if contains "from django" code_lower
          || contains "import django" code_lower then "django"
  else if contains "from fastapi import" code_lower
          || contains "import fastapi" code_lower then "fastapi"
  else "generic".

(** [extract_code]: the reasoning blocks and the fence markers are deleted
    from the whole text before the marker region is looked for. *)
Definition clean (raw : string) : string :=
  strip (Re.sub Re.fence (Re.sub Re.fence_python (Re.sub Re.think raw))).

Definition extract_code (raw : string) : string :=
  if String.eqb raw EmptyString then EmptyString
  else
    let raw := clean raw in
    match Re.search Re.marker raw with
    | Some group1 => strip group1
    | None => strip raw
    end.

End Parser.

(* ===================================================================== *)
(** * The outside world                                                   *)
(* ===================================================================== *)

Module World.

(** What one run of the pytest subprocess does: it ends with a return
    code and its two streams, or [subprocess.run] raises (time-out,
    missing executable); either way it may have written the report. *)
Inductive outcome : Type :=
| Exited (returncode : Z) (stdout stderr : string)
| Failed (e : exn).

Record process : Type := {
  proc_outcome : outcome;
  proc_report : option string
}.

(** The files of the working directory and the number of calls made so
    far to each external service. *)
Record world : Type := {
  files : gmap string string;
  pytest_runs : nat;
  generator_calls : nat;
  critic_calls : nat;
  reporter_calls : nat
}.

Definition report_path : string := ".report.json".

Definition set_files (f : gmap string string) (w : world) : world :=
  {| files := f; pytest_runs := pytest_runs w;
     generator_calls := generator_calls w; critic_calls := critic_calls w;
     reporter_calls := reporter_calls w |}.

(** [os.path.exists(p)], [os.remove(p)] and writing a whole file. *)
Definition exists_file (p : string) (w : world) : bool :=
  bool_decide (is_Some (files w !! p)).

Definition remove_file (p : string) (w : world) : world :=
  set_files (delete p (files w)) w.

Definition write_file (p content : string) (w : world) : world :=
  set_files (<[p := content]> (files w)) w.

Definition tick_pytest (w : world) : world :=
  {| files := files w; pytest_runs := S (pytest_runs w);
     generator_calls := generator_calls w; critic_calls := critic_calls w;
     reporter_calls := reporter_calls w |}.

Definition tick_generator (w : world) : world :=
  {| files := files w; pytest_runs := pytest_runs w;
     generator_calls := S (generator_calls w); critic_calls := critic_calls w;
     reporter_calls := reporter_calls w |}.

Definition tick_critic (w : world) : world :=
  {| files := files w; pytest_runs := pytest_runs w;
     generator_calls := generator_calls w; critic_calls := S (critic_calls w);
     reporter_calls := reporter_calls w |}.

Definition tick_reporter (w : world) : world :=
  {| files := files w; pytest_runs := pytest_runs w;
     generator_calls := generator_calls w; critic_calls := critic_calls w;
     reporter_calls := S (reporter_calls w) |}.

(** The subprocess runs: the report it writes, if any, replaces the file. *)
Definition after_process (p : process) (w : world) : world :=
  tick_pytest
    match proc_report p with
    | Some content => write_file report_path content w
    | None => w
    end.

Definition empty_world : world :=
  {| files := ∅; pytest_runs := O; generator_calls := O;
     critic_calls := O; reporter_calls := O |}.

End World.

(* ===================================================================== *)
(** * src/graph/state.py, src/graph/nodes.py, src/graph/builder.py        *)
(* ===================================================================== *)

Module Graph.

Import World.

Record entry : Type := { agent : string; action : fstring }.

Record iter_result : Type := {
  ir_iteration : Z;
  ir_collected : json;
  ir_passed : json;
  ir_failed : json;
  ir_errors : json
}.

Record GraphState : Type := {
  readme_content : string;
  user_functions : string;
  detected_functions : list string;
  num_functions : Z;
  iteration_results : list iter_result;
  test_code : string;
  combined_code : string;
  pytest_output : string;
  pytest_stderr : string;
  return_code : Z;
  report : json;
  iteration : Z;
  max_iterations : Z;
  feedback : json;
  status : json;
  final_message : string;
  history : list entry;
  framework : string;
  previous_errors : list string
}.

Definition set_detected_functions (v : list string) (st : GraphState) : GraphState :=
  {| readme_content := readme_content st;
     user_functions := user_functions st;
     detected_functions := v;
     num_functions := num_functions st;
     iteration_results := iteration_results st;
     test_code := test_code st;
     combined_code := combined_code st;
     pytest_output := pytest_output st;
     pytest_stderr := pytest_stderr st;
     return_code := return_code st;
     report := report st;
     iteration := iteration st;
     max_iterations := max_iterations st;
     feedback := feedback st;
     status := status st;
     final_message := final_message st;
     history := history st;
     framework := framework st;
     previous_errors := previous_errors st |}.

Definition set_num_functions (v : Z) (st : GraphState) : GraphState :=
  {| readme_content := readme_content st;
     user_functions := user_functions st;
     detected_functions := detected_functions st;
     num_functions := v;
     iteration_results := iteration_results st;
     test_code := test_code st;
     combined_code := combined_code st;
     pytest_output := pytest_output st;
     pytest_stderr := pytest_stderr st;
     return_code := return_code st;
     report := report st;
     iteration := iteration st;
     max_iterations := max_iterations st;
     feedback := feedback st;
     status := status st;
     final_message := final_message st;
     history := history st;
     framework := framework st;
     previous_errors := previous_errors st |}.

Definition set_iteration_results (v : list iter_result) (st : GraphState) : GraphState :=
  {| readme_content := readme_content st;
     user_functions := user_functions st;
     detected_functions := detected_functions st;
     num_functions := num_functions st;
     iteration_results := v;
     test_code := test_code st;
     combined_code := combined_code st;
     pytest_output := pytest_output st;
     pytest_stderr := pytest_stderr st;
     return_code := return_code st;
     report := report st;
     iteration := iteration st;
     max_iterations := max_iterations st;
     feedback := feedback st;
     status := status st;
     final_message := final_message st;
     history := history st;
     framework := framework st;
     previous_errors := previous_errors st |}.

Definition set_test_code (v : string) (st : GraphState) : GraphState :=
  {| readme_content := readme_content st;
     user_functions := user_functions st;
     detected_functions := detected_functions st;
     num_functions := num_functions st;
     iteration_results := iteration_results st;
     test_code := v;
     combined_code := combined_code st;
     pytest_output := pytest_output st;
     pytest_stderr := pytest_stderr st;
     return_code := return_code st;
     report := report st;
     iteration := iteration st;
     max_iterations := max_iterations st;
     feedback := feedback st;
     status := status st;
     final_message := final_message st;
     history := history st;
     framework := framework st;
     previous_errors := previous_errors st |}.

Definition set_combined_code (v : string) (st : GraphState) : GraphState :=
  {| readme_content := readme_content st;
     user_functions := user_functions st;
     detected_functions := detected_functions st;
     num_functions := num_functions st;
     iteration_results := iteration_results st;
     test_code := test_code st;
     combined_code := v;
     pytest_output := pytest_output st;
     pytest_stderr := pytest_stderr st;
     return_code := return_code st;
     report := report st;
     iteration := iteration st;
     max_iterations := max_iterations st;
     feedback := feedback st;
     status := status st;
     final_message := final_message st;
     history := history st;
     framework := framework st;
     previous_errors := previous_errors st |}.

Definition set_pytest_output (v : string) (st : GraphState) : GraphState :=
  {| readme_content := readme_content st;
     user_functions := user_functions st;
     detected_functions := detected_functions st;
     num_functions := num_functions st;
     iteration_results := iteration_results st;
     test_code := test_code st;
     combined_code := combined_code st;
     pytest_output := v;
     pytest_stderr := pytest_stderr st;
     return_code := return_code st;
     report := report st;
     iteration := iteration st;
     max_iterations := max_iterations st;
     feedback := feedback st;
     status := status st;
     final_message := final_message st;
     history := history st;
     framework := framework st;
     previous_errors := previous_errors st |}.

Definition set_pytest_stderr (v : string) (st : GraphState) : GraphState :=
  {| readme_content := readme_content st;
     user_functions := user_functions st;
     detected_functions := detected_functions st;
     num_functions := num_functions st;
     iteration_results := iteration_results st;
     test_code := test_code st;
     combined_code := combined_code st;
     pytest_output := pytest_output st;
     pytest_stderr := v;
     return_code := return_code st;
     report := report st;
     iteration := iteration st;
     max_iterations := max_iterations st;
     feedback := feedback st;
     status := status st;
     final_message := final_message st;
     history := history st;
     framework := framework st;
     previous_errors := previous_errors st |}.

Definition set_return_code (v : Z) (st : GraphState) : GraphState :=
  {| readme_content := readme_content st;
     user_functions := user_functions st;
     detected_functions := detected_functions st;
     num_functions := num_functions st;
     iteration_results := iteration_results st;
     test_code := test_code st;
     combined_code := combined_code st;
     pytest_output := pytest_output st;
     pytest_stderr := pytest_stderr st;
     return_code := v;
     report := report st;
     iteration := iteration st;
     max_iterations := max_iterations st;
     feedback := feedback st;
     status := status st;
     final_message := final_message st;
     history := history st;
     framework := framework st;
     previous_errors := previous_errors st |}.

Definition set_report (v : json) (st : GraphState) : GraphState :=
  {| readme_content := readme_content st;
     user_functions := user_functions st;
     detected_functions := detected_functions st;
     num_functions := num_functions st;
     iteration_results := iteration_results st;
     test_code := test_code st;
     combined_code := combined_code st;
     pytest_output := pytest_output st;
     pytest_stderr := pytest_stderr st;
     return_code := return_code st;
     report := v;
     iteration := iteration st;
     max_iterations := max_iterations st;
     feedback := feedback st;
     status := status st;
     final_message := final_message st;
     history := history st;
     framework := framework st;
     previous_errors := previous_errors st |}.

Definition set_iteration (v : Z) (st : GraphState) : GraphState :=
  {| readme_content := readme_content st;
     user_functions := user_functions st;
     detected_functions := detected_functions st;
     num_functions := num_functions st;
     iteration_results := iteration_results st;
     test_code := test_code st;
     combined_code := combined_code st;
     pytest_output := pytest_output st;
     pytest_stderr := pytest_stderr st;
     return_code := return_code st;
     report := report st;
     iteration := v;
     max_iterations := max_iterations st;
     feedback := feedback st;
     status := status st;
     final_message := final_message st;
     history := history st;
     framework := framework st;
     previous_errors := previous_errors st |}.

Definition set_feedback (v : json) (st : GraphState) : GraphState :=
  {| readme_content := readme_content st;
     user_functions := user_functions st;
     detected_functions := detected_functions st;
     num_functions := num_functions st;
     iteration_results := iteration_results st;
     test_code := test_code st;
     combined_code := combined_code st;
     pytest_output := pytest_output st;
     pytest_stderr := pytest_stderr st;
     return_code := return_code st;
     report := report st;
     iteration := iteration st;
     max_iterations := max_iterations st;
     feedback := v;
     status := status st;
     final_message := final_message st;
     history := history st;
     framework := framework st;
     previous_errors := previous_errors st |}.

Definition set_status (v : json) (st : GraphState) : GraphState :=
  {| readme_content := readme_content st;
     user_functions := user_functions st;
     detected_functions := detected_functions st;
     num_functions := num_functions st;
     iteration_results := iteration_results st;
     test_code := test_code st;
     combined_code := combined_code st;
     pytest_output := pytest_output st;
     pytest_stderr := pytest_stderr st;
     return_code := return_code st;
     report := report st;
     iteration := iteration st;
     max_iterations := max_iterations st;
     feedback := feedback st;
     status := v;
     final_message := final_message st;
     history := history st;
     framework := framework st;
     previous_errors := previous_errors st |}.

Definition set_final_message (v : string) (st : GraphState) : GraphState :=
  {| readme_content := readme_content st;
     user_functions := user_functions st;
     detected_functions := detected_functions st;
     num_functions := num_functions st;
     iteration_results := iteration_results st;
     test_code := test_code st;
     combined_code := combined_code st;
     pytest_output := pytest_output st;
     pytest_stderr := pytest_stderr st;
     return_code := return_code st;
     report := report st;
     iteration := iteration st;
     max_iterations := max_iterations st;
     feedback := feedback st;
     status := status st;
     final_message := v;
     history := history st;
     framework := framework st;
     previous_errors := previous_errors st |}.

Definition set_history (v : list entry) (st : GraphState) : GraphState :=
  {| readme_content := readme_content st;
     user_functions := user_functions st;
     detected_functions := detected_functions st;
     num_functions := num_functions st;
     iteration_results := iteration_results st;
     test_code := test_code st;
     combined_code := combined_code st;
     pytest_output := pytest_output st;
     pytest_stderr := pytest_stderr st;
     return_code := return_code st;
     report := report st;
     iteration := iteration st;
     max_iterations := max_iterations st;
     feedback := feedback st;
     status := status st;
     final_message := final_message st;
     history := v;
     framework := framework st;
     previous_errors := previous_errors st |}.

Definition set_framework (v : string) (st : GraphState) : GraphState :=
  {| readme_content := readme_content st;
     user_functions := user_functions st;
     detected_functions := detected_functions st;
     num_functions := num_functions st;
     iteration_results := iteration_results st;
     test_code := test_code st;
     combined_code := combined_code st;
     pytest_output := pytest_output st;
     pytest_stderr := pytest_stderr st;
     return_code := return_code st;
     report := report st;
     iteration := iteration st;
     max_iterations := max_iterations st;
     feedback := feedback st;
     status := status st;
     final_message := final_message st;
     history := history st;
     framework := v;
     previous_errors := previous_errors st |}.

Definition log (a : string) (act : fstring) (st : GraphState) : GraphState :=
  set_history (history st ++ [{| agent := a; action := act |}]) st.

(** The values that the prompt templates interpolate. *)
Record generator_prompt : Type := {
  gp_num_functions : Z;
  gp_function_list : string;
  gp_framework : string;
  gp_framework_instructions : string;
  gp_feedback : json;
  gp_readme_preview : string;
  gp_user_functions_preview : string
}.

Record failed_test : Type := { ft_name : json; ft_error : json }.

Record critic_prompt : Type := {
  cp_framework : string;
  cp_passed : json;
  cp_collected : json;
  cp_iteration : Z;
  cp_max_iterations : Z;
  cp_failed_tests : list failed_test;
  cp_stderr : string
}.

Record reporter_prompt : Type := {
  rp_status : json;
  rp_iteration : Z;
  rp_framework : string;
  rp_num_functions : Z;
  rp_passed : json;
  rp_collected : json;
  rp_all_passed : bool
}.

Inductive route : Type := generate | reporter.

Section Nodes.

(** The libraries and services behind the nodes.  A language model is
    asked with the values of its prompt and answers with the content
    of its message; the second argument counts the earlier calls, since
    the same prompt need not get the same answer twice.  The services
    are modelled when they answer. *)
Variable re_findall : string -> bool -> string -> list string.
Variable ast_parse : string -> res Ast.node.
Variable json_loads : string -> res json.
Variable pytest : nat -> gmap string string -> process.
Variable llm_generator : nat -> generator_prompt -> string.
Variable llm_critic : nat -> critic_prompt -> string.
Variable llm_reporter : nat -> reporter_prompt -> string.

(** ** Test execution *)

Definition run_pytest_json (test_file : string) (w : world)
  : (Z * json * string * string) * world :=
  let w := if exists_file report_path w then remove_file report_path w
           else w in
  let p := pytest (pytest_runs w) (files w) in
  let w := after_process p w in
  match proc_outcome p with
  | Failed e => ((-1, JNull, EmptyString, exn_str e), w)
  | Exited returncode stdout stderr =>
      match files w !! report_path with
      | Some content =>
          match json_loads content with
          | Ok report => ((returncode, report, stdout, stderr), w)
          | Raise e => ((-1, JNull, EmptyString, exn_str e), w)
          end
      | None => ((returncode, JNull, stdout, stderr), w)
      end
  end.

(** ** Agent nodes *)

Definition function_detector_node (state : GraphState) : GraphState :=
  let state :=
    log "detector" [Lit "Starting function detection."] state in
  let functions_from_readme :=
    Parser.extract_functions_from_readme re_findall
      (readme_content state) in
  let functions_from_code :=
    Parser.extract_functions_from_python_file ast_parse
      (user_functions state) in
  let state :=
    set_framework (Parser.detect_framework (user_functions state)) state in
  let '(functions, act) :=
    match functions_from_readme, functions_from_code with
    | _ :: _, _ =>
        (functions_from_readme,
         [Lit "Detected "; Fmt (of_nat (length functions_from_readme));
          Lit " functions from README."])
    | [], _ :: _ =>
        (functions_from_code,
         [Lit "No functions in README, but found ";
          Fmt (of_nat (length functions_from_code)); Lit " in code."])
    | [], [] =>
        ([], [Lit "No functions detected in either README or code."])
    end in
  let state := set_detected_functions functions state in
  let state := set_num_functions (Z.of_nat (length functions)) state in
  log "detector" act state.

Definition flask_instructions : string :=
  join nl
    ["FLASK-SPECIFIC REQUIREMENTS:";
     "- Use the `client` fixture for all route tests.";
     "- Test routes using `client.get()` or `client.post()`.";
     "- ALL test functions MUST have 'client' as a parameter."].

Definition fastapi_instructions : string :=
  join nl
    ["FASTAPI-SPECIFIC REQUIREMENTS:";
     "- Use `TestClient` from `fastapi.testclient`.";
     "- Test endpoints using `client.get()` or `client.post()`."].

Definition test_generator_node (state : GraphState) (w : world)
  : GraphState * world :=
  let fw := framework state in
  let framework_instructions :=
    if String.eqb fw "flask" then flask_instructions
    else if String.eqb fw "fastapi" then fastapi_instructions
    else EmptyString in
  let prompt :=
    {| gp_num_functions := num_functions state;
       gp_function_list := join ", " (detected_functions state);
       gp_framework := upper fw;
       gp_framework_instructions := framework_instructions;
       gp_feedback := feedback state;
       gp_readme_preview := str_take 2500 (readme_content state);
       gp_user_functions_preview := str_take 2500 (user_functions state)
    |} in
  let response := llm_generator (generator_calls w) prompt in
  let w := tick_generator w in
  let state := set_test_code (Parser.extract_code response) state in
  (log "generator"
     [Lit "Generated "; Fmt (JInt (num_functions state));
      Lit " test functions for "; Fmt (JStr fw); Lit " framework."] state,
   w).

Definition flask_combined (filtered_functions test : string) : string :=
  join nl
    [EmptyString;
     "import pytest";
     "from flask import Flask, request";
     EmptyString;
     "app = Flask(__name__)";
     filtered_functions;
     EmptyString;
     "@pytest.fixture";
     "def client():";
     "    app.config['TESTING'] = True";
     "    with app.test_client() as client:";
     "        yield client";
     EmptyString;
     test;
     EmptyString].

Definition generic_combined (filtered_functions test : string) : string :=
  join nl [EmptyString; filtered_functions; EmptyString; test; EmptyString].

Definition clean_imports (code : string) : string :=
  Re.sub Re.from_import_line (Re.sub Re.import_line code).

Definition combiner_node (state : GraphState) : GraphState :=
  let fw := framework state in
  let filtered_functions :=
    Parser.extract_user_functions ast_parse
      (user_functions state) (detected_functions state) in
  let filtered_functions := clean_imports filtered_functions in
  let combined :=
    if String.eqb fw "flask"
    then flask_combined filtered_functions (test_code state)
    else generic_combined filtered_functions (test_code state) in
  let state := set_combined_code combined state in
  log "combiner"
    [Lit "Combined code for "; Fmt (JStr fw); Lit " framework."] state.

Definition test_file_path : string := "test_combined.py".

Definition execution_node (state : GraphState) (w : world)
  : res (GraphState * world) :=
  let w := write_file test_file_path (combined_code state) w in
  let '((returncode, rep, stdout, stderr), w) :=
    run_pytest_json test_file_path w in
  let state := set_return_code returncode state in
  let state := set_report (if truthy rep then rep else JObj []) state in
  let state := set_pytest_output stdout state in
  let state := set_pytest_stderr stderr state in
  let* summary :=
    (if truthy rep then dict_get rep "summary" (JObj [])
     else Ok (JObj [])) in
  let* collected := dict_get summary "collected" (JInt 0) in
  let* passed := dict_get summary "passed" (JInt 0) in
  let* failed := dict_get summary "failed" (JInt 0) in
  let* errors := dict_get summary "errors" (JInt 0) in
  let state :=
    set_iteration_results
      (iteration_results state
       ++ [{| ir_iteration := iteration state; ir_collected := collected;
              ir_passed := passed; ir_failed := failed;
              ir_errors := errors |}]) state in
  Ok (log "executor"
        [Lit "Executed tests. Return code: "; Fmt (JInt returncode);
         Lit "."] state, w).

(** The loop that collects the failed tests of the report. *)
Fixpoint collect_failed (tests : list json) (failed_tests : list failed_test)
  : res (list failed_test) :=
  match tests with
  | [] => Ok failed_tests
  | test :: rest =>
      let* outcome := dict_get test "outcome" JNull in
      if eq_str outcome "failed" || eq_str outcome "error" then
        let* name := dict_get test "nodeid" (JStr EmptyString) in
        let* longrepr := dict_get test "longrepr" (JStr EmptyString) in
        let* error := slice_to 400 longrepr in
        collect_failed rest
          (failed_tests ++ [{| ft_name := name; ft_error := error |}])
      else collect_failed rest failed_tests
  end.

(** The part of the critic that reads the answer of the model. *)
Definition critic_verdict (content : string) (state : GraphState)
  : res GraphState :=
  let* result :=
    match json_loads content with
    | Ok v => Ok v
    | Raise e =>
        if is_json_decode_error e
        then Ok (JObj [("status", JStr "needs_fix");
                       ("feedback",
                        JStr "Critic response was not valid JSON.")])
        else Raise e
    end in
  let* st := dict_get result "status" (JStr "needs_fix") in
  let state := set_status st state in
  let* fb := dict_get result "feedback" (JStr "No feedback provided.") in
  let state := set_feedback fb state in
  let state :=
    log "critic"
      [Lit "Analysis: "; Fmt (status state); Lit ". Feedback: ";
       Fmt (feedback state)] state in
  Ok (if eq_str (status state) "needs_fix"
      then set_iteration (iteration state + 1) state
      else state).

Definition critic_node (state : GraphState) (w : world)
  : res (GraphState * world) :=
  let* summary := dict_get (report state) "summary" (JObj []) in
  let* collected := dict_get summary "collected" (JInt 0) in
  let* passed := dict_get summary "passed" (JInt 0) in
  let* positive := gt_int collected 0 in
  if positive && eq_num passed collected then
    let state := set_status (JStr "success") state in
    let state :=
      set_feedback (JStr "All tests passed successfully.") state in
    Ok (log "critic"
          [Lit "SUCCESS - "; Fmt passed; Lit "/"; Fmt collected;
           Lit " tests passed."] state, w)
  else
    let* tests := dict_get (report state) "tests" JNull in
    let* failed_tests :=
      (if truthy tests then
         let* items := iter_items tests in collect_failed items []
       else Ok []) in
    let prompt :=
      {| cp_framework := upper (framework state);
         cp_passed := passed;
         cp_collected := collected;
         cp_iteration := iteration state;
         cp_max_iterations := max_iterations state;
         cp_failed_tests := take 3 failed_tests;
         cp_stderr := str_take 800 (pytest_stderr state) |} in
    let response := llm_critic (critic_calls w) prompt in
    let w := tick_critic w in
    let* state := critic_verdict response state in
    Ok (state, w).

Definition reporter_node (state : GraphState) (w : world)
  : res (GraphState * world) :=
  let* summary := dict_get (report state) "summary" (JObj []) in
  let* passed := dict_get summary "passed" (JInt 0) in
  let* collected := dict_get summary "collected" (JInt 0) in
  let prompt :=
    {| rp_status := status state;
       rp_iteration := iteration state;
       rp_framework := upper (framework state);
       rp_num_functions := num_functions state;
       rp_passed := passed;
       rp_collected := collected;
       rp_all_passed := eq_str (status state) "success" |} in
  let response := llm_reporter (reporter_calls w) prompt in
  let w := tick_reporter w in
  let state := set_final_message response state in
  Ok (log "reporter" [Lit "Final report generated."] state, w).

(** ** Routing logic (builder.py)

    The name that the function returns, and its argument as the function
    leaves it. *)

Definition should_continue (state : GraphState) : route * GraphState :=
  if eq_str (status state) "success" then (reporter, state)
  else if max_iterations state <? iteration state then
    (reporter, set_status (JStr "max_iterations") state)
  else if eq_str (status state) "needs_fix" then (generate, state)
  else (reporter, state).

(** ** The compiled graph

    [detect -> generate -> combine -> execute -> critic], then the
    conditional edge; [reporter -> END].  The state that a node returns
    is the state the next node receives.  The function of the
    conditional edge chooses the next node and nothing else: the graph
    takes the name it returns and drops what it has assigned to its
    argument.

    main.py and app.py stream the graph without a [recursion_limit], so
    that the limit is 25 super-steps, one for each node that runs.  The
    detector is super-step 1; the cycle that follows [ran] cycles takes
    the super-steps [4 * ran + 2] to [4 * ran + 5], and the reporter
    after [ran] cycles is super-step [4 * ran + 2].  A node that is due
    after the limit is not run, and the run ends with
    [GraphRecursionError].  As 25 is [4 * 6 + 1], the limit falls between
    two cycles: a cycle is run as a whole or not at all. *)

Definition cycle (state : GraphState) (w : world)
  : res (GraphState * world) :=
  let '(state, w) := test_generator_node state w in
  let state := combiner_node state in
  let* (state, w) := execution_node state w in
  critic_node state w.

Definition recursion_limit : nat := 25.

Definition recursion_error : exn :=
  GraphRecursionError
    "Recursion limit of 25 reached without hitting a stop condition.".

(** [fuel] bounds the number of cycles; [None] means that it ran out.
    [ran] counts the cycles that have been run. *)
Fixpoint loop (fuel : nat) (ran : nat) (state : GraphState) (w : world)
  : option (res (GraphState * world)) :=
  match fuel with
  | O => None
  | S fuel' =>
      if (recursion_limit <? 4 * ran + 5)%nat
      then Some (Raise recursion_error)
      else
        match cycle state w with
        | Raise e => Some (Raise e)
        | Ok (state, w) =>
            match fst (should_continue state) with
            | generate => loop fuel' (S ran) state w
            | reporter =>
                if (recursion_limit <? 4 * S ran + 2)%nat
                then Some (Raise recursion_error)
                else Some (reporter_node state w)
            end
        end
  end.

Definition main_graph (fuel : nat) (initial_state : GraphState) (w : world)
  : option (res (GraphState * world)) :=
  loop fuel 0 (function_detector_node initial_state) w.

End Nodes.

(** The initial state that main.py and app.py build. *)
Definition initial_state (readme user : string) (max_iter : Z) : GraphState :=
  {| readme_content := readme;
     user_functions := user;
     detected_functions := [];
     num_functions := 0;
     iteration_results := [];
     test_code := EmptyString;
     combined_code := EmptyString;
     pytest_output := EmptyString;
     pytest_stderr := EmptyString;
     return_code := -1;
     report := JObj [];
     iteration := 1;
     max_iterations := max_iter;
     feedback := JStr EmptyString;
     status := JStr EmptyString;
     final_message := EmptyString;
     history := [];
     framework := "generic";
     previous_errors := [] |}.

End Graph.

(* ===================================================================== *)
(** * Version1.py                                                         *)
(* ===================================================================== *)

Module Version1.

Import World.

(** [max(blocks, key=len)]: the first block of the greatest length. *)
Fixpoint max_by_len (best : string) (blocks : list string) : string :=
  match blocks with
  | [] => best
  | b :: rest =>
      if (String.length best <? String.length b)%nat then max_by_len b rest
      else max_by_len best rest
  end.

Definition extract_code (raw : string) : string :=
  match Re.search Re.marker raw with
  | Some group1 => strip group1
  | None =>
      match Re.findall Re.fenced_block raw with
      | b :: blocks => strip (max_by_len b blocks)
      | [] => strip raw
      end
  end.

(** [^\s*def\s+test_], [re.MULTILINE]; the capture is the whole match.
    Each run of white space is taken whole: the code point that must
    follow it is not white space. *)
Definition test_def : Re.matcher := fun bol s =>
  if bol then
    match strip_prefix "def" (lstrip s) with
    | Some rest =>
        match rest with
        | String w _ =>
            if isspace w then
              match strip_prefix "test_" (lstrip rest) with
              | Some rest' => Some (rest', str_take (Re.consumed s rest') s)
              | None => None
              end
            else None
        | EmptyString => None
        end
    | None => None
    end
  else None.

(** The lazy [[\s\S]*?] before the lookahead [(?=^\s*def\s+test_|\Z)]: the
    text from the first position on where the next test starts, or the
    empty text at the end. *)
Fixpoint lazy_body (bol : bool) (s : string) : string :=
  match test_def bol s with
  | Some _ => s
  | None =>
      match s with
      | EmptyString => EmptyString
      | String c r => lazy_body (Ascii.eqb c newline) r
      end
  end.

(** [(^\s*def\s+test_[\s\S]*?)(?=^\s*def\s+test_|\Z)], [re.MULTILINE]. *)
Definition test_piece : Re.matcher := fun bol s =>
  match test_def bol s with
  | Some (rest, _) =>
      let after := lazy_body false rest in
      Some (after, str_take (Re.consumed s after) s)
  | None => None
  end.

Definition keep_at_most_n_tests (code : string) (n : Z) : string :=
  match Re.search_span test_def code with
  | None => code
  | Some (header, body) =>
      let tests := Re.findall test_piece body in
      let trimmed := join EmptyString (slice tests 0 n) in
      header +:+ trimmed
  end.

(** The parameter [min_tests] is not read. *)
Definition ensure_min_tests (code : string) (min_tests : Z) : Z :=
  Z.of_nat (length (Re.findall test_def code)).

Section Execution.

Variable json_loads : string -> res json.
Variable pytest : nat -> gmap string string -> process.

(** No [try] around the subprocess here: its failure is the caller's. *)
Definition run_pytest_json (test_file : string) (w : world)
  : res (bool * json * string * string) * world :=
  let p := pytest (pytest_runs w) (files w) in
  let w := after_process p w in
  match proc_outcome p with
  | Failed e => (Raise e, w)
  | Exited returncode stdout stderr =>
      let rep :=
        match files w !! report_path with
        | Some content =>
            match json_loads content with
            | Ok r => r
            | Raise _ => JNull
            end
        | None => JNull
        end in
      (Ok (returncode =? 0, rep, stdout, stderr), w)
  end.

End Execution.

End Version1.

(* ===================================================================== *)
(** * Version2.py                                                         *)
(* ===================================================================== *)

Module Version2.

Import World.

Record entry : Type := {
  entry_iteration : Z;
  agent : string;
  action : fstring
}.

Record iter_result : Type := {
  ir_iteration : Z;
  ir_collected : json;
  ir_passed : json;
  ir_failed : json;
  ir_errors : json
}.

Record AgentState : Type := {
  readme_content : string;
  detected_functions : list string;
  num_functions : Z;
  iteration_results : list iter_result;
  test_code : string;
  pytest_output : string;
  pytest_stderr : string;
  return_code : Z;
  report : json;
  iteration : Z;
  max_iterations : Z;
  feedback : json;
  status : json;
  final_message : string;
  history : list entry
}.

Definition set_detected_functions (v : list string) (st : AgentState) : AgentState :=
  {| readme_content := readme_content st;
     detected_functions := v;
     num_functions := num_functions st;
     iteration_results := iteration_results st;
     test_code := test_code st;
     pytest_output := pytest_output st;
     pytest_stderr := pytest_stderr st;
     return_code := return_code st;
     report := report st;
     iteration := iteration st;
     max_iterations := max_iterations st;
     feedback := feedback st;
     status := status st;
     final_message := final_message st;
     history := history st |}.

Definition set_num_functions (v : Z) (st : AgentState) : AgentState :=
  {| readme_content := readme_content st;
     detected_functions := detected_functions st;
     num_functions := v;
     iteration_results := iteration_results st;
     test_code := test_code st;
     pytest_output := pytest_output st;
     pytest_stderr := pytest_stderr st;
     return_code := return_code st;
     report := report st;
     iteration := iteration st;
     max_iterations := max_iterations st;
     feedback := feedback st;
     status := status st;
     final_message := final_message st;
     history := history st |}.

Definition set_iteration_results (v : list iter_result) (st : AgentState) : AgentState :=
  {| readme_content := readme_content st;
     detected_functions := detected_functions st;
     num_functions := num_functions st;
     iteration_results := v;
     test_code := test_code st;
     pytest_output := pytest_output st;
     pytest_stderr := pytest_stderr st;
     return_code := return_code st;
     report := report st;
     iteration := iteration st;
     max_iterations := max_iterations st;
     feedback := feedback st;
     status := status st;
     final_message := final_message st;
     history := history st |}.

Definition set_test_code (v : string) (st : AgentState) : AgentState :=
  {| readme_content := readme_content st;
     detected_functions := detected_functions st;
     num_functions := num_functions st;
     iteration_results := iteration_results st;
     test_code := v;
     pytest_output := pytest_output st;
     pytest_stderr := pytest_stderr st;
     return_code := return_code st;
     report := report st;
     iteration := iteration st;
     max_iterations := max_iterations st;
     feedback := feedback st;
     status := status st;
     final_message := final_message st;
     history := history st |}.

Definition set_pytest_output (v : string) (st : AgentState) : AgentState :=
  {| readme_content := readme_content st;
     detected_functions := detected_functions st;
     num_functions := num_functions st;
     iteration_results := iteration_results st;
     test_code := test_code st;
     pytest_output := v;
     pytest_stderr := pytest_stderr st;
     return_code := return_code st;
     report := report st;
     iteration := iteration st;
     max_iterations := max_iterations st;
     feedback := feedback st;
     status := status st;
     final_message := final_message st;
     history := history st |}.

Definition set_pytest_stderr (v : string) (st : AgentState) : AgentState :=
  {| readme_content := readme_content st;
     detected_functions := detected_functions st;
     num_functions := num_functions st;
     iteration_results := iteration_results st;
     test_code := test_code st;
     pytest_output := pytest_output st;
     pytest_stderr := v;
     return_code := return_code st;
     report := report st;
     iteration := iteration st;
     max_iterations := max_iterations st;
     feedback := feedback st;
     status := status st;
     final_message := final_message st;
     history := history st |}.

Definition set_return_code (v : Z) (st : AgentState) : AgentState :=
  {| readme_content := readme_content st;
     detected_functions := detected_functions st;
     num_functions := num_functions st;
     iteration_results := iteration_results st;
     test_code := test_code st;
     pytest_output := pytest_output st;
     pytest_stderr := pytest_stderr st;
     return_code := v;
     report := report st;
     iteration := iteration st;
     max_iterations := max_iterations st;
     feedback := feedback st;
     status := status st;
     final_message := final_message st;
     history := history st |}.

Definition set_report (v : json) (st : AgentState) : AgentState :=
  {| readme_content := readme_content st;
     detected_functions := detected_functions st;
     num_functions := num_functions st;
     iteration_results := iteration_results st;
     test_code := test_code st;
     pytest_output := pytest_output st;
     pytest_stderr := pytest_stderr st;
     return_code := return_code st;
     report := v;
     iteration := iteration st;
     max_iterations := max_iterations st;
     feedback := feedback st;
     status := status st;
     final_message := final_message st;
     history := history st |}.

Definition set_iteration (v : Z) (st : AgentState) : AgentState :=
  {| readme_content := readme_content st;
     detected_functions := detected_functions st;
     num_functions := num_functions st;
     iteration_results := iteration_results st;
     test_code := test_code st;
     pytest_output := pytest_output st;
     pytest_stderr := pytest_stderr st;
     return_code := return_code st;
     report := report st;
     iteration := v;
     max_iterations := max_iterations st;
     feedback := feedback st;
     status := status st;
     final_message := final_message st;
     history := history st |}.

Definition set_feedback (v : json) (st : AgentState) : AgentState :=
  {| readme_content := readme_content st;
     detected_functions := detected_functions st;
     num_functions := num_functions st;
     iteration_results := iteration_results st;
     test_code := test_code st;
     pytest_output := pytest_output st;
     pytest_stderr := pytest_stderr st;
     return_code := return_code st;
     report := report st;
     iteration := iteration st;
     max_iterations := max_iterations st;
     feedback := v;
     status := status st;
     final_message := final_message st;
     history := history st |}.

Definition set_status (v : json) (st : AgentState) : AgentState :=
  {| readme_content := readme_content st;
     detected_functions := detected_functions st;
     num_functions := num_functions st;
     iteration_results := iteration_results st;
     test_code := test_code st;
     pytest_output := pytest_output st;
     pytest_stderr := pytest_stderr st;
     return_code := return_code st;
     report := report st;
     iteration := iteration st;
     max_iterations := max_iterations st;
     feedback := feedback st;
     status := v;
     final_message := final_message st;
     history := history st |}.

Definition set_final_message (v : string) (st : AgentState) : AgentState :=
  {| readme_content := readme_content st;
     detected_functions := detected_functions st;
     num_functions := num_functions st;
     iteration_results := iteration_results st;
     test_code := test_code st;
     pytest_output := pytest_output st;
     pytest_stderr := pytest_stderr st;
     return_code := return_code st;
     report := report st;
     iteration := iteration st;
     max_iterations := max_iterations st;
     feedback := feedback st;
     status := status st;
     final_message := v;
     history := history st |}.

Definition set_history (v : list entry) (st : AgentState) : AgentState :=
  {| readme_content := readme_content st;
     detected_functions := detected_functions st;
     num_functions := num_functions st;
     iteration_results := iteration_results st;
     test_code := test_code st;
     pytest_output := pytest_output st;
     pytest_stderr := pytest_stderr st;
     return_code := return_code st;
     report := report st;
     iteration := iteration st;
     max_iterations := max_iterations st;
     feedback := feedback st;
     status := status st;
     final_message := final_message st;
     history := v |}.

Definition log (a : string) (act : fstring) (st : AgentState) : AgentState :=
  set_history
    (history st
     ++ [{| entry_iteration := iteration st; agent := a; action := act |}])
    st.

Record generator_prompt : Type := {
  gp_num_functions : Z;
  gp_function_list : string;
  gp_feedback : json;
  gp_readme_preview : string;
  gp_previous_code : option string
}.

Record critic_prompt : Type := {
  cp_num_functions : Z;
  cp_function_list : string;
  cp_collected : json;
  cp_passed : json;
  cp_failed : json;
  cp_errors : json;
  cp_return_code : Z;
  cp_iteration : Z;
  cp_max_iterations : Z;
  cp_test_code_preview : string;
  cp_output : string;
  cp_stderr : string
}.

Record reporter_prompt : Type := {
  rp_status : json;
  rp_iteration : Z;
  rp_num_functions : Z;
  rp_passed : json;
  rp_collected : json;
  rp_failed : json;
  rp_function_list : string;
  rp_errors : option string
}.

Inductive route : Type := generate | reporter.

(** [re.search(r'\{.*\}', s, re.DOTALL).group()]: from the first opening
    brace to the last closing brace after it. *)
Fixpoint upto_last_brace (s : string) : option string :=
  match s with
  | EmptyString => None
  | String c r =>
      match upto_last_brace r with
      | Some t => Some (String c t)
      | None => if Ascii.eqb c "}" then Some (String c EmptyString) else None
      end
  end.

Definition brace_span (s : string) : option string :=
  match find "{" s with
  | Some (_, rest) =>
      match upto_last_brace rest with
      | Some t => Some ("{" +:+ t)
      | None => None
      end
  | None => None
  end.

Section Nodes.

Variable re_findall : string -> bool -> string -> list string.
Variable json_loads : string -> res json.
Variable pytest : nat -> gmap string string -> process.
Variable llm_generator : nat -> generator_prompt -> string.
Variable llm_critic : nat -> critic_prompt -> string.
Variable llm_reporter : nat -> reporter_prompt -> string.

Definition readme_matches (readme : string) : list string :=
  re_findall Parser.pattern1 false readme
  ++ re_findall Parser.pattern2 false readme
  ++ re_findall Parser.pattern3 false readme
  ++ re_findall Parser.pattern4 false readme
  ++ re_findall Parser.pattern5 true readme
  ++ re_findall Parser.pattern6 false readme
  ++ re_findall Parser.pattern7 false readme.

Definition extract_functions_from_readme (readme : string) : list string :=
  take 15 (Parser.unique_loop (readme_matches readme) ∅ []).

Definition extract_code (raw : string) : string := Parser.extract_code raw.

(** The report file of an earlier run is not removed here. *)
Definition run_pytest_json (test_file : string) (w : world)
  : (Z * json * string * string) * world :=
  let p := pytest (pytest_runs w) (files w) in
  let w := after_process p w in
  match proc_outcome p with
  | Failed e => ((-1, JNull, EmptyString, exn_str e), w)
  | Exited returncode stdout stderr =>
      match files w !! report_path with
      | Some content =>
          match json_loads content with
          | Ok rep => ((returncode, rep, stdout, stderr), w)
          | Raise e => ((-1, JNull, EmptyString, exn_str e), w)
          end
      | None => ((returncode, JNull, stdout, stderr), w)
      end
  end.

Definition function_detector_node (state : AgentState) : AgentState :=
  let functions := extract_functions_from_readme (readme_content state) in
  let state := set_detected_functions functions state in
  let state := set_num_functions (Z.of_nat (length functions)) state in
  log "detector"
    [Lit "Detected "; Fmt (of_nat (length functions)); Lit " functions: ";
     Fmt (JStr (join ", " functions))] state.

Definition generator_node (state : AgentState) (w : world)
  : AgentState * world :=
  let feedback_text :=
    if truthy (feedback state) then feedback state
    else JStr "Generate comprehensive unit tests based on the README." in
  let prompt :=
    {| gp_num_functions := num_functions state;
       gp_function_list := join ", " (detected_functions state);
       gp_feedback := feedback_text;
       gp_readme_preview := str_take 3000 (readme_content state);
       gp_previous_code :=
         if String.eqb (test_code state) EmptyString then None
         else Some (str_take 1000 (test_code state)) |} in
  let response := llm_generator (generator_calls w) prompt in
  let w := tick_generator w in
  let state := set_test_code (extract_code response) state in
  (log "generator"
     [Lit "Generated "; Fmt (JInt (num_functions state));
      Lit " test functions"] state, w).

Definition test_file_path : string := "test_generated.py".

Definition execution_node (state : AgentState) (w : world)
  : res (AgentState * world) :=
  let w := write_file test_file_path (test_code state) w in
  let '((returncode, rep, stdout, stderr), w) :=
    run_pytest_json test_file_path w in
  let state := set_return_code returncode state in
  let state := set_report (if truthy rep then rep else JObj []) state in
  let state := set_pytest_output stdout state in
  let state := set_pytest_stderr stderr state in
  let state :=
    log "executor"
      [Lit "Executed tests - Return code: "; Fmt (JInt returncode)] state in
  let* summary :=
    (if truthy rep then dict_get rep "summary" (JObj [])
     else Ok (JObj [])) in
  let* collected := dict_get summary "collected" (JInt 0) in
  let* passed := dict_get summary "passed" (JInt 0) in
  let* failed := dict_get summary "failed" (JInt 0) in
  let* errors := dict_get summary "errors" (JInt 0) in
  Ok (set_iteration_results
        (iteration_results state
         ++ [{| ir_iteration := iteration state; ir_collected := collected;
                ir_passed := passed; ir_failed := failed;
                ir_errors := errors |}]) state, w).

(** The part of the critic that reads the answer of the model.  The
    bare [except] covers the search and the decoding, not the reading
    of the decoded value. *)
Definition critic_verdict (content : string) (state : AgentState)
  : res AgentState :=
  let result :=
    match brace_span content with
    | Some text =>
        match json_loads text with
        | Ok v => v
        | Raise _ =>
            JObj [("status", JStr "test_error");
                  ("feedback", JStr "Error parsing critic response")]
        end
    | None =>
        JObj [("status", JStr "test_error");
              ("feedback", JStr "Could not parse critic response")]
    end in
  let* st := dict_get result "status" (JStr "unknown") in
  let state := set_status st state in
  let* msg := dict_get result "message" (JStr EmptyString) in
  let* fb := dict_get result "feedback" msg in
  let state := set_feedback fb state in
  let state := log "critic" [Lit "Analysis: "; Fmt (status state)] state in
  Ok (if eq_str (status state) "test_error"
         || eq_str (status state) "incomplete"
      then set_iteration (iteration state + 1) state
      else state).

Definition critic_node (state : AgentState) (w : world)
  : res (AgentState * world) :=
  let* summary := dict_get (report state) "summary" (JObj []) in
  let* collected := dict_get summary "collected" (JInt 0) in
  let* passed := dict_get summary "passed" (JInt 0) in
  let* failed := dict_get summary "failed" (JInt 0) in
  let* errors := dict_get summary "errors" (JInt 0) in
  if eq_int collected (num_functions state) && eq_num passed collected
     && eq_int failed 0 && eq_int errors 0 then
    let state := set_status (JStr "success") state in
    let state := set_feedback (JStr "All tests passed successfully") state in
    Ok (log "critic"
          [Lit "Analysis: success - "; Fmt passed; Lit "/"; Fmt collected;
           Lit " tests passed"] state, w)
  else
    let prompt :=
      {| cp_num_functions := num_functions state;
         cp_function_list := join ", " (detected_functions state);
         cp_collected := collected;
         cp_passed := passed;
         cp_failed := failed;
         cp_errors := errors;
         cp_return_code := return_code state;
         cp_iteration := iteration state;
         cp_max_iterations := max_iterations state;
         cp_test_code_preview := str_take 1500 (test_code state);
         cp_output := str_take 2000 (pytest_output state);
         cp_stderr := str_take 1000 (pytest_stderr state) |} in
    let response := llm_critic (critic_calls w) prompt in
    let w := tick_critic w in
    let* state := critic_verdict response state in
    Ok (state, w).

Definition reporter_node (state : AgentState) (w : world)
  : res (AgentState * world) :=
  let* summary := dict_get (report state) "summary" (JObj []) in
  let* collected := dict_get summary "collected" (JInt 0) in
  let* passed := dict_get summary "passed" (JInt 0) in
  let* failed := dict_get summary "failed" (JInt 0) in
  let prompt :=
    {| rp_status := status state;
       rp_iteration := iteration state;
       rp_num_functions := num_functions state;
       rp_passed := passed;
       rp_collected := collected;
       rp_failed := failed;
       rp_function_list := join ", " (take 10 (detected_functions state));
       rp_errors :=
         if eq_str (status state) "source_error"
         then Some (str_take 500 (str_take 1000 (pytest_stderr state)))
         else None |} in
  let response := llm_reporter (reporter_calls w) prompt in
  let w := tick_reporter w in
  let clean_response := strip (Re.sub Re.think response) in
  let state := set_final_message clean_response state in
  Ok (log "reporter" [Lit "Generated final report"] state, w).

Definition should_continue (state : AgentState) : route * AgentState :=
  if eq_str (status state) "success" then (reporter, state)
  else if eq_str (status state) "source_error" then (reporter, state)
  else if max_iterations state <? iteration state then
    (reporter,
     set_feedback
       (JStr ("Reached maximum iterations ("
              +:+ decimal (max_iterations state) +:+ ")"))
       (set_status (JStr "max_iterations") state))
  else if eq_str (status state) "test_error"
          || eq_str (status state) "incomplete" then (generate, state)
  else (reporter, state).

(** ** The compiled graph

    [detect -> generate -> execute -> critic], then the conditional edge;
    [reporter -> END].  As in builder.py the graph takes from the edge
    function the name of the next node and drops what the function has
    assigned to its argument, and the run is streamed with the limit of
    25 super-steps: the detector is super-step 1, the cycle that follows
    [ran] cycles takes the super-steps [3 * ran + 2] to [3 * ran + 4],
    and the reporter after [ran] cycles is super-step [3 * ran + 2].
    As 25 is [3 * 8 + 1], the limit falls between two cycles. *)

Definition cycle (state : AgentState) (w : world)
  : res (AgentState * world) :=
  let '(state, w) := generator_node state w in
  let* (state, w) := execution_node state w in
  critic_node state w.

Definition recursion_limit : nat := 25.

Definition recursion_error : exn :=
  GraphRecursionError
    "Recursion limit of 25 reached without hitting a stop condition.".

Fixpoint loop (fuel : nat) (ran : nat) (state : AgentState) (w : world)
  : option (res (AgentState * world)) :=
  match fuel with
  | O => None
  | S fuel' =>
      if (recursion_limit <? 3 * ran + 4)%nat
      then Some (Raise recursion_error)
      else
        match cycle state w with
        | Raise e => Some (Raise e)
        | Ok (state, w) =>
            match fst (should_continue state) with
            | generate => loop fuel' (S ran) state w
            | reporter =>
                if (recursion_limit <? 3 * S ran + 2)%nat
                then Some (Raise recursion_error)
                else Some (reporter_node state w)
            end
        end
  end.

Definition app (fuel : nat) (initial_state : AgentState) (w : world)
  : option (res (AgentState * world)) :=
  loop fuel 0 (function_detector_node initial_state) w.

End Nodes.

Definition initial_state (readme : string) (max_iter : Z) : AgentState :=
  {| readme_content := readme;
     detected_functions := [];
     num_functions := 0;
     iteration_results := [];
     test_code := EmptyString;
     pytest_output := EmptyString;
     pytest_stderr := EmptyString;
     return_code := -1;
     report := JObj [];
     iteration := 1;
     max_iterations := max_iter;
     feedback := JStr EmptyString;
     status := JStr EmptyString;
     final_message := EmptyString;
     history := [] |}.

End Version2.

(* ===================================================================== *)
(** * src/utils/file_handler.py, src/main.py and app.py                   *)
(* ===================================================================== *)

Module FileHandler.

Import World.

(** [read_file]: the content, or [None] when the file is not found.  The
    working directory holds text files only, so a file that is there can
    be read. *)
Definition read_file (file_path : string) (w : world) : option string :=
  files w !! file_path.

(** [write_file]: the file is created or replaced. *)
Definition write_file (file_path content : string) (w : world) : world :=
  World.write_file file_path content w.

End FileHandler.

Module Main.

Import World.

(** The parsed command line: [--readme], [--code], [--max-iterations]. *)
Record arguments : Type := {
  readme : string;
  code : string;
  max_iterations : Z
}.

(** How [main] ends: [sys.exit(status)], a normal return, or an exception
    of the graph that nothing catches. *)
Inductive ending : Type :=
| SystemExit (status : Z) (w : world)
| Returned (w : world)
| Uncaught (e : exn).

Definition generated_path : string := "test_final_generated.py".
Definition failed_path : string := "test_final_failed.py".

Section Run.

Variable re_findall : string -> bool -> string -> list string.
Variable ast_parse : string -> res Ast.node.
Variable json_loads : string -> res json.
Variable pytest : nat -> gmap string string -> process.
Variable llm_generator : nat -> Graph.generator_prompt -> string.
Variable llm_critic : nat -> Graph.critic_prompt -> string.
Variable llm_reporter : nat -> Graph.reporter_prompt -> string.

(** The state that the last node of the stream returned is the final
    state; the test code it holds is saved under a name that tells
    whether the final status is [success]. *)
Definition main (fuel : nat) (args : arguments) (w : world)
  : option ending :=
  match FileHandler.read_file (readme args) w with
  | None => Some (SystemExit 1 w)
  | Some readme_content =>
      match FileHandler.read_file (code args) w with
      | None => Some (SystemExit 1 w)
      | Some user_functions =>
          let initial_state :=
            Graph.initial_state readme_content user_functions
              (max_iterations args) in
          match Graph.main_graph re_findall ast_parse json_loads pytest
                  llm_generator llm_critic llm_reporter fuel initial_state w
          with
          | None => None
          | Some (Raise e) => Some (Uncaught e)
          | Some (Ok (final_state, w)) =>
              if eq_str (Graph.status final_state) "success"
              then Some (Returned
                           (FileHandler.write_file generated_path
                              (Graph.test_code final_state) w))
              else Some (Returned
                           (FileHandler.write_file failed_path
                              (Graph.test_code final_state) w))
          end
      end
  end.

End Run.

End Main.

Module App.

Section Precheck.

Variable re_findall : string -> bool -> string -> list string.
Variable ast_parse : string -> res Ast.node.

(** The check that app.py makes before it builds the initial state: the
    names and the framework that it announces, or [None] when it stops
    because no function is detected. *)
Definition precheck (readme_content user_functions : string)
  : option (list string * string) :=
  let test_functions_readme :=
    Parser.extract_functions_from_readme re_findall readme_content in
  let test_functions_code :=
    Parser.extract_functions_from_python_file ast_parse user_functions in
  let detected_framework := Parser.detect_framework user_functions in
  match test_functions_readme, test_functions_code with
  | [], [] => None
  | _ :: _, _ => Some (test_functions_readme, detected_framework)
  | [], _ :: _ => Some (test_functions_code, detected_framework)
  end.

End Precheck.

End App.

(* ===================================================================== *)
(** * Worked examples                                                     *)
(* ===================================================================== *)

Definition tab : string := String (ascii_of_N 9) "".

(** Import lines are blanked, the newline that ends them stays. *)
Example clean_imports_lines :
  Graph.clean_imports (join nl ["import os"; "from a import b"; "x = 1"])
  = join nl [""; ""; "x = 1"].
Proof. vm_compute. reflexivity. Qed.

(** White space after [import] runs over the end of the line, and the
    match then takes the next line that is not blank. *)
Example clean_imports_runs_on :
  Graph.clean_imports (join nl ["from x import"; ""; "def a(): pass"]) = "".
Proof. vm_compute. reflexivity. Qed.

(** Only lines that start with the keyword are touched. *)
Example clean_imports_indented :
  Graph.clean_imports
    (join nl ["    import os"; "imported = 1"; "import" +:+ tab +:+ "sys"])
  = join nl ["    import os"; "imported = 1"; ""].
Proof. vm_compute. reflexivity. Qed.

Example extract_code_marker :
  Parser.extract_code
    (join nl ["<think>x</think><pytest_file>"; "import pytest";
              "</PYTEST_FILE> bye"])
  = "import pytest".
Proof. vm_compute. reflexivity. Qed.

(** Two fenced blocks: parser.py keeps all the text, Version1.py the
    longer block. *)
Example extract_code_fences :
  let raw := join nl ["a ```b``` c ```Python"; "dd``` e"] in
  Parser.extract_code raw = join nl ["a b c "; "dd e"]
  /\ Version1.extract_code raw = "dd".
Proof. split; vm_compute; reflexivity. Qed.

(** A marker region inside a reasoning block is gone in parser.py before
    it is looked for; Version1.py finds it. *)
Example extract_code_marker_in_reasoning :
  let raw := "<think><PYTEST_FILE>a</PYTEST_FILE></think>b" in
  Parser.extract_code raw = "b" /\ Version1.extract_code raw = "a".
Proof. split; vm_compute; reflexivity. Qed.

Example unique_loop_example :
  Parser.unique_loop ["a"; "_b"; "a"; "Module"; "c"; "return"; "c"] ∅ []
  = ["a"; "c"].
Proof. vm_compute. reflexivity. Qed.

Example detect_framework_example :
  Parser.detect_framework "From Flask Import Flask" = "flask"
  /\ Parser.detect_framework "import os" = "generic".
Proof. split; vm_compute; reflexivity. Qed.

(* ===================================================================== *)
(** * Properties                                                          *)
(* ===================================================================== *)

(** ** Facts about strings *)

Section StringFacts.

Lemma str_app_cons (c : ascii) (s t : string) :
  String c s +:+ t = String c (s +:+ t).
Proof. reflexivity. Qed.

Lemma str_app_nil_l (s : string) : "" +:+ s = s.
Proof. reflexivity. Qed.

Lemma str_app_nil_r (s : string) : s +:+ "" = s.
Proof. induction s as [|c s IH]; [done|]. by rewrite str_app_cons, IH. Qed.

Lemma str_app_assoc (s t u : string) : (s +:+ t) +:+ u = s +:+ t +:+ u.
Proof. induction s as [|c s IH]; [done|]. by rewrite !str_app_cons, IH. Qed.

Lemma str_app_length (s t : string) :
  String.length (s +:+ t) = (String.length s + String.length t)%nat.
Proof.
  induction s as [|c s IH]; [done|]. rewrite str_app_cons. cbn. by rewrite IH.
Qed.

(** [t] is what remains of [s] from some position on. *)
Definition suffix_of (t s : string) : Prop := exists u, s = u +:+ t.

Lemma suffix_refl (s : string) : suffix_of s s.
Proof. by exists "". Qed.

Lemma suffix_cons (c : ascii) (t s : string) :
  suffix_of t s -> suffix_of t (String c s).
Proof. intros [u ->]. by exists (String c u). Qed.

Lemma suffix_trans (a b c : string) :
  suffix_of a b -> suffix_of b c -> suffix_of a c.
Proof. intros [u ->] [v ->]. exists (v +:+ u). by rewrite str_app_assoc. Qed.

(** Two ways to cut the same text: the later cut leaves a suffix of what
    the earlier cut leaves. *)
Lemma cut_suffix (u t u' t' : string) :
  u +:+ t = u' +:+ t' -> (String.length u <= String.length u')%nat ->
  suffix_of t' t.
Proof.
  revert u'. induction u as [|c u IH]; intros u' H Hlen.
  - exists u'. by rewrite str_app_nil_l in H.
  - destruct u' as [|c' u']; [cbn in Hlen; lia|].
    rewrite !str_app_cons in H. injection H as _ H.
    apply (IH u' H). cbn in Hlen. lia.
Qed.

Variable eqc : ascii -> ascii -> bool.

(** [m] is an instance of the pattern text [p]. *)
Definition matches (p m : string) : Prop := prefix_by eqc p m = Some "".

Lemma prefix_by_split (p s rest : string) :
  prefix_by eqc p s = Some rest ->
  exists m, s = m +:+ rest /\ matches p m
            /\ String.length m = String.length p.
Proof.
  revert s. induction p as [|a p IH]; intros s H.
  - cbn in H. injection H as <-. by exists "".
  - destruct s as [|b s]; [discriminate|]. cbn in H.
    destruct (eqc a b) eqn:Hab; [|discriminate].
    destruct (IH s H) as (m & -> & Hm & Hl).
    exists (String b m). unfold matches. cbn. rewrite Hab.
    split; [done|]. split; [exact Hm | by rewrite Hl].
Qed.

Lemma prefix_by_app (p m rest : string) :
  matches p m -> prefix_by eqc p (m +:+ rest) = Some rest.
Proof.
  unfold matches. revert m. induction p as [|a p IH]; intros m H.
  - cbn in H. by injection H as ->.
  - destruct m as [|b m]; [discriminate|]. cbn in H. rewrite str_app_cons. cbn.
    destruct (eqc a b); [by apply IH | discriminate].
Qed.

Lemma matches_length (p m : string) :
  matches p m -> String.length m = String.length p.
Proof.
  intros H. destruct (prefix_by_split p m "" H) as (m' & Hm & _ & Hl).
  rewrite str_app_nil_r in Hm. by subst.
Qed.

Lemma find_by_sound (p s b a : string) :
  find_by eqc p s = Some (b, a) ->
  exists m, s = b +:+ m +:+ a /\ matches p m.
Proof.
  revert b. induction s as [|c s IH]; intros b H; cbn in H.
  - destruct (prefix_by eqc p "") as [rest|] eqn:Hp; [|discriminate].
    injection H as <- <-.
    destruct (prefix_by_split _ _ _ Hp) as (m & Hm & Hmm & _). by exists m.
  - destruct (prefix_by eqc p (String c s)) as [rest|] eqn:Hp.
    + injection H as <- <-.
      destruct (prefix_by_split _ _ _ Hp) as (m & Hm & Hmm & _). by exists m.
    + destruct (find_by eqc p s) as [[b' a']|] eqn:Hf; [|discriminate].
      injection H as <- <-. destruct (IH b' eq_refl) as (m & -> & Hm).
      by exists m.
Qed.

(** The occurrence that is found is the leftmost one. *)
Lemma find_by_leftmost (p u m t : string) :
  matches p m ->
  exists b a, find_by eqc p (u +:+ m +:+ t) = Some (b, a)
              /\ (String.length b <= String.length u)%nat.
Proof.
  intros Hm. induction u as [|c u IH].
  - rewrite str_app_nil_l. exists "", t.
    destruct (m +:+ t) eqn:E; cbn; rewrite <- E, (prefix_by_app _ _ _ Hm);
      (split; [done | cbn; lia]).
  - rewrite str_app_cons. cbn.
    destruct (prefix_by eqc p (String c (u +:+ m +:+ t))) as [rest|].
    + exists "", rest. split; [done | cbn; lia].
    + destruct IH as (b & a & -> & Hl). exists (String c b), a.
      split; [done | cbn; lia].
Qed.

Lemma find_by_none_cons (p : string) (c : ascii) (s : string) :
  find_by eqc p (String c s) = None -> find_by eqc p s = None.
Proof.
  cbn. destruct (prefix_by eqc p (String c s)); [discriminate|].
  by destruct (find_by eqc p s) as [[? ?]|].
Qed.

Lemma find_by_none_suffix (p t s : string) :
  find_by eqc p s = None -> suffix_of t s -> find_by eqc p t = None.
Proof.
  intros H [u ->]. induction u as [|c u IH]; [done|].
  rewrite str_app_cons in H. by apply IH, (find_by_none_cons p c).
Qed.

Lemma find_by_some_suffix (p t s : string) :
  suffix_of t s -> is_Some (find_by eqc p t) -> is_Some (find_by eqc p s).
Proof.
  intros Hsuf Ht. destruct (find_by eqc p s) eqn:Hs; [done|].
  rewrite (find_by_none_suffix p t s Hs Hsuf) in Ht. by destruct Ht.
Qed.

(** A text with an instance of [p] in it has a first one. *)
Lemma find_by_occurs (p u m t : string) :
  matches p m -> is_Some (find_by eqc p (u +:+ m +:+ t)).
Proof.
  intros Hm. destruct (find_by_leftmost p u m t Hm) as (b & a & -> & _).
  done.
Qed.

End StringFacts.


(** ** Name extraction from the README (parser.py, Version2.py) *)

Section Extraction.

Import Parser.

Definition excluded (func : string) : bool :=
  startswith "_" func || elem (lower func) stopwords.

Lemma elem_true (x : string) (l : list string) :
  elem x l = true <-> x ∈ l.
Proof.
  unfold elem. rewrite existsb_exists. split.
  - intros (y & Hy & Heq). apply String.eqb_eq in Heq. subst.
    by apply list_elem_of_In.
  - intros Hx. exists x. split; [by apply list_elem_of_In|].
    apply String.eqb_refl.
Qed.

(** A stopword is written in lower case already. *)
Lemma stopword_lower (x : string) : x ∈ stopwords -> lower x = x.
Proof.
  unfold stopwords. intros Hx.
  repeat (apply elem_of_cons in Hx as [-> | Hx]; [reflexivity|]).
  by apply elem_of_nil in Hx.
Qed.

Lemma excluded_stopword (x : string) : x ∈ stopwords -> excluded x = true.
Proof.
  intros Hx. unfold excluded. apply orb_true_iff. right.
  rewrite (stopword_lower x Hx). by apply elem_true.
Qed.

(** What the loop keeps between two rounds: the names kept so far are
    pairwise distinct, they are the members of [seen], and none of them
    is excluded. *)
Record loop_inv (seen : gset string) (unique : list string) : Prop := {
  inv_nodup : NoDup unique;
  inv_seen : forall x, x ∈ unique <-> x ∈ seen;
  inv_kept : forall x, x ∈ unique -> excluded x = false
}.

Lemma loop_inv_init : loop_inv ∅ [].
Proof.
  split; [constructor | | ].
  - intros x. rewrite elem_of_nil, elem_of_empty. tauto.
  - intros x Hx. by apply elem_of_nil in Hx.
Qed.

Lemma loop_inv_step seen unique func :
  loop_inv seen unique -> func ∉ seen -> excluded func = false ->
  loop_inv ({[func]} ∪ seen) (unique ++ [func]).
Proof.
  intros [Hnd Hseen Hkept] Hfresh Hok. split.
  - apply NoDup_app. split; [done|]. split; [|apply NoDup_singleton].
    intros x Hx Hx'. apply list_elem_of_singleton in Hx'. subst.
    apply Hfresh. by apply Hseen.
  - intros x.
    rewrite elem_of_app, list_elem_of_singleton, Hseen, elem_of_union,
      elem_of_singleton.
    tauto.
  - intros x Hx. apply elem_of_app in Hx as [Hx | Hx]; [by apply Hkept|].
    apply list_elem_of_singleton in Hx. by subst.
Qed.

Lemma unique_loop_inv functions :
  forall seen unique,
    loop_inv seen unique ->
    exists seen', loop_inv seen' (unique_loop functions seen unique).
Proof.
  induction functions as [|func rest IH]; intros seen unique Hinv;
    cbn [unique_loop].
  - by exists seen.
  - destruct (bool_decide (func ∉ seen)) eqn:Hfresh; cbn [andb];
      [|by apply IH].
    apply bool_decide_eq_true in Hfresh.
    destruct (startswith "_" func) eqn:Hpriv; cbn [andb negb];
      [by apply IH|].
    destruct (elem (lower func) stopwords) eqn:Hstop; cbn [negb];
      [by apply IH|].
    apply IH, loop_inv_step; [done..|].
    unfold excluded. by rewrite Hpriv, Hstop.
Qed.

(** The three exclusion rules and the cap, for any list that the loop
    returns and any cap. *)
Lemma capped_names_ok (n : nat) (functions : list string) :
  let names := take n (unique_loop functions ∅ []) in
  NoDup names
  /\ (forall x, x ∈ names ->
        startswith "_" x = false /\ x ∉ stopwords)
  /\ (length names <= n)%nat.
Proof.
  destruct (unique_loop_inv functions ∅ [] loop_inv_init)
    as (seen & [Hnd _ Hkept]).
  simpl. split; [|split].
  - exact (sublist_NoDup _ _ Hnd (sublist_take _ _)).
  - intros x Hx. apply subseteq_take in Hx. specialize (Hkept x Hx).
    unfold excluded in Hkept. apply orb_false_iff in Hkept as [Hp Hs].
    split; [done|]. intros Hstop.
    apply excluded_stopword in Hstop. unfold excluded in Hstop.
    by rewrite Hp, Hs in Hstop.
  - rewrite length_take. lia.
Qed.

(** C9. Whatever the patterns find in the specification text, the list of
    names that [extract_functions_from_readme] returns has no repeated
    entry, no name that starts with an underscore and no name of the
    stopword list, and it has at most 20 entries in parser.py and at
    most 15 in Version2.py. *)
Theorem C9_extraction_dedup_and_cap
    (re_findall : string -> bool -> string -> list string)
    (readme : string) :
  let names20 := Parser.extract_functions_from_readme re_findall readme in
  let names15 := Version2.extract_functions_from_readme re_findall readme in
  (NoDup names20
   /\ (forall x, x ∈ names20 ->
         startswith "_" x = false /\ x ∉ Parser.stopwords)
   /\ (length names20 <= 20)%nat)
  /\ (NoDup names15
      /\ (forall x, x ∈ names15 ->
            startswith "_" x = false /\ x ∉ Parser.stopwords)
      /\ (length names15 <= 15)%nat).
Proof.
  split.
  - apply (capped_names_ok 20).
  - apply (capped_names_ok 15).
Qed.

End Extraction.


(** ** The function detector (nodes.py) *)

Section Detector.

Variable re_findall : string -> bool -> string -> list string.
Variable ast_parse : string -> res Ast.node.

Lemma detector_fields (st : Graph.GraphState) :
  let st' := Graph.function_detector_node re_findall ast_parse st in
  let from_readme :=
    Parser.extract_functions_from_readme re_findall
      (Graph.readme_content st) in
  let from_code :=
    Parser.extract_functions_from_python_file ast_parse
      (Graph.user_functions st) in
  Graph.detected_functions st' =
    match from_readme with [] => from_code | _ :: _ => from_readme end
  /\ Graph.num_functions st' =
       Z.of_nat (length (Graph.detected_functions st'))
  /\ Graph.framework st' = Parser.detect_framework (Graph.user_functions st).
Proof.
  unfold Graph.function_detector_node. cbn [Graph.log Graph.user_functions
    Graph.readme_content Graph.set_history Graph.set_framework].
  destruct (Parser.extract_functions_from_readme _ _) as [|r rs];
    [destruct (Parser.extract_functions_from_python_file _ _) as [|c cs]|];
    repeat split.
Qed.

(** C10. In the framework-aware detector the detected list is the list
    drawn from the README whenever that list is not empty, whatever the
    companion source defines; the names found in the source are used only
    when the README yields none; the framework tag is computed from the
    companion source in either case. *)
Theorem C10_readme_names_shadow_source_names (st : Graph.GraphState) :
  let st' := Graph.function_detector_node re_findall ast_parse st in
  let from_readme :=
    Parser.extract_functions_from_readme re_findall
      (Graph.readme_content st) in
  let from_code :=
    Parser.extract_functions_from_python_file ast_parse
      (Graph.user_functions st) in
  Graph.detected_functions st' =
    (if bool_decide (from_readme = []) then from_code else from_readme)
  /\ Graph.num_functions st' =
       Z.of_nat (length (Graph.detected_functions st'))
  /\ Graph.framework st' = Parser.detect_framework (Graph.user_functions st).
Proof.
  intros st' from_readme from_code.
  destruct (detector_fields st) as (Hd & Hn & Hf).
  fold st' from_readme from_code in Hd, Hn, Hf.
  split; [|by split].
  rewrite Hd. by destruct from_readme.
Qed.

End Detector.


(** ** Payload extraction (Version1.py, parser.py, Version2.py) *)

Section Payload.

(** The text has a marker region with [body] between the tags, the tags
    being written in any case. *)
Definition marker_region (raw body : string) : Prop :=
  exists pre o c post,
    raw = pre +:+ o +:+ body +:+ c +:+ post
    /\ matches ci_char "<PYTEST_FILE>" o
    /\ matches ci_char "</PYTEST_FILE>" c.

Definition marker_present (raw : string) : Prop :=
  exists body, marker_region raw body.

(** The text has two fence markers, hence a fenced block. *)
Definition fenced_present (raw : string) : Prop :=
  exists pre body post,
    raw = pre +:+ Re.fence_text +:+ body +:+ Re.fence_text +:+ post.

(** [re.search] with a tag pair: the first opening tag, then the first
    closing tag after it. *)
Definition first_tagged (open close s : string) : option string :=
  match find_ci open s with
  | Some (_, rest) =>
      match find_ci close rest with
      | Some (body, _) => Some body
      | None => None
      end
  | None => None
  end.

Lemma search_tagged (open close : string) (bol : bool) (s : string) :
  Re.search_from (Re.tagged open close) bol s = first_tagged open close s.
Proof.
  unfold first_tagged, find_ci.
  revert bol. induction s as [|ch r IH]; intros bol.
  - cbn. unfold Re.tagged, ci_prefix.
    destruct (prefix_by ci_char open "") as [rest|]; [|done].
    unfold find_ci. by destruct (find_by ci_char close rest) as [[? ?]|].
  - cbn [Re.search_from find_by]. unfold Re.tagged at 1, ci_prefix.
    destruct (prefix_by ci_char open (String ch r)) as [rest|] eqn:Hp.
    + unfold find_ci.
      destruct (find_by ci_char close rest) as [[body after]|] eqn:Hc;
        [done|].
      rewrite IH.
      destruct (find_by ci_char open r) as [[b2 rest2]|] eqn:Ho; [|done].
      assert (suffix_of rest2 rest) as Hsuf.
      { destruct (prefix_by_split _ _ _ _ Hp) as (m & Hs & _ & Hl).
        destruct (find_by_sound _ _ _ _ _ Ho) as (m2 & Hr & Hm2).
        apply matches_length in Hm2.
        apply (cut_suffix m rest (String ch b2 +:+ m2) rest2).
        - rewrite <- Hs, Hr. by rewrite !str_app_cons, str_app_assoc.
        - rewrite str_app_cons. cbn. rewrite str_app_length. lia. }
      by rewrite (find_by_none_suffix _ _ _ _ Hc Hsuf).
    + rewrite IH. by destruct (find_by ci_char open r) as [[b2 rest2]|].
Qed.

Lemma search_marker_sound (raw body : string) :
  Re.search Re.marker raw = Some body -> marker_region raw body.
Proof.
  unfold Re.search, Re.marker. rewrite search_tagged. unfold first_tagged.
  destruct (find_ci "<PYTEST_FILE>" raw) as [[pre rest]|] eqn:Ho;
    [|discriminate].
  destruct (find_ci "</PYTEST_FILE>" rest) as [[b post]|] eqn:Hc;
    [|discriminate].
  intros [= ->].
  destruct (find_by_sound _ _ _ _ _ Ho) as (o & -> & Hmo).
  destruct (find_by_sound _ _ _ _ _ Hc) as (c & -> & Hmc).
  by exists pre, o, c, post.
Qed.

Lemma search_marker_complete (raw : string) :
  marker_present raw -> is_Some (Re.search Re.marker raw).
Proof.
  intros (body & pre & o & c & post & -> & Ho & Hc).
  unfold Re.search, Re.marker. rewrite search_tagged. unfold first_tagged.
  destruct (find_by_leftmost ci_char _ pre o (body +:+ c +:+ post) Ho)
    as (b & a & Hf & Hl).
  unfold find_ci. rewrite Hf.
  assert (is_Some (find_by ci_char "</PYTEST_FILE>" a)) as [[b2 a2] ->];
    [|done].
  apply (find_by_some_suffix _ _ (body +:+ c +:+ post)).
  - destruct (find_by_sound _ _ _ _ _ Hf) as (m & Hs & Hm).
    apply (cut_suffix (b +:+ m) a (pre +:+ o) (body +:+ c +:+ post)).
    + by rewrite !str_app_assoc.
    + rewrite !str_app_length, (matches_length _ _ _ Hm),
        (matches_length _ _ _ Ho). lia.
  - by apply find_by_occurs.
Qed.

Lemma search_marker_none (raw : string) :
  ~ marker_present raw -> Re.search Re.marker raw = None.
Proof.
  intros H. destruct (Re.search Re.marker raw) as [body|] eqn:Hs; [|done].
  exfalso. apply H. exists body. by apply search_marker_sound.
Qed.

(** *** Fenced blocks *)

Lemma matches_eq (p m : string) : matches Ascii.eqb p m -> m = p.
Proof.
  unfold matches. revert m. induction p as [|a p IH]; intros m H.
  - cbn in H. by injection H as ->.
  - destruct m as [|b m]; [discriminate|]. cbn in H.
    destruct (Ascii.eqb a b) eqn:Hab; [|discriminate].
    apply Ascii.eqb_eq in Hab. subst. by rewrite (IH m H).
Qed.

Lemma matches_refl (p : string) : matches Ascii.eqb p p.
Proof.
  unfold matches. induction p as [|a p IH]; [done|].
  cbn. by rewrite Ascii.eqb_refl.
Qed.

Lemma lstrip_split (s : string) : exists ws, s = ws +:+ lstrip s.
Proof.
  induction s as [|c s [ws IH]]; [by exists ""|]. cbn.
  destruct (isspace c); [|by exists ""].
  exists (String c ws). by rewrite str_app_cons, <- IH.
Qed.

Lemma findall_nil_none (m : Re.matcher) (s : string) :
  (forall b b' t, m b t = m b' t) ->
  forall bol, Re.findall_from m bol O s = [] ->
  forall t, suffix_of t s -> t <> "" -> m true t = None.
Proof.
  intros Hb. induction s as [|c r IH]; intros bol H t [u Hu] Ht.
  - destruct u; [|discriminate]. rewrite str_app_nil_l in Hu. by subst.
  - cbn in H. destruct (m bol (String c r)) as [[rest g]|] eqn:Hm;
      [discriminate|].
    destruct u as [|c' u].
    + rewrite str_app_nil_l in Hu. subst t. by rewrite (Hb true bol).
    + rewrite str_app_cons in Hu. injection Hu as -> ->.
      apply (IH _ H); [by exists u | done].
Qed.

Lemma findall_cons_match (m : Re.matcher) (s : string) :
  forall bol g gs, Re.findall_from m bol O s = g :: gs ->
  exists t rest b, suffix_of t s /\ m b t = Some (rest, g).
Proof.
  induction s as [|c r IH]; intros bol g gs H; [discriminate|].
  cbn in H. destruct (m bol (String c r)) as [[rest g']|] eqn:Hm.
  - injection H as -> _. exists (String c r), rest, bol.
    split; [apply suffix_refl | done].
  - destruct (IH _ _ _ H) as (t & rest & b & Hsuf & Ht).
    exists t, rest, b. split; [by apply suffix_cons | done].
Qed.

Lemma fenced_block_sound (bol : bool) (t after body : string) :
  Re.fenced_block bol t = Some (after, body) ->
  exists mid,
    t = Re.fence_text +:+ mid +:+ body +:+ Re.fence_text +:+ after.
Proof.
  unfold Re.fenced_block.
  destruct (strip_prefix Re.fence_text t) as [rest|] eqn:Hp; [|discriminate].
  destruct (prefix_by_split _ _ _ _ Hp) as (m & -> & Hm & _).
  apply matches_eq in Hm. subst m.
  assert (exists w rest',
            rest = w +:+ rest'
            /\ match ci_prefix "python" rest with
               | Some r => r | None => rest end = rest')
    as (w & rest' & Hw & ->).
  { destruct (ci_prefix "python" rest) as [r|] eqn:Hpy.
    - destruct (prefix_by_split _ _ _ _ Hpy) as (w & -> & _). by exists w, r.
    - by exists "", rest. }
  destruct (lstrip_split rest') as [ws Hws].
  destruct (find Re.fence_text (lstrip rest')) as [[b a]|] eqn:Hf;
    [|discriminate].
  intros [= -> ->].
  destruct (find_by_sound _ _ _ _ _ Hf) as (m & Hl & Hm).
  apply matches_eq in Hm. subst m.
  exists (w +:+ ws). rewrite Hw, Hws, Hl. by rewrite !str_app_assoc.
Qed.

Definition backquote : ascii := "`"%char.

Fixpoint string_forall (f : ascii -> bool) (s : string) : bool :=
  match s with
  | EmptyString => true
  | String c r => f c && string_forall f r
  end.

Lemma find_fence_cons (c : ascii) (s : string) :
  c <> backquote ->
  is_Some (find Re.fence_text (String c s)) ->
  is_Some (find Re.fence_text s).
Proof.
  intros Hc. unfold find, Re.fence_text. cbn [find_by prefix_by].
  assert (Ascii.eqb "`" c = false) as ->.
  { apply Ascii.eqb_neq. intros <-. by apply Hc. }
  destruct (find_by Ascii.eqb "```" s) as [[? ?]|]; [done|].
  by intros [? ?].
Qed.

Lemma find_fence_lstrip (s : string) :
  is_Some (find Re.fence_text s) -> is_Some (find Re.fence_text (lstrip s)).
Proof.
  induction s as [|c s IH]; [done|]. cbn [lstrip].
  destruct (isspace c) eqn:Hsp; [|done].
  intros H. apply IH, (find_fence_cons c); [|done].
  intros ->. discriminate Hsp.
Qed.

Lemma find_fence_prefix (p s r : string) :
  string_forall (fun a => negb (ci_char a backquote)) p = true ->
  ci_prefix p s = Some r ->
  is_Some (find Re.fence_text s) -> is_Some (find Re.fence_text r).
Proof.
  unfold ci_prefix. revert s. induction p as [|a p IH]; intros s Hp H.
  - cbn in H. by injection H as ->.
  - destruct s as [|b s]; [discriminate|]. cbn in H, Hp.
    apply andb_true_iff in Hp as [Ha Hp].
    destruct (ci_char a b) eqn:Hab; [|discriminate].
    intros Hs. apply (IH s Hp H), (find_fence_cons b); [|done].
    intros ->. by rewrite Hab in Ha.
Qed.

Lemma fenced_block_complete (bol : bool) (a1 : string) :
  is_Some (find Re.fence_text a1) ->
  is_Some (Re.fenced_block bol (Re.fence_text +:+ a1)).
Proof.
  intros H. unfold Re.fenced_block, strip_prefix.
  rewrite (prefix_by_app _ _ _ _ (matches_refl Re.fence_text)).
  set (rest' := match ci_prefix "python" a1 with
                | Some r => r | None => a1 end).
  assert (is_Some (find Re.fence_text rest')) as H'.
  { subst rest'. destruct (ci_prefix "python" a1) as [r|] eqn:Hpy; [|done].
    by apply (find_fence_prefix "python" a1 r). }
  apply find_fence_lstrip in H' as [[b a] ->]. done.
Qed.

Lemma fenced_block_bol (b b' : bool) (t : string) :
  Re.fenced_block b t = Re.fenced_block b' t.
Proof. reflexivity. Qed.

Lemma findall_fenced_nonempty (raw : string) :
  fenced_present raw -> Re.findall Re.fenced_block raw <> [].
Proof.
  intros (pre & body & post & ->) Hnil.
  destruct (find_by_leftmost Ascii.eqb Re.fence_text pre Re.fence_text
              (body +:+ Re.fence_text +:+ post) (matches_refl _))
    as (b & a & Hf & Hl).
  destruct (find_by_sound _ _ _ _ _ Hf) as (m & Hs & Hm).
  pose proof (matches_length _ _ _ Hm) as Hlen.
  apply matches_eq in Hm. subst m.
  assert (is_Some (find Re.fence_text a)) as Ha.
  { apply (find_by_some_suffix _ _ (body +:+ Re.fence_text +:+ post)).
    - apply (cut_suffix (b +:+ Re.fence_text) a (pre +:+ Re.fence_text)
               (body +:+ Re.fence_text +:+ post)).
      + by rewrite !str_app_assoc.
      + rewrite !str_app_length. lia.
    - apply (find_by_occurs _ _ body Re.fence_text post (matches_refl _)). }
  apply (fenced_block_complete true) in Ha.
  rewrite (findall_nil_none Re.fenced_block _ fenced_block_bol true Hnil
             (Re.fence_text +:+ a)) in Ha.
  - by destruct Ha.
  - exists b. exact Hs.
  - discriminate.
Qed.

Lemma findall_fenced_present (raw b : string) (bs : list string) :
  Re.findall Re.fenced_block raw = b :: bs -> fenced_present raw.
Proof.
  intros H.
  destruct (findall_cons_match _ _ _ _ _ H) as (t & rest & bol & [u ->] & Ht).
  destruct (fenced_block_sound _ _ _ _ Ht) as (mid & ->).
  exists u, (mid +:+ b), rest. by rewrite !str_app_assoc.
Qed.

Lemma max_by_len_spec (blocks : list string) :
  forall best,
    let longest := Version1.max_by_len best blocks in
    longest ∈ best :: blocks
    /\ forall x, x ∈ best :: blocks ->
                 (String.length x <= String.length longest)%nat.
Proof.
  induction blocks as [|b rest IH]; intros best; cbn [Version1.max_by_len].
  - split; [apply list_elem_of_here|].
    intros x Hx. apply list_elem_of_singleton in Hx. by subst.
  - destruct (Nat.ltb_spec (String.length best) (String.length b))
      as [Hlt|Hge].
    + destruct (IH b) as (Hin & Hmax). cbv zeta in Hin, Hmax. cbv zeta. split.
      * rewrite elem_of_cons. by right.
      * intros x Hx. rewrite elem_of_cons in Hx. destruct Hx as [-> | Hx].
        -- specialize (Hmax b (list_elem_of_here _ _)). lia.
        -- by apply Hmax.
    + destruct (IH best) as (Hin & Hmax). cbv zeta in Hin, Hmax. cbv zeta.
      split.
      * rewrite elem_of_cons in Hin. rewrite !elem_of_cons. tauto.
      * intros x Hx. rewrite !elem_of_cons in Hx.
        destruct Hx as [-> | [-> | Hx]].
        -- apply Hmax, list_elem_of_here.
        -- specialize (Hmax best (list_elem_of_here _ _)). lia.
        -- apply Hmax. rewrite elem_of_cons. by right.
Qed.

(** *** Trimming and deletion *)

Lemma rstrip_cons (c : ascii) (r : string) :
  rstrip (String c r) =
    match rstrip r with
    | "" => if isspace c then "" else String c ""
    | String c' r' => String c (String c' r')
    end.
Proof. reflexivity. Qed.

Lemma rstrip_idem (s : string) : rstrip (rstrip s) = rstrip s.
Proof.
  induction s as [|c r IH]; [done|]. rewrite rstrip_cons.
  destruct (rstrip r) as [|c' r'] eqn:Hr.
  - destruct (isspace c) eqn:Hsp; [done|]. rewrite rstrip_cons.
    cbn [rstrip]. by rewrite Hsp.
  - by rewrite rstrip_cons, IH.
Qed.

Lemma lstrip_rstrip (s : string) :
  lstrip (rstrip (lstrip s)) = rstrip (lstrip s).
Proof.
  assert (forall t, lstrip t = t -> lstrip (rstrip t) = rstrip t) as H.
  { intros [|c r] Ht; [done|]. cbn [lstrip] in Ht.
    destruct (isspace c) eqn:Hsp.
    - exfalso. destruct (lstrip_split r) as [ws Hws].
      rewrite Ht in Hws.
      assert (String.length r = String.length (ws +:+ String c r)) as Hl
        by by rewrite <- Hws.
      rewrite str_app_length in Hl. cbn in Hl. lia.
    - rewrite rstrip_cons. destruct (rstrip r); rewrite ?Hsp;
        cbn [lstrip]; by rewrite Hsp. }
  apply H. induction s as [|c r IH]; [done|]. cbn [lstrip].
  destruct (isspace c) eqn:Hsp; [exact IH|]. cbn [lstrip]. by rewrite Hsp.
Qed.

Lemma strip_idem (s : string) : strip (strip s) = strip s.
Proof. unfold strip. by rewrite lstrip_rstrip, rstrip_idem. Qed.

Lemma sub_no_match (m : Re.matcher) (s : string) :
  (forall bol t, suffix_of t s -> t <> "" -> m bol t = None) ->
  forall bol, Re.sub_from m bol O s = s.
Proof.
  induction s as [|c r IH]; intros H bol; [done|]. cbn [Re.sub_from].
  rewrite (H bol (String c r) (suffix_refl _)); [|discriminate].
  rewrite IH; [done|]. intros b t Ht. by apply H, suffix_cons.
Qed.

Lemma prefix_is_found (eqc : ascii -> ascii -> bool) (p t rest : string) :
  prefix_by eqc p t = Some rest -> find_by eqc p t = Some ("", rest).
Proof. intros H. destruct t; cbn [find_by]; by rewrite H. Qed.

Lemma prefix_none_suffix (eqc : ascii -> ascii -> bool) (p raw t : string) :
  find_by eqc p raw = None -> suffix_of t raw -> prefix_by eqc p t = None.
Proof.
  intros H Hsuf. destruct (prefix_by eqc p t) as [rest|] eqn:Hp; [|done].
  apply prefix_is_found in Hp.
  by rewrite (find_by_none_suffix _ _ _ _ H Hsuf) in Hp.
Qed.

Lemma tagged_none (open close raw : string) :
  find_ci open raw = None ->
  forall bol t, suffix_of t raw -> Re.tagged open close bol t = None.
Proof.
  intros H bol t Hsuf. unfold Re.tagged, ci_prefix.
  by rewrite (prefix_none_suffix _ _ _ _ H Hsuf).
Qed.

Lemma fence_prefix_none (raw : string) :
  find Re.fence_text raw = None ->
  forall t, suffix_of t raw -> strip_prefix Re.fence_text t = None.
Proof. intros H t Hsuf. by apply (prefix_none_suffix _ _ raw). Qed.

(** A reply without reasoning block and without fence marker is only
    trimmed. *)
Lemma clean_plain (raw : string) :
  find_ci "<think>" raw = None -> find Re.fence_text raw = None ->
  Parser.clean raw = strip raw.
Proof.
  intros Ht Hf. unfold Parser.clean, Re.sub.
  rewrite (sub_no_match Re.think raw);
    [|intros bol t Hs _; by apply (tagged_none _ _ raw)].
  rewrite (sub_no_match Re.fence_python raw).
  - rewrite (sub_no_match Re.fence raw); [done|].
    intros bol t Hs _. unfold Re.fence.
    by rewrite (fence_prefix_none raw Hf t Hs).
  - intros bol t Hs _. unfold Re.fence_python.
    by rewrite (fence_prefix_none raw Hf t Hs).
Qed.

Definition fenced_reply : string :=
  join nl ["Here:"; "```python"; "x = 1"; "```"; "Done"].

Definition reasoning_reply : string := "<think>plan</think>x = 1".

(** Neither variant does all that the claim says.  parser.py (and
    Version2.py) has no fenced-block rule: of a reply with prose around a
    fenced block it returns the prose too, only the fence markers being
    deleted.  Version1.py has no rule for reasoning markup: it returns a
    reply with a reasoning block as it is. *)
Lemma C7_counterexample :
  (Re.search Re.marker fenced_reply = None
   /\ Re.findall Re.fenced_block fenced_reply = ["x = 1" +:+ nl]
   /\ Parser.extract_code fenced_reply
      = join nl ["Here:"; ""; "x = 1"; ""; "Done"]
   /\ Parser.extract_code fenced_reply <> strip ("x = 1" +:+ nl))
  /\ (Re.search Re.marker reasoning_reply = None
      /\ Re.findall Re.fenced_block reasoning_reply = []
      /\ Re.sub Re.think reasoning_reply = "x = 1"
      /\ Version1.extract_code reasoning_reply = reasoning_reply).
Proof.
  split; [split; [|split; [|split]] | split; [|split; [|split]]];
    try (vm_compute; reflexivity).
  vm_compute. discriminate.
Qed.

(** C7 (amended).  Version1.py returns the trimmed content of the marker
    region when the reply has one; otherwise the trimmed longest fenced
    block when the reply has a fenced block; otherwise the trimmed reply,
    reasoning markup included.  parser.py and Version2.py first delete the
    reasoning blocks and the fence markers from the reply and trim it;
    they return the trimmed content of the marker region of that cleaned
    text when it has one, and otherwise the whole cleaned text, which is
    the trimmed reply itself when the reply has neither reasoning tag nor
    fence marker; they have no longest-block rule. *)
Theorem C7_payload_extraction (raw : string) :
  ((marker_present raw ->
    exists body,
      marker_region raw body /\ Version1.extract_code raw = strip body)
   /\ (~ marker_present raw -> fenced_present raw ->
       exists longest,
         longest ∈ Re.findall Re.fenced_block raw
         /\ (forall b, b ∈ Re.findall Re.fenced_block raw ->
                       (String.length b <= String.length longest)%nat)
         /\ Version1.extract_code raw = strip longest)
   /\ (~ marker_present raw -> ~ fenced_present raw ->
       Version1.extract_code raw = strip raw))
  /\ (Parser.extract_code "" = ""
      /\ (raw <> "" -> marker_present (Parser.clean raw) ->
          exists body,
            marker_region (Parser.clean raw) body
            /\ Parser.extract_code raw = strip body)
      /\ (raw <> "" -> ~ marker_present (Parser.clean raw) ->
          Parser.extract_code raw = Parser.clean raw)
      /\ (find_ci "<think>" raw = None -> find Re.fence_text raw = None ->
          Parser.clean raw = strip raw)
      /\ Version2.extract_code raw = Parser.extract_code raw).
Proof.
  split; [split; [|split] | split; [|split; [|split; [|split]]]].
  - intros Hm. destruct (search_marker_complete raw Hm) as [body Hs].
    exists body. split; [by apply search_marker_sound|].
    unfold Version1.extract_code. by rewrite Hs.
  - intros Hm Hf. unfold Version1.extract_code.
    rewrite (search_marker_none raw Hm).
    pose proof (findall_fenced_nonempty raw Hf) as Hne.
    destruct (Re.findall Re.fenced_block raw) as [|b bs]; [done|].
    destruct (max_by_len_spec bs b) as (Hin & Hmax).
    by exists (Version1.max_by_len b bs).
  - intros Hm Hf. unfold Version1.extract_code.
    rewrite (search_marker_none raw Hm).
    destruct (Re.findall Re.fenced_block raw) as [|b bs] eqn:Hb; [done|].
    exfalso. by apply Hf, (findall_fenced_present raw b bs).
  - reflexivity.
  - intros Hne Hm. destruct (search_marker_complete _ Hm) as [body Hs].
    exists body. split; [by apply search_marker_sound|].
    unfold Parser.extract_code.
    apply String.eqb_neq in Hne. by rewrite Hne, Hs.
  - intros Hne Hm. unfold Parser.extract_code.
    apply String.eqb_neq in Hne.
    rewrite Hne, (search_marker_none _ Hm).
    unfold Parser.clean. apply strip_idem.
  - apply clean_plain.
  - reflexivity.
Qed.

End Payload.


(** ** The combiner (parser.py, nodes.py) *)

Section Combiner.

Import Ast.

Variable ast_parse : string -> res node.

(** *** The walk visits every node *)

Lemma sizes_app (l k : list node) : sizes (l ++ k) = (sizes l + sizes k)%nat.
Proof. induction l as [|x l IH]; [done|]. cbn. rewrite IH. lia. Qed.

Lemma size_children (n : node) : size n = S (sizes (children_of n)).
Proof.
  assert (forall l,
            (fix go (l : list node) : nat :=
               match l with [] => O | x :: r => (size x + go r)%nat end) l
            = sizes l) as Hgo.
  { induction l as [|x l IH]; [done|]. cbn. by rewrite IH. }
  destruct n as [name l e ch | name l e before body after | ch]; cbn;
    rewrite ?sizes_app, ?Hgo; reflexivity.
Qed.

Lemma walk_queue_length (fuel : nat) :
  forall queue, (sizes queue <= fuel)%nat ->
                length (walk_queue fuel queue) = sizes queue.
Proof.
  induction fuel as [|fuel IH]; intros queue Hq.
  - destruct queue as [|n q]; [done|]. cbn in Hq.
    pose proof (size_children n). lia.
  - destruct queue as [|n q]; [done|]. cbn [walk_queue length sizes].
    pose proof (size_children n) as Hn. cbn [sizes] in Hq.
    rewrite IH; rewrite sizes_app; lia.
Qed.

Lemma walk_length (tree : node) : length (walk tree) = size tree.
Proof.
  unfold walk. rewrite walk_queue_length; cbn; lia.
Qed.

(** *** What the loop extracts when no class is involved *)

Record fdef : Type := { fname : string; flineno : Z; fend_lineno : Z }.

Definition is_class (n : node) : bool :=
  match n with ClassDef _ _ _ _ _ _ => true | _ => false end.

Definition function_of (n : node) : option fdef :=
  match n with
  | FunctionDef name lineno end_lineno _ =>
      Some {| fname := name; flineno := lineno; fend_lineno := end_lineno |}
  | _ => None
  end.

(** The function definitions that the walk meets, in its order. *)
Definition functions (nodes : list node) : list fdef :=
  omap function_of nodes.


Definition detected (names : list string) (f : fdef) : bool :=
  Parser.elem (fname f) names.




(** *** Lines and the deletion of imports *)



Definition not_newline (a : ascii) : bool := negb (Ascii.eqb a newline).

Definition one_line (l : string) : Prop :=
  string_forall not_newline l = true.
















(** *** The lines of the fragment *)





End Combiner.





(** A source in which b is defined inside a. *)
Definition nested_source : string :=
  join nl ["def a():";
           "    def b():";
           "        return 2";
           "    return b()";
           "";
           "def c():";
           "    return 3";
           ""].

Definition nested_tree : Ast.node :=
  Ast.Other
    [Ast.FunctionDef "a" 1 4
       [Ast.Other [];
        Ast.FunctionDef "b" 2 3 [Ast.Other []; Ast.Other [Ast.Other []]];
        Ast.Other [Ast.Other [Ast.Other [Ast.Other []]]]];
     Ast.FunctionDef "c" 6 7 [Ast.Other []; Ast.Other [Ast.Other []]]].

Definition parse_nested (code : string) : res Ast.node :=
  if String.eqb code nested_source then Ok nested_tree
  else Raise (SyntaxError "invalid syntax").

(** No class and three distinct names, a and c detected: b is no item of
    the fragment, but its two lines are lines of a and come along. *)
Lemma nested_function_comes_along :
  parse_nested nested_source = Ok nested_tree
  /\ Forall (fun n => is_class n = false) (Ast.walk nested_tree)
  /\ map fname (functions (Ast.walk nested_tree)) = ["a"; "c"; "b"]
  /\ map fname
       (List.filter (detected ["a"; "c"]) (functions (Ast.walk nested_tree)))
     = ["a"; "c"]
  /\ Parser.extract_user_functions parse_nested nested_source ["a"; "c"]
     = join nl ["def a():"; "    def b():"; "        return 2";
                "    return b()"; ""; "def c():"; "    return 3"].
Proof.
  split; [reflexivity|]. split; [vm_compute; repeat constructor|].
  repeat split; vm_compute; reflexivity.
Qed.

(** A source with three functions and no import. *)
Definition plain_source : string :=
  join nl ["def a():";
           "    return 1";
           "";
           "def b():";
           "    return 2";
           "";
           "def c():";
           "    return 3";
           ""].

Definition plain_tree : Ast.node :=
  Ast.Other
    [Ast.FunctionDef "a" 1 2 [Ast.Other []; Ast.Other [Ast.Other []]];
     Ast.FunctionDef "b" 4 5 [Ast.Other []; Ast.Other [Ast.Other []]];
     Ast.FunctionDef "c" 7 8 [Ast.Other []; Ast.Other [Ast.Other []]]].

Definition parse_plain (code : string) : res Ast.node :=
  if String.eqb code plain_source then Ok plain_tree
  else Raise (SyntaxError "invalid syntax").



(** ** The critic (nodes.py, Version2.py) *)

Section Critic.

Variable json_loads : string -> res json.
Variable llm_critic : nat -> Graph.critic_prompt -> string.
Variable llm_critic2 : nat -> Version2.critic_prompt -> string.

(** A structured report of which every collected test passed: the summary
    counts [expected] collected and passed tests and no failure or error
    (a count that the summary leaves out reads as zero). *)
Definition all_passed (report : json) (expected : Z) : Prop :=
  exists summary,
    dict_get report "summary" (JObj []) = Ok summary
    /\ dict_get summary "collected" (JInt 0) = Ok (JInt expected)
    /\ dict_get summary "passed" (JInt 0) = Ok (JInt expected)
    /\ dict_get summary "failed" (JInt 0) = Ok (JInt 0)
    /\ dict_get summary "errors" (JInt 0) = Ok (JInt 0).

Definition graph_success (passed collected : json) (st : Graph.GraphState)
  : Graph.GraphState :=
  Graph.log "critic"
    [Lit "SUCCESS - "; Fmt passed; Lit "/"; Fmt collected;
     Lit " tests passed."]
    (Graph.set_feedback (JStr "All tests passed successfully.")
       (Graph.set_status (JStr "success") st)).

Definition version2_success (passed collected : json)
    (st : Version2.AgentState) : Version2.AgentState :=
  Version2.log "critic"
    [Lit "Analysis: success - "; Fmt passed; Lit "/"; Fmt collected;
     Lit " tests passed"]
    (Version2.set_feedback (JStr "All tests passed successfully")
       (Version2.set_status (JStr "success") st)).

Lemma graph_fast_path (st : Graph.GraphState) (w : World.world) (n : Z) :
  all_passed (Graph.report st) n -> 0 < n ->
  Graph.critic_node json_loads llm_critic st w =
    Ok (graph_success (JInt n) (JInt n) st, w).
Proof.
  intros (summary & Hs & Hc & Hp & _ & _) Hpos.
  unfold Graph.critic_node. rewrite Hs. cbn [bind]. rewrite Hc. cbn [bind].
  rewrite Hp. cbn [bind gt_int as_num eq_num].
  assert (Z.ltb 0 n = true) as Hlt; [by apply Z.ltb_lt|].
  by rewrite Hlt, Z.eqb_refl.
Qed.

Lemma version2_fast_path (st : Version2.AgentState) (w : World.world) :
  all_passed (Version2.report st) (Version2.num_functions st) ->
  Version2.critic_node json_loads llm_critic2 st w =
    Ok (version2_success (JInt (Version2.num_functions st))
          (JInt (Version2.num_functions st)) st, w).
Proof.
  intros (summary & Hs & Hc & Hp & Hf & He).
  unfold Version2.critic_node. rewrite Hs. cbn [bind]. rewrite Hc, Hp, Hf, He.
  cbn [bind eq_int eq_num as_num]. by rewrite !Z.eqb_refl.
Qed.

(** The state and the world of the counterexample to the fast path: no
    function was detected, and the report counts no test at all. *)
Definition empty_run_state : Graph.GraphState :=
  Graph.set_report
    (JObj [("summary",
            JObj [("collected", JInt 0); ("passed", JInt 0);
                  ("failed", JInt 0); ("errors", JInt 0)])])
    (Graph.initial_state "" "" 3).

Definition never_json (s : string) : res json :=
  Raise (JSONDecodeError "Expecting value").

(** With no function detected and no test collected the report has
    [collected = expected = passed = 0] and no failure or error, yet
    nodes.py asks the model and takes its word: [collected > 0] fails. *)
Lemma C3_counterexample :
  all_passed (Graph.report empty_run_state)
    (Graph.num_functions empty_run_state)
  /\ exists st' w',
       Graph.critic_node never_json (fun _ _ => "try again")
         empty_run_state World.empty_world = Ok (st', w')
       /\ World.critic_calls w' = 1%nat
       /\ Graph.status st' = JStr "needs_fix".
Proof.
  split.
  - eexists. repeat split; reflexivity.
  - eexists _, _. split; [reflexivity|]. split; reflexivity.
Qed.

(** C3 (amended). When the summary of the report has [collected] equal to
    the expected number of tests, [passed] equal to [collected] and no
    failure or error, the critic of Version2.py returns the verdict
    [success] at once, and the critic of nodes.py does so when that number
    is positive; in both the model is not called: the world is returned
    as it was, with the same number of critic calls. *)
Theorem C3_success_fast_path
    (st : Graph.GraphState) (st2 : Version2.AgentState) (w : World.world) :
  all_passed (Graph.report st) (Graph.num_functions st) ->
  0 < Graph.num_functions st ->
  all_passed (Version2.report st2) (Version2.num_functions st2) ->
  (exists st',
     Graph.critic_node json_loads llm_critic st w = Ok (st', w)
     /\ Graph.status st' = JStr "success")
  /\ (exists st2',
        Version2.critic_node json_loads llm_critic2 st2 w = Ok (st2', w)
        /\ Version2.status st2' = JStr "success").
Proof.
  intros Hg Hpos Hv. split.
  - eexists. split; [by apply graph_fast_path | reflexivity].
  - eexists. split; [by apply version2_fast_path | reflexivity].
Qed.

End Critic.

Definition one_test_passed : json :=
  JObj [("summary", JObj [("collected", JInt 1); ("passed", JInt 1)])].

Lemma C3_success_fast_path_witness :
  let st :=
    Graph.set_num_functions 1
      (Graph.set_report one_test_passed (Graph.initial_state "" "" 3)) in
  let st2 :=
    Version2.set_num_functions 1
      (Version2.set_report one_test_passed (Version2.initial_state "" 3)) in
  all_passed (Graph.report st) (Graph.num_functions st)
  /\ 0 < Graph.num_functions st
  /\ all_passed (Version2.report st2) (Version2.num_functions st2)
  /\ (exists st',
        Graph.critic_node never_json (fun _ _ => "") st World.empty_world
          = Ok (st', World.empty_world)
        /\ Graph.status st' = JStr "success")
  /\ (exists st2',
        Version2.critic_node never_json (fun _ _ => "") st2
          World.empty_world = Ok (st2', World.empty_world)
        /\ Version2.status st2' = JStr "success").
Proof.
  intros st st2.
  assert (all_passed one_test_passed 1) as Hall.
  { eexists. repeat split; reflexivity. }
  split; [exact Hall|]. split; [reflexivity|]. split; [exact Hall|].
  apply (C3_success_fast_path never_json (fun _ _ => "") (fun _ _ => "")
           st st2 World.empty_world); [exact Hall | reflexivity | exact Hall].
Defined.


Section CriticReply.

Variable json_loads : string -> res json.
Variable llm_critic : nat -> Graph.critic_prompt -> string.
Variable llm_critic2 : nat -> Version2.critic_prompt -> string.

(** What the critic of nodes.py makes of a reply once it is decoded into
    the object [result]. *)
Definition graph_reply (result : list (string * json))
    (st : Graph.GraphState) : Graph.GraphState :=
  let verdict := default (JStr "needs_fix") (assoc "status" result) in
  let fb := default (JStr "No feedback provided.") (assoc "feedback" result) in
  let st :=
    Graph.log "critic"
      [Lit "Analysis: "; Fmt verdict; Lit ". Feedback: "; Fmt fb]
      (Graph.set_feedback fb (Graph.set_status verdict st)) in
  if eq_str verdict "needs_fix"
  then Graph.set_iteration (Graph.iteration st + 1) st else st.

Lemma assoc_default (k : string) (fields : list (string * json)) (d : json) :
  match assoc k fields with Some v => v | None => d end
  = default d (assoc k fields).
Proof. by destruct (assoc k fields). Qed.

Lemma graph_verdict_object (content : string) (fields : list (string * json))
    (st : Graph.GraphState) :
  json_loads content = Ok (JObj fields) ->
  Graph.critic_verdict json_loads content st = Ok (graph_reply fields st).
Proof.
  intros H. unfold Graph.critic_verdict. rewrite H. cbn [bind dict_get].
  by rewrite !assoc_default.
Qed.

(** A reply that is not JSON degrades to [needs_fix] with the generic
    feedback, and the counter moves on by one. *)
Lemma graph_verdict_not_json (content msg : string) (st : Graph.GraphState) :
  json_loads content = Raise (JSONDecodeError msg) ->
  Graph.critic_verdict json_loads content st =
    Ok (graph_reply [("status", JStr "needs_fix");
                     ("feedback", JStr "Critic response was not valid JSON.")]
          st).
Proof.
  intros H. unfold Graph.critic_verdict. rewrite H. reflexivity.
Qed.

Lemma graph_reply_needs_fix (fields : list (string * json))
    (st : Graph.GraphState) :
  default (JStr "needs_fix") (assoc "status" fields) = JStr "needs_fix" ->
  Graph.status (graph_reply fields st) = JStr "needs_fix"
  /\ Graph.iteration (graph_reply fields st) = Graph.iteration st + 1
  /\ Graph.max_iterations (graph_reply fields st) = Graph.max_iterations st.
Proof.
  intros H. unfold graph_reply. rewrite H. repeat split.
Qed.

(** A reply that is JSON but not an object has no [get]. *)
Lemma graph_verdict_not_object (content : string) (v : json)
    (st : Graph.GraphState) :
  json_loads content = Ok v -> is_dict v = false ->
  Graph.critic_verdict json_loads content st = Raise (no_attribute v "get").
Proof.
  intros H Hv. unfold Graph.critic_verdict. rewrite H. cbn [bind].
  by destruct v.
Qed.

(** The prompt of the critic when the report holds nothing. *)
Definition zero_prompt (st : Graph.GraphState) : Graph.critic_prompt :=
  {| Graph.cp_framework := upper (Graph.framework st);
     Graph.cp_passed := JInt 0;
     Graph.cp_collected := JInt 0;
     Graph.cp_iteration := Graph.iteration st;
     Graph.cp_max_iterations := Graph.max_iterations st;
     Graph.cp_failed_tests := [];
     Graph.cp_stderr := str_take 800 (Graph.pytest_stderr st) |}.

Lemma critic_on_empty_report (st : Graph.GraphState) (w : World.world) :
  Graph.report st = JObj [] ->
  Graph.critic_node json_loads llm_critic st w =
    let* st' :=
      Graph.critic_verdict json_loads
        (llm_critic (World.critic_calls w) (zero_prompt st)) st in
    Ok (st', World.tick_critic w).
Proof.
  intros H. unfold Graph.critic_node. rewrite H. reflexivity.
Qed.

(** C4 (the defect). When the reply of the model is JSON but not an
    object (a list, a number, a string, [null]), it cannot be read as a
    verdict payload, and the critic of nodes.py does not degrade to
    [needs_fix]: the [AttributeError] of [result.get] leaves the node. *)
Theorem C4_non_object_reply_raises
    (st : Graph.GraphState) (w : World.world) (v : json) :
  Graph.report st = JObj [] ->
  json_loads (llm_critic (World.critic_calls w) (zero_prompt st)) = Ok v ->
  is_dict v = false ->
  Graph.critic_node json_loads llm_critic st w
    = Raise (no_attribute v "get").
Proof.
  intros Hr Hv Hd. rewrite (critic_on_empty_report st w Hr).
  by rewrite (graph_verdict_not_object _ v st Hv Hd).
Qed.

(** In Version2.py the reply is searched for a brace-delimited span and
    every failure is caught: the critic reads an object whenever the
    decoder yields objects for such spans, as [json.loads] does. *)
Lemma version2_verdict_total (content : string) (st : Version2.AgentState) :
  (forall text v, json_loads text = Ok v -> startswith "{" text = true ->
                  is_dict v = true) ->
  exists st', Version2.critic_verdict json_loads content st = Ok st'.
Proof.
  intros Hobj. unfold Version2.critic_verdict.
  destruct (Version2.brace_span content) as [text|] eqn:Hspan.
  - destruct (json_loads text) as [v|e] eqn:Hv.
    + assert (is_dict v = true) as Hd.
      { apply (Hobj text v Hv). unfold Version2.brace_span in Hspan.
        destruct (find "{" content) as [[? rest]|]; [|discriminate].
        destruct (Version2.upto_last_brace rest); [|discriminate].
        by injection Hspan as <-. }
      destruct v; try discriminate. cbn [bind dict_get]. by eexists.
    + cbn [bind dict_get]. by eexists.
  - cbn [bind dict_get]. by eexists.
Qed.

Lemma version2_verdict_unparsable (content : string)
    (st : Version2.AgentState) :
  Version2.brace_span content = None
  \/ (exists text e, Version2.brace_span content = Some text
                     /\ json_loads text = Raise e) ->
  exists st',
    Version2.critic_verdict json_loads content st = Ok st'
    /\ Version2.status st' = JStr "test_error"
    /\ Version2.iteration st' = Version2.iteration st + 1.
Proof.
  intros [H | (text & e & H & He)]; unfold Version2.critic_verdict;
    rewrite H; [|rewrite He]; eexists; repeat split.
Qed.

End CriticReply.

(** A decoder that knows one text: the empty JSON list. *)
Definition loads_empty_list (s : string) : res json :=
  if String.eqb s "[]" then Ok (JArr [])
  else Raise (JSONDecodeError "Expecting value").

Lemma C4_non_object_reply_raises_witness :
  let st := Graph.initial_state "" "" 3 in
  Graph.report st = JObj []
  /\ loads_empty_list "[]" = Ok (JArr [])
  /\ is_dict (JArr []) = false
  /\ Graph.critic_node loads_empty_list (fun _ _ => "[]") st
       World.empty_world
     = Raise (AttributeError "'list' object has no attribute 'get'").
Proof.
  intros st. split; [reflexivity|]. split; [reflexivity|].
  split; [reflexivity|].
  apply (C4_non_object_reply_raises loads_empty_list (fun _ _ => "[]")
           st World.empty_world (JArr [])); reflexivity.
Defined.


(** ** The execution adapter *)

Section Execution.

Import World.

Variable json_loads : string -> res json.
Variable pytest : nat -> gmap string string -> process.
Variable llm_critic : nat -> Graph.critic_prompt -> string.

(** The world in which nodes.py starts the subprocess. *)
Definition cleared (w : world) : world :=
  if exists_file report_path w then remove_file report_path w else w.

Lemma cleared_no_report (w : world) : files (cleared w) !! report_path = None.
Proof.
  unfold cleared, exists_file. case_bool_decide as H.
  - apply lookup_delete_eq.
  - by apply eq_None_not_Some.
Qed.

Lemma after_process_report (p : process) (w : world) :
  files (after_process p w) !! report_path =
    match proc_report p with
    | Some content => Some content
    | None => files w !! report_path
    end.
Proof.
  unfold after_process. destruct (proc_report p); [|reflexivity].
  apply lookup_insert_eq.
Qed.

(** In nodes.py a report that is returned was written by the run that
    returns it. *)
Lemma graph_report_is_fresh (test_file : string) (w : world)
    (rc : Z) (rep : json) (out err : string) (w' : world) :
  Graph.run_pytest_json json_loads pytest test_file w
    = ((rc, rep, out, err), w') ->
  rep <> JNull ->
  exists content,
    proc_report (pytest (pytest_runs (cleared w)) (files (cleared w)))
      = Some content
    /\ json_loads content = Ok rep.
Proof.
  unfold Graph.run_pytest_json. fold (cleared w).
  set (p := pytest _ _).
  destruct (proc_outcome p); [|intros [= _ <- _ _]; done].
  rewrite after_process_report, cleared_no_report.
  destruct (proc_report p) as [content|]; [|intros [= _ <- _ _]; done].
  destruct (json_loads content) as [r|e] eqn:Hr; [|intros [= _ <- _ _]; done].
  intros [= _ <- _ _] _. by exists content.
Qed.

(** C6 (the defect). With the report of an earlier run still at the
    report path and a test run that ends without writing a report,
    nodes.py returns no report, having removed the old file first, while
    Version2.py and Version1.py, which remove nothing, return the report
    of the earlier run. *)
Theorem C6_stale_report
    (test_file : string) (w : world) (stale : string) (rep : json)
    (rc : Z) (out err : string) :
  files w !! report_path = Some stale ->
  json_loads stale = Ok rep ->
  (forall k fs,
     pytest k fs = {| proc_outcome := Exited rc out err;
                      proc_report := None |}) ->
  fst (Graph.run_pytest_json json_loads pytest test_file w)
    = (rc, JNull, out, err)
  /\ fst (Version2.run_pytest_json json_loads pytest test_file w)
     = (rc, rep, out, err)
  /\ fst (Version1.run_pytest_json json_loads pytest test_file w)
     = Ok (rc =? 0, rep, out, err).
Proof.
  intros Hstale Hrep Hrun. split; [|split].
  - unfold Graph.run_pytest_json. fold (cleared w). rewrite Hrun.
    cbn [proc_outcome]. rewrite after_process_report, cleared_no_report.
    reflexivity.
  - unfold Version2.run_pytest_json. rewrite Hrun. cbn [proc_outcome].
    rewrite after_process_report. cbn [proc_report].
    by rewrite Hstale, Hrep.
  - unfold Version1.run_pytest_json. rewrite Hrun. cbn [proc_outcome].
    rewrite after_process_report. cbn [proc_report].
    by rewrite Hstale, Hrep.
Qed.

(** The record of an execution that produced no report. *)
Definition zero_result (st : Graph.GraphState) : Graph.iter_result :=
  {| Graph.ir_iteration := Graph.iteration st;
     Graph.ir_collected := JInt 0;
     Graph.ir_passed := JInt 0;
     Graph.ir_failed := JInt 0;
     Graph.ir_errors := JInt 0 |}.

Lemma execution_without_report (st : Graph.GraphState) (w : world)
    (rc : Z) (out err : string) (w1 : world) :
  Graph.run_pytest_json json_loads pytest Graph.test_file_path
    (write_file Graph.test_file_path (Graph.combined_code st) w)
    = ((rc, JNull, out, err), w1) ->
  exists st1,
    Graph.execution_node json_loads pytest st w = Ok (st1, w1)
    /\ Graph.report st1 = JObj []
    /\ Graph.iteration_results st1
       = Graph.iteration_results st ++ [zero_result st]
    /\ Graph.iteration st1 = Graph.iteration st
    /\ Graph.max_iterations st1 = Graph.max_iterations st
    /\ Graph.framework st1 = Graph.framework st
    /\ Graph.pytest_stderr st1 = err.
Proof.
  intros H. unfold Graph.execution_node. rewrite H.
  eexists. split; [reflexivity|]. repeat split.
Qed.

(** C5 (the defect). When the execution adapter returns no report, the
    execution node stores the empty report and records zero collected and
    zero passed tests, and the critic takes the counts as 0: it does not
    take the success path and asks the model with 0/0 in the prompt.  But
    it does not return a verdict whatever the reply is: when the reply is
    JSON and not an object, [result.get] raises [AttributeError] out of
    the node.  A verdict is returned when the reply is not JSON
    ([needs_fix]) and when it is a JSON object (the status of the reply,
    or [needs_fix] when it has none). *)
Theorem C5_report_loss_reply_raises (st : Graph.GraphState) (w : world)
    (rc : Z) (out err : string) (w1 : world) :
  Graph.run_pytest_json json_loads pytest Graph.test_file_path
    (write_file Graph.test_file_path (Graph.combined_code st) w)
    = ((rc, JNull, out, err), w1) ->
  exists st1,
    Graph.execution_node json_loads pytest st w = Ok (st1, w1)
    /\ Graph.report st1 = JObj []
    /\ Graph.iteration_results st1
       = Graph.iteration_results st ++ [zero_result st]
    /\ let reply := llm_critic (critic_calls w1) (zero_prompt st1) in
       Graph.critic_node json_loads llm_critic st1 w1
         = (let* st2 := Graph.critic_verdict json_loads reply st1 in
            Ok (st2, tick_critic w1))
       /\ (forall v, json_loads reply = Ok v -> is_dict v = false ->
             Graph.critic_node json_loads llm_critic st1 w1
               = Raise (no_attribute v "get"))
       /\ (forall msg, json_loads reply = Raise (JSONDecodeError msg) ->
             exists st2,
               Graph.critic_node json_loads llm_critic st1 w1
                 = Ok (st2, tick_critic w1)
               /\ Graph.status st2 = JStr "needs_fix"
               /\ Graph.iteration st2 = Graph.iteration st + 1)
       /\ (forall fields, json_loads reply = Ok (JObj fields) ->
             exists st2,
               Graph.critic_node json_loads llm_critic st1 w1
                 = Ok (st2, tick_critic w1)
               /\ Graph.status st2
                  = default (JStr "needs_fix") (assoc "status" fields)).
Proof.
  intros H.
  destruct (execution_without_report st w rc out err w1 H)
    as (st1 & Hex & Hrep & Hres & Hit & _).
  exists st1. split; [exact Hex|]. split; [exact Hrep|].
  split; [exact Hres|]. cbv zeta.
  rewrite (critic_on_empty_report json_loads llm_critic st1 w1 Hrep).
  split; [reflexivity|]. split; [|split].
  - intros v Hv Hd. by rewrite (graph_verdict_not_object _ _ v st1 Hv Hd).
  - intros msg Hmsg. rewrite (graph_verdict_not_json _ _ msg st1 Hmsg).
    eexists. split; [reflexivity|].
    destruct (graph_reply_needs_fix
                [("status", JStr "needs_fix");
                 ("feedback", JStr "Critic response was not valid JSON.")]
                st1 eq_refl) as (Hs & Hi & _).
    split; [exact Hs|]. by rewrite Hi, Hit.
  - intros fields Hf. rewrite (graph_verdict_object _ _ fields st1 Hf).
    eexists. split; [reflexivity|].
    unfold graph_reply.
    by destruct (eq_str (default (JStr "needs_fix") (assoc "status" fields))
                   "needs_fix").
Qed.

End Execution.

(** A test run that is killed on time-out and leaves no report. *)
Definition timed_out (k : nat) (fs : gmap string string) : World.process :=
  {| World.proc_outcome :=
       World.Failed (TimeoutExpired "Command timed out after 60 seconds");
     World.proc_report := None |}.

(** The test run is killed on time-out, and the model answers the critic
    with an empty JSON list. *)
Lemma C5_report_loss_reply_raises_witness :
  let st := Graph.initial_state "" "" 3 in
  let w := World.empty_world in
  exists w1,
    Graph.run_pytest_json loads_empty_list timed_out Graph.test_file_path
      (World.write_file Graph.test_file_path (Graph.combined_code st) w)
      = ((-1, JNull, "", "Command timed out after 60 seconds"), w1)
    /\ exists st1,
         Graph.execution_node loads_empty_list timed_out st w = Ok (st1, w1)
         /\ Graph.report st1 = JObj []
         /\ Graph.critic_node loads_empty_list (fun _ _ => "[]") st1 w1
            = Raise (AttributeError "'list' object has no attribute 'get'").
Proof.
  intros st w. eexists. split; [reflexivity|].
  destruct (C5_report_loss_reply_raises loads_empty_list timed_out
              (fun _ _ => "[]") st w (-1) ""
              "Command timed out after 60 seconds" _ eq_refl)
    as (st1 & Hex & Hrep & _ & _ & Hraise & _).
  exists st1. split; [exact Hex|]. split; [exact Hrep|].
  exact (Hraise (JArr []) eq_refl eq_refl).
Defined.

(** A test run that exits on a usage error and writes nothing. *)
Definition usage_error (k : nat) (fs : gmap string string) : World.process :=
  {| World.proc_outcome :=
       World.Exited 4 "" "error: unrecognized arguments: --json-report";
     World.proc_report := None |}.

Definition old_report : json :=
  JObj [("summary", JObj [("collected", JInt 2); ("passed", JInt 2)])].

Definition loads_old (s : string) : res json :=
  if String.eqb s "old" then Ok old_report
  else Raise (JSONDecodeError "Expecting value").

Definition stale_world : World.world :=
  World.write_file World.report_path "old" World.empty_world.

Lemma C6_stale_report_witness :
  World.files stale_world !! World.report_path = Some "old"
  /\ loads_old "old" = Ok old_report
  /\ fst (Graph.run_pytest_json loads_old usage_error "test_combined.py"
            stale_world)
     = (4, JNull, "", "error: unrecognized arguments: --json-report")
  /\ fst (Version2.run_pytest_json loads_old usage_error "test_generated.py"
            stale_world)
     = (4, old_report, "", "error: unrecognized arguments: --json-report").
Proof.
  split; [reflexivity|]. split; [reflexivity|].
  destruct (C6_stale_report loads_old usage_error "test_combined.py"
              stale_world "old" old_report 4 ""
              "error: unrecognized arguments: --json-report"
              eq_refl eq_refl (fun _ _ => eq_refl)) as (Hg & _).
  destruct (C6_stale_report loads_old usage_error "test_generated.py"
              stale_world "old" old_report 4 ""
              "error: unrecognized arguments: --json-report"
              eq_refl eq_refl (fun _ _ => eq_refl)) as (_ & Hv & _).
  by split.
Defined.


(** ** The routing rule (builder.py, Version2.py) *)

Section Routing.

Lemma eq_str_true (v : json) (s : string) :
  eq_str v s = true <-> v = JStr s.
Proof.
  destruct v; simpl; try (split; [discriminate | intros H; discriminate H]).
  rewrite String.eqb_eq. split; [by intros -> | by intros [= ->]].
Qed.

(** A verdict is one name at most. *)
Lemma eq_str_excl (v : json) (a b : string) :
  a <> b -> eq_str v a = true -> eq_str v b = false.
Proof.
  intros Hne Ha. apply eq_str_true in Ha. subst. simpl.
  by apply String.eqb_neq.
Qed.

(** The rule of builder.py. *)
Lemma graph_route (st : Graph.GraphState) :
  let over := Graph.max_iterations st <? Graph.iteration st in
  let success := eq_str (Graph.status st) "success" in
  let needs_fix := eq_str (Graph.status st) "needs_fix" in
  Graph.should_continue st =
    (if needs_fix && negb over then Graph.generate else Graph.reporter,
     if negb success && over
     then Graph.set_status (JStr "max_iterations") st else st).
Proof.
  intros over success needs_fix. unfold Graph.should_continue.
  fold over success needs_fix.
  destruct success eqn:Hs.
  - assert (needs_fix = false) as ->; [|done].
    apply (eq_str_excl _ "success"); [discriminate | exact Hs].
  - destruct over; [by rewrite andb_false_r | by destruct needs_fix].
Qed.

(** The rule of Version2.py. *)
Lemma version2_route (st : Version2.AgentState) :
  let over := Version2.max_iterations st <? Version2.iteration st in
  let final := eq_str (Version2.status st) "success"
               || eq_str (Version2.status st) "source_error" in
  let retry := eq_str (Version2.status st) "test_error"
               || eq_str (Version2.status st) "incomplete" in
  fst (Version2.should_continue st) =
    (if retry && negb over then Version2.generate else Version2.reporter)
  /\ Version2.status (snd (Version2.should_continue st)) =
       (if negb final && over then JStr "max_iterations"
        else Version2.status st).
Proof.
  intros over final retry. unfold Version2.should_continue.
  fold over. subst final retry.
  destruct (eq_str (Version2.status st) "success") eqn:Hs.
  { rewrite (eq_str_excl _ "success" "test_error"),
      (eq_str_excl _ "success" "incomplete"); done. }
  destruct (eq_str (Version2.status st) "source_error") eqn:He.
  { rewrite (eq_str_excl _ "source_error" "test_error"),
      (eq_str_excl _ "source_error" "incomplete"); done. }
  destruct over; cbn [orb negb andb fst snd].
  - by rewrite andb_false_r.
  - rewrite andb_true_r.
    by destruct (eq_str (Version2.status st) "test_error"
                 || eq_str (Version2.status st) "incomplete").
Qed.

(** The retry verdicts differ between the variants: builder.py sends the
    verdict [incomplete] to the reporter although the budget is not used
    up, and Version2.py does the same with [needs_fix]. *)
Lemma retry_classes_differ :
  let st := Graph.set_status (JStr "incomplete")
              (Graph.initial_state "" "" 3) in
  let st2 := Version2.set_status (JStr "needs_fix")
               (Version2.initial_state "" 3) in
  (Graph.iteration st <= Graph.max_iterations st
   /\ fst (Graph.should_continue st) = Graph.reporter)
  /\ (Version2.iteration st2 <= Version2.max_iterations st2
      /\ fst (Version2.should_continue st2) = Version2.reporter).
Proof. repeat split; vm_compute; congruence. Qed.

(** The two edge functions as functions of their argument.  After a
    critic step builder.py names the generator exactly when the verdict
    is [needs_fix] and the iteration counter is at most [max_iterations],
    and the reporter otherwise; Version2.py does so with the verdicts
    [test_error] and [incomplete].  The function assigns [max_iterations]
    to the status of its argument exactly when the counter exceeds the
    bound and the verdict is not [success] (nor [source_error] in
    Version2.py); so the bound check takes precedence over a retry-class
    verdict. *)
Lemma should_continue_rule (st : Graph.GraphState)
    (st2 : Version2.AgentState) :
  ((fst (Graph.should_continue st) = Graph.generate
    <-> Graph.status st = JStr "needs_fix"
        /\ Graph.iteration st <= Graph.max_iterations st)
   /\ (fst (Graph.should_continue st) = Graph.reporter
       <-> Graph.status st <> JStr "needs_fix"
           \/ Graph.max_iterations st < Graph.iteration st)
   /\ (Graph.status st <> JStr "success"
       /\ Graph.max_iterations st < Graph.iteration st ->
       snd (Graph.should_continue st) =
         Graph.set_status (JStr "max_iterations") st)
   /\ (Graph.status st = JStr "success"
       \/ Graph.iteration st <= Graph.max_iterations st ->
       snd (Graph.should_continue st) = st))
  /\ ((fst (Version2.should_continue st2) = Version2.generate
       <-> (Version2.status st2 = JStr "test_error"
            \/ Version2.status st2 = JStr "incomplete")
           /\ Version2.iteration st2 <= Version2.max_iterations st2)
      /\ (fst (Version2.should_continue st2) = Version2.reporter
          <-> ~ (Version2.status st2 = JStr "test_error"
                 \/ Version2.status st2 = JStr "incomplete")
              \/ Version2.max_iterations st2 < Version2.iteration st2)
      /\ (Version2.status st2 <> JStr "success"
          /\ Version2.status st2 <> JStr "source_error"
          /\ Version2.max_iterations st2 < Version2.iteration st2 ->
          Version2.status (snd (Version2.should_continue st2)) =
            JStr "max_iterations")
      /\ (Version2.status st2 = JStr "success"
          \/ Version2.status st2 = JStr "source_error"
          \/ Version2.iteration st2 <= Version2.max_iterations st2 ->
          Version2.status (snd (Version2.should_continue st2)) =
            Version2.status st2)).
Proof.
  split.
  - rewrite graph_route. cbn [fst snd].
    pose proof (eq_str_true (Graph.status st) "needs_fix") as Hn.
    pose proof (eq_str_true (Graph.status st) "success") as Hs.
    destruct (Z.ltb_spec (Graph.max_iterations st) (Graph.iteration st));
      destruct (eq_str (Graph.status st) "needs_fix");
      destruct (eq_str (Graph.status st) "success");
      cbn [andb negb]; (split; [|split; [|split]]);
      try (split; intros); intros; try done;
      try tauto; try lia; try (exfalso; intuition congruence);
      try intuition (congruence || lia).
  - destruct (version2_route st2) as [-> ->].
    pose proof (eq_str_true (Version2.status st2) "test_error") as Ht.
    pose proof (eq_str_true (Version2.status st2) "incomplete") as Hi.
    pose proof (eq_str_true (Version2.status st2) "success") as Hs.
    pose proof (eq_str_true (Version2.status st2) "source_error") as He.
    destruct (Z.ltb_spec (Version2.max_iterations st2)
                (Version2.iteration st2));
      destruct (eq_str (Version2.status st2) "test_error");
      destruct (eq_str (Version2.status st2) "incomplete");
      destruct (eq_str (Version2.status st2) "success");
      destruct (eq_str (Version2.status st2) "source_error");
      cbn [andb orb negb]; (split; [|split; [|split]]);
      try (split; intros); intros; try done;
      try tauto; try lia; try (exfalso; intuition congruence);
      try intuition (congruence || lia).
Qed.

End Routing.


(** ** The loop (nodes.py with builder.py) *)

Section Loop.

Import World.

Variable re_findall : string -> bool -> string -> list string.
Variable ast_parse : string -> res Ast.node.
Variable json_loads : string -> res json.
Variable pytest : nat -> gmap string string -> process.
Variable llm_generator : nat -> Graph.generator_prompt -> string.
Variable llm_critic : nat -> Graph.critic_prompt -> string.
Variable llm_reporter : nat -> Graph.reporter_prompt -> string.

Abbreviation cycle :=
  (Graph.cycle ast_parse json_loads pytest llm_generator llm_critic).
Abbreviation loop :=
  (Graph.loop ast_parse json_loads pytest llm_generator llm_critic
     llm_reporter).
Abbreviation main_graph :=
  (Graph.main_graph re_findall ast_parse json_loads pytest llm_generator
     llm_critic llm_reporter).

Lemma bind_ok {A B} (m : res A) (k : A -> res B) (b : B) :
  bind m k = Ok b -> exists a, m = Ok a /\ k a = Ok b.
Proof. destruct m as [a|e]; [by exists a | discriminate]. Qed.

Ltac bind_inv H :=
  let a := fresh "a" in
  let Ha := fresh "Ha" in
  apply bind_ok in H as (a & Ha & H).

(** The reporter reads the summary of the report and its two counts. *)
Definition readable (rep : json) : Prop :=
  exists summary,
    dict_get rep "summary" (JObj []) = Ok summary /\ is_dict summary = true.

Lemma dict_get_ok (d : json) (k : string) (dflt v : json) :
  dict_get d k dflt = Ok v -> is_dict d = true.
Proof. by destruct d. Qed.

Lemma dict_get_dict (d : json) (k : string) (dflt : json) :
  is_dict d = true -> exists v, dict_get d k dflt = Ok v.
Proof. destruct d; try discriminate. by eexists. Qed.

Lemma reporter_total (st : Graph.GraphState) (w : world) :
  readable (Graph.report st) ->
  exists st' w',
    Graph.reporter_node llm_reporter st w = Ok (st', w')
    /\ Graph.status st' = Graph.status st
    /\ Graph.iteration st' = Graph.iteration st
    /\ Graph.iteration_results st' = Graph.iteration_results st
    /\ generator_calls w' = generator_calls w
    /\ pytest_runs w' = pytest_runs w.
Proof.
  intros (summary & Hs & Hd). unfold Graph.reporter_node.
  rewrite Hs. cbn [bind].
  destruct (dict_get_dict summary "passed" (JInt 0) Hd) as (p & ->).
  destruct (dict_get_dict summary "collected" (JInt 0) Hd) as (c & ->).
  cbn [bind]. eexists _, _. split; [reflexivity|]. repeat split.
Qed.

(** What one reading of the reply does to the counters. *)
Lemma critic_verdict_fields (content : string) (st st' : Graph.GraphState) :
  Graph.critic_verdict json_loads content st = Ok st' ->
  Graph.max_iterations st' = Graph.max_iterations st
  /\ Graph.report st' = Graph.report st
  /\ Graph.iteration_results st' = Graph.iteration_results st
  /\ Graph.iteration st' =
       (if eq_str (Graph.status st') "needs_fix"
        then Graph.iteration st + 1 else Graph.iteration st).
Proof.
  unfold Graph.critic_verdict. intros H.
  bind_inv H. bind_inv H. bind_inv H. injection H as <-.
  cbn [Graph.status Graph.log Graph.set_history Graph.set_feedback
       Graph.set_status].
  destruct (eq_str a0 "needs_fix") eqn:Hfix; cbn; rewrite Hfix; repeat split.
Qed.

Lemma critic_fields (st st' : Graph.GraphState) (w w' : world) :
  Graph.critic_node json_loads llm_critic st w = Ok (st', w') ->
  Graph.max_iterations st' = Graph.max_iterations st
  /\ Graph.report st' = Graph.report st
  /\ Graph.iteration_results st' = Graph.iteration_results st
  /\ Graph.iteration st' =
       (if eq_str (Graph.status st') "needs_fix"
        then Graph.iteration st + 1 else Graph.iteration st)
  /\ generator_calls w' = generator_calls w
  /\ pytest_runs w' = pytest_runs w
  /\ readable (Graph.report st).
Proof.
  unfold Graph.critic_node. intros H.
  bind_inv H. bind_inv H. bind_inv H. bind_inv H.
  assert (readable (Graph.report st)) as Hread.
  { exists a. split; [exact Ha | exact (dict_get_ok _ _ _ _ Ha0)]. }
  destruct (a2 && eq_num a1 a0).
  - injection H as <- <-. repeat split; exact Hread.
  - bind_inv H. bind_inv H. bind_inv H. injection H as <- <-.
    destruct (critic_verdict_fields _ _ _ Ha5) as (Hm & Hr & Hres & Hi).
    repeat split; done.
Qed.

Lemma execution_fields (st st' : Graph.GraphState) (w w' : world) :
  Graph.execution_node json_loads pytest st w = Ok (st', w') ->
  Graph.max_iterations st' = Graph.max_iterations st
  /\ Graph.iteration st' = Graph.iteration st
  /\ length (Graph.iteration_results st')
     = S (length (Graph.iteration_results st))
  /\ generator_calls w' = generator_calls w
  /\ pytest_runs w' = S (pytest_runs w).
Proof.
  unfold Graph.execution_node.
  destruct (Graph.run_pytest_json _ _ _ _) as [[[[rc rep] out] err] w2] eqn:Hrun.
  intros H. bind_inv H. bind_inv H. bind_inv H. bind_inv H. bind_inv H.
  injection H as <- <-.
  assert (generator_calls w2 = generator_calls w
          /\ pytest_runs w2 = S (pytest_runs w)) as [Hg Hp].
  { unfold Graph.run_pytest_json in Hrun.
    set (w0 := if exists_file _ _ then _ else _) in Hrun.
    assert (generator_calls w0 = generator_calls w
            /\ pytest_runs w0 = pytest_runs w) as [Hg0 Hp0].
    { subst w0. by destruct (exists_file _ _). }
    set (p := pytest _ _) in Hrun.
    assert (generator_calls (after_process p w0) = generator_calls w
            /\ pytest_runs (after_process p w0) = S (pytest_runs w))
      as [Hg1 Hp1].
    { unfold after_process. destruct (proc_report p); cbn; by rewrite Hg0, Hp0. }
    destruct (proc_outcome p);
      [destruct (files (after_process p w0) !! report_path);
       [destruct (json_loads _)|]|];
      injection Hrun as _ _ _ _ <-; by split. }
  cbn. rewrite length_app. cbn. repeat split; [lia | done | done].
Qed.

(** One generate-combine-execute-critique cycle that does not raise: it
    calls the generator and the test runner once each, it adds one
    iteration record, it keeps the bound, and it moves the counter on by
    one exactly when its verdict is [needs_fix]. *)
Lemma cycle_fields (st st' : Graph.GraphState) (w w' : world) :
  cycle st w = Ok (st', w') ->
  Graph.max_iterations st' = Graph.max_iterations st
  /\ Graph.iteration st' =
       (if eq_str (Graph.status st') "needs_fix"
        then Graph.iteration st + 1 else Graph.iteration st)
  /\ length (Graph.iteration_results st')
     = S (length (Graph.iteration_results st))
  /\ generator_calls w' = S (generator_calls w)
  /\ pytest_runs w' = S (pytest_runs w)
  /\ readable (Graph.report st').
Proof.
  unfold Graph.cycle.
  destruct (Graph.test_generator_node _ st w) as [sg wg] eqn:Hgen.
  intros H. apply bind_ok in H as ([se we] & Hex & Hcr).
  apply execution_fields in Hex as (Hm1 & Hi1 & Hl1 & Hg1 & Hp1).
  apply critic_fields in Hcr as (Hm2 & Hr2 & Hres2 & Hi2 & Hg2 & Hp2 & Hread).
  unfold Graph.test_generator_node in Hgen. injection Hgen as <- <-.
  cbn in Hm1, Hi1, Hl1, Hg1, Hp1.
  rewrite Hm2, Hm1, Hi2, Hi1, Hres2, Hl1, Hg2, Hg1, Hp2, Hp1, Hr2.
  repeat split; exact Hread.
Qed.

(** Every execution attempt ends with the verdict [needs_fix], whatever
    the state and the world it starts in. *)
Definition always_needs_fix : Prop :=
  forall st w, exists st' w',
    cycle st w = Ok (st', w') /\ Graph.status st' = JStr "needs_fix".

(** [k] cycles one after the other, whatever the verdicts. *)
Fixpoint cycles (k : nat) (st : Graph.GraphState) (w : world)
  : res (Graph.GraphState * world) :=
  match k with
  | O => Ok (st, w)
  | S k' => let* (st', w') := cycle st w in cycles k' st' w'
  end.

(** In the run that starts in [st] and [w], each of the first [n]
    execution attempts ends with the verdict [v]. *)
Definition verdicts_are (v : string) (n : nat) (st : Graph.GraphState)
    (w : world) : Prop :=
  forall k, (1 <= k <= n)%nat ->
            exists st' w',
              cycles k st w = Ok (st', w') /\ Graph.status st' = JStr v.

Lemma verdicts_step (v : string) (n : nat) (st : Graph.GraphState)
    (w : world) :
  verdicts_are v (S n) st w ->
  exists st1 w1,
    cycle st w = Ok (st1, w1) /\ Graph.status st1 = JStr v
    /\ verdicts_are v n st1 w1.
Proof.
  intros H. destruct (H 1%nat) as (st1 & w1 & Hc & Hs); [lia|].
  cbn [cycles] in Hc.
  destruct (cycle st w) as [[sa wa]|e] eqn:Hcy; [|discriminate].
  cbn in Hc. injection Hc as -> ->.
  exists st1, w1. split; [done|]. split; [exact Hs|].
  intros k Hk. destruct (H (S k)) as (st' & w' & Hc & Hs'); [lia|].
  cbn [cycles] in Hc. rewrite Hcy in Hc. by exists st', w'.
Qed.

Lemma always_verdicts :
  always_needs_fix -> forall n st w, verdicts_are "needs_fix" n st w.
Proof.
  intros Hfix n st w k [Hk _]. clear n. revert st w.
  destruct k as [|k]; [lia|]. clear Hk.
  induction k as [|k IH]; intros st w;
    destruct (Hfix st w) as (st1 & w1 & Hcy & Hst).
  - exists st1, w1. cbn [cycles]. by rewrite Hcy.
  - destruct (IH st1 w1) as (st' & w' & Hc & Hs). exists st', w'.
    split; [|exact Hs]. change (cycles (S (S k)) st w)
      with (let* (st', w') := cycle st w in cycles (S k) st' w').
    by rewrite Hcy.
Qed.

(** What a finished run is measured by. *)
Record outcome_of (st0 : Graph.GraphState) (w0 : world) (cycles : nat)
    (final : Graph.GraphState) (w' : world) : Prop := {
  final_status : Graph.status final = JStr "needs_fix";
  final_iteration :
    Graph.iteration final = Graph.iteration st0 + Z.of_nat cycles;
  final_records :
    length (Graph.iteration_results final)
    = (length (Graph.iteration_results st0) + cycles)%nat;
  final_generations :
    generator_calls w' = (generator_calls w0 + cycles)%nat;
  final_executions : pytest_runs w' = (pytest_runs w0 + cycles)%nat
}.

(** The limit of the super-steps falls between two cycles: the last node
    of a cycle is within the limit exactly when its first node is. *)
Lemma cycle_is_whole (ran : nat) :
  (Graph.recursion_limit <? 4 * ran + 5)%nat
  = (Graph.recursion_limit <? 4 * ran + 2)%nat.
Proof.
  unfold Graph.recursion_limit.
  destruct (Nat.ltb_spec 25 (4 * ran + 5)), (Nat.ltb_spec 25 (4 * ran + 2));
    (reflexivity || lia).
Qed.

Lemma within_limit (ran : nat) :
  (ran <= 5)%nat -> (Graph.recursion_limit <? 4 * ran + 5)%nat = false.
Proof. intros H. apply Nat.ltb_ge. unfold Graph.recursion_limit. lia. Qed.

Lemma reporter_within_limit (ran : nat) :
  (ran <= 4)%nat -> (Graph.recursion_limit <? 4 * S ran + 2)%nat = false.
Proof. intros H. apply Nat.ltb_ge. unfold Graph.recursion_limit. lia. Qed.

Lemma beyond_limit (ran : nat) :
  (6 <= ran)%nat -> (Graph.recursion_limit <? 4 * ran + 5)%nat = true.
Proof. intros H. apply Nat.ltb_lt. unfold Graph.recursion_limit. lia. Qed.

Lemma reporter_beyond_limit (ran : nat) :
  (5 <= ran)%nat -> (Graph.recursion_limit <? 4 * S ran + 2)%nat = true.
Proof. intros H. apply Nat.ltb_lt. unfold Graph.recursion_limit. lia. Qed.

(** With [r] cycles left in the budget, all of them within the limit of
    the super-steps, the loop runs [r] cycles and stops, whatever fuel it
    has beyond [r]; the reporter receives the state as the last critic
    step left it, with the verdict [needs_fix]. *)
Lemma loop_exhausts_budget (r : nat) :
  forall (st : Graph.GraphState) (w : world) (fuel ran : nat),
    Graph.max_iterations st - Graph.iteration st + 1 = Z.of_nat (S r) ->
    (S r <= fuel)%nat ->
    (ran + S r <= 5)%nat ->
    verdicts_are "needs_fix" (S r) st w ->
    exists final w',
      loop fuel ran st w = Some (Ok (final, w'))
      /\ outcome_of st w (S r) final w'.
Proof.
  induction r as [|r IH]; intros st w fuel ran Hleft Hfuel Hran Hfix;
    (destruct fuel as [|fuel]; [lia|]); cbn [Graph.loop];
    (rewrite within_limit; [|lia]);
    destruct (verdicts_step _ _ _ _ Hfix) as (st1 & w1 & Hcy & Hst & Hnext);
    rewrite Hcy;
    destruct (cycle_fields st st1 w w1 Hcy) as (Hm & Hi & Hl & Hg & Hp & Hrd);
    rewrite Hst in Hi; cbn in Hi;
    rewrite graph_route, Hst; cbn [fst eq_str String.eqb Ascii.eqb Bool.eqb
                                   andb negb].
  - assert (Z.ltb (Graph.max_iterations st1) (Graph.iteration st1) = true) as ->
      by (apply Z.ltb_lt; lia).
    cbn [negb andb]. rewrite reporter_within_limit; [|lia].
    destruct (reporter_total st1 w1 Hrd)
      as (final & w' & Hrep & Hs & Hit & Hres & Hgc & Hpr).
    exists final, w'. split; [by rewrite Hrep|].
    split; [by rewrite Hs | rewrite Hit; lia
           | rewrite Hres; lia | lia | lia].
  - assert (Z.ltb (Graph.max_iterations st1) (Graph.iteration st1) = false) as ->
      by (apply Z.ltb_ge; lia).
    cbn [negb andb].
    destruct (IH st1 w1 fuel (S ran))
      as (final & w' & Hloop & [Hs Hit Hres Hgc Hpr]);
      [lia | lia | lia | exact Hnext |].
    exists final, w'. split; [exact Hloop|].
    split; [exact Hs | lia | lia | lia | lia].
Qed.

(** When the critic keeps saying [needs_fix] and the budget allows for a
    seventh generation or for the reporter after the sixth cycle, neither
    is run: the graph has used its 25 super-steps after six cycles. *)
Lemma loop_hits_limit (n : nat) :
  forall (st : Graph.GraphState) (w : world) (fuel ran : nat),
    (ran + n = 6)%nat ->
    Z.of_nat n <= Graph.max_iterations st - Graph.iteration st + 1 ->
    (Z.to_nat (Graph.max_iterations st - Graph.iteration st + 1) <= fuel)%nat ->
    (1 <= fuel)%nat ->
    verdicts_are "needs_fix" n st w ->
    loop fuel ran st w = Some (Raise Graph.recursion_error).
Proof.
  induction n as [|n IH]; intros st w fuel ran Hran Hleft Hfuel Hone Hfix;
    (destruct fuel as [|fuel]; [lia|]); cbn [Graph.loop].
  - by rewrite beyond_limit; [|lia].
  - rewrite within_limit; [|lia].
    destruct (verdicts_step _ _ _ _ Hfix) as (st1 & w1 & Hcy & Hst & Hnext).
    rewrite Hcy.
    destruct (cycle_fields st st1 w w1 Hcy) as (Hm & Hi & Hl & Hg & Hp & Hrd).
    rewrite Hst in Hi. cbn in Hi.
    rewrite graph_route, Hst.
    cbn [fst eq_str String.eqb Ascii.eqb Bool.eqb andb negb].
    destruct (Z.ltb_spec (Graph.max_iterations st1) (Graph.iteration st1))
      as [Hover|Hin]; cbn [negb andb].
    + by rewrite reporter_beyond_limit; [|lia].
    + apply IH; [lia | lia | lia | lia | exact Hnext].
Qed.

Lemma detector_counters (st : Graph.GraphState) :
  let st' := Graph.function_detector_node re_findall ast_parse st in
  Graph.iteration st' = Graph.iteration st
  /\ Graph.max_iterations st' = Graph.max_iterations st
  /\ Graph.iteration_results st' = Graph.iteration_results st.
Proof.
  unfold Graph.function_detector_node. cbn [Graph.log Graph.user_functions
    Graph.readme_content Graph.set_history Graph.set_framework].
  destruct (Parser.extract_functions_from_readme _ _) as [|r rs];
    [destruct (Parser.extract_functions_from_python_file _ _) as [|c cs]|];
    repeat split.
Qed.

(** The run of the compiled graph when every attempt fails: with a
    budget from 1 to 5 it ends in the reporter after exactly
    [max_iterations] cycles, for any fuel from [max_iterations] on, and
    the final verdict is the [needs_fix] of the last critic step. *)
Lemma graph_budget_termination
    (readme user : string) (max_iter : Z) (w : world) (fuel : nat) :
  1 <= max_iter <= 5 ->
  (Z.to_nat max_iter <= fuel)%nat ->
  verdicts_are "needs_fix" (Z.to_nat max_iter)
    (Graph.function_detector_node re_findall ast_parse
       (Graph.initial_state readme user max_iter)) w ->
  exists final w',
    main_graph fuel (Graph.initial_state readme user max_iter) w
      = Some (Ok (final, w'))
    /\ Graph.status final = JStr "needs_fix"
    /\ Graph.iteration final = max_iter + 1
    /\ length (Graph.iteration_results final) = Z.to_nat max_iter
    /\ generator_calls w' = (generator_calls w + Z.to_nat max_iter)%nat
    /\ pytest_runs w' = (pytest_runs w + Z.to_nat max_iter)%nat.
Proof.
  intros Hmax Hfuel Hfix. unfold Graph.main_graph.
  set (st0 := Graph.function_detector_node _ _ _) in *.
  destruct (detector_counters (Graph.initial_state readme user max_iter))
    as (Hi & Hm & Hr).
  fold st0 in Hi, Hm, Hr. cbn in Hi, Hm, Hr.
  destruct (Z.to_nat max_iter) as [|r] eqn:Hn; [lia|].
  destruct (loop_exhausts_budget r st0 w fuel 0)
    as (final & w' & Hloop & [Hs Hit Hres Hgc Hpr]);
    [lia | lia | lia | exact Hfix |].
  exists final, w'. split; [exact Hloop|].
  rewrite Hi in Hit. rewrite Hr in Hres. cbn in Hres.
  repeat split; [exact Hs | lia | lia | lia | lia].
Qed.

(** With a budget of 6 or more the run does not reach the reporter: the
    six cycles and the detector are 25 super-steps. *)
Lemma graph_recursion_limit
    (readme user : string) (max_iter : Z) (w : world) (fuel : nat) :
  6 <= max_iter ->
  (Z.to_nat max_iter <= fuel)%nat ->
  verdicts_are "needs_fix" 6
    (Graph.function_detector_node re_findall ast_parse
       (Graph.initial_state readme user max_iter)) w ->
  main_graph fuel (Graph.initial_state readme user max_iter) w
    = Some (Raise Graph.recursion_error).
Proof.
  intros Hmax Hfuel Hfix. unfold Graph.main_graph.
  set (st0 := Graph.function_detector_node _ _ _) in *.
  destruct (detector_counters (Graph.initial_state readme user max_iter))
    as (Hi & Hm & Hr).
  fold st0 in Hi, Hm, Hr. cbn in Hi, Hm, Hr.
  apply (loop_hits_limit 6); [lia | lia | lia | lia | exact Hfix].
Qed.

End Loop.


(** ** The loop always ends *)

Section Termination.

Import World.

Variable ast_parse : string -> res Ast.node.
Variable json_loads : string -> res json.
Variable pytest : nat -> gmap string string -> process.
Variable llm_generator : nat -> Graph.generator_prompt -> string.
Variable llm_critic : nat -> Graph.critic_prompt -> string.
Variable llm_reporter : nat -> Graph.reporter_prompt -> string.

(** Whatever the services answer, the loop of builder.py stops: a cycle
    raises, the limit of the super-steps is met, or the reporter is
    reached after at most [max_iterations - iteration + 1] cycles (one
    cycle when that number is below 1). *)
Lemma loop_terminates (r : nat) :
  forall (st : Graph.GraphState) (w : world) (fuel ran : nat),
    Graph.max_iterations st - Graph.iteration st + 1 <= Z.of_nat r ->
    (r <= fuel)%nat -> (1 <= fuel)%nat ->
    is_Some (Graph.loop ast_parse json_loads pytest llm_generator llm_critic
               llm_reporter fuel ran st w).
Proof.
  induction r as [|r IH]; intros st w fuel ran Hleft Hfuel Hone;
    (destruct fuel as [|fuel]; [lia|]); cbn [Graph.loop];
    (destruct (_ <? _)%nat; [done|]);
    (destruct (Graph.cycle _ _ _ _ _ st w) as [[st1 w1]|e] eqn:Hcy; [|done]);
    destruct (cycle_fields _ _ _ _ _ st st1 w w1 Hcy) as (Hm & Hi & _);
    rewrite graph_route; cbn [fst];
    (destruct (eq_str (Graph.status st1) "needs_fix") eqn:Hfix;
     cbn [andb]; [|by destruct (_ <? _)%nat]);
    (destruct (Z.ltb_spec (Graph.max_iterations st1) (Graph.iteration st1))
       as [Hover|Hin]; cbn [negb]; [by destruct (_ <? _)%nat|]).
  - lia.
  - apply IH; lia.
Qed.

End Termination.

(** ** The loop of Version2.py *)

Section Version2Loop.

Import World.

Variable re_findall : string -> bool -> string -> list string.
Variable json_loads : string -> res json.
Variable pytest : nat -> gmap string string -> process.
Variable llm_generator : nat -> Version2.generator_prompt -> string.
Variable llm_critic : nat -> Version2.critic_prompt -> string.
Variable llm_reporter : nat -> Version2.reporter_prompt -> string.

Abbreviation cycle2 :=
  (Version2.cycle json_loads pytest llm_generator llm_critic).
Abbreviation loop2 :=
  (Version2.loop json_loads pytest llm_generator llm_critic llm_reporter).

Definition retry2 (v : json) : bool :=
  eq_str v "test_error" || eq_str v "incomplete".

Lemma version2_reporter_total (st : Version2.AgentState) (w : world) :
  readable (Version2.report st) ->
  exists st' w',
    Version2.reporter_node llm_reporter st w = Ok (st', w')
    /\ Version2.status st' = Version2.status st
    /\ Version2.iteration st' = Version2.iteration st
    /\ Version2.iteration_results st' = Version2.iteration_results st
    /\ generator_calls w' = generator_calls w.
Proof.
  intros (summary & Hs & Hd). unfold Version2.reporter_node.
  rewrite Hs. cbn [bind].
  destruct (dict_get_dict summary "collected" (JInt 0) Hd) as (c & ->).
  destruct (dict_get_dict summary "passed" (JInt 0) Hd) as (p & ->).
  destruct (dict_get_dict summary "failed" (JInt 0) Hd) as (f & ->).
  cbn [bind]. eexists _, _. split; [reflexivity|]. repeat split.
Qed.

Lemma version2_verdict_fields (content : string)
    (st st' : Version2.AgentState) :
  Version2.critic_verdict json_loads content st = Ok st' ->
  Version2.max_iterations st' = Version2.max_iterations st
  /\ Version2.report st' = Version2.report st
  /\ Version2.iteration_results st' = Version2.iteration_results st
  /\ Version2.iteration st' =
       (if retry2 (Version2.status st')
        then Version2.iteration st + 1 else Version2.iteration st).
Proof.
  unfold Version2.critic_verdict. intros H.
  apply bind_ok in H as (v & _ & H). apply bind_ok in H as (m & _ & H).
  apply bind_ok in H as (f & _ & H). injection H as <-.
  cbn [Version2.status Version2.log Version2.set_history
       Version2.set_feedback Version2.set_status].
  unfold retry2.
  destruct (eq_str v "test_error" || eq_str v "incomplete") eqn:Hr; cbn;
    rewrite Hr; repeat split.
Qed.

Lemma version2_critic_fields (st st' : Version2.AgentState) (w w' : world) :
  Version2.critic_node json_loads llm_critic st w = Ok (st', w') ->
  Version2.max_iterations st' = Version2.max_iterations st
  /\ Version2.report st' = Version2.report st
  /\ Version2.iteration_results st' = Version2.iteration_results st
  /\ Version2.iteration st' =
       (if retry2 (Version2.status st')
        then Version2.iteration st + 1 else Version2.iteration st)
  /\ generator_calls w' = generator_calls w
  /\ readable (Version2.report st).
Proof.
  unfold Version2.critic_node. intros H.
  apply bind_ok in H as (summary & Hs & H).
  apply bind_ok in H as (c & Hc & H). apply bind_ok in H as (p & _ & H).
  apply bind_ok in H as (f & _ & H). apply bind_ok in H as (e & _ & H).
  assert (readable (Version2.report st)) as Hread.
  { exists summary. split; [exact Hs | exact (dict_get_ok _ _ _ _ Hc)]. }
  destruct (_ && _).
  - injection H as <- <-. repeat split; exact Hread.
  - apply bind_ok in H as (s & Hv & H). injection H as <- <-.
    destruct (version2_verdict_fields _ _ _ Hv) as (Hm & Hr & Hres & Hi).
    repeat split; done.
Qed.

Lemma version2_execution_fields (st st' : Version2.AgentState)
    (w w' : world) :
  Version2.execution_node json_loads pytest st w = Ok (st', w') ->
  Version2.max_iterations st' = Version2.max_iterations st
  /\ Version2.iteration st' = Version2.iteration st
  /\ length (Version2.iteration_results st')
     = S (length (Version2.iteration_results st))
  /\ generator_calls w' = generator_calls w.
Proof.
  unfold Version2.execution_node.
  destruct (Version2.run_pytest_json _ _ _ _)
    as [[[[rc rep] out] err] w2] eqn:Hrun.
  intros H. apply bind_ok in H as (summary & _ & H).
  apply bind_ok in H as (c & _ & H). apply bind_ok in H as (p & _ & H).
  apply bind_ok in H as (f & _ & H). apply bind_ok in H as (e & _ & H).
  injection H as <- <-.
  assert (generator_calls w2 = generator_calls w) as Hg.
  { unfold Version2.run_pytest_json in Hrun.
    set (w0 := write_file _ _ w) in Hrun. set (p0 := pytest _ _) in Hrun.
    assert (generator_calls (after_process p0 w0) = generator_calls w)
      as Hg1.
    { unfold after_process. by destruct (proc_report p0). }
    destruct (proc_outcome p0);
      [destruct (files (after_process p0 w0) !! report_path);
       [destruct (json_loads _)|]|];
      by injection Hrun as _ _ _ _ <-. }
  cbn. rewrite length_app. cbn. repeat split; [lia | done].
Qed.

Lemma version2_cycle_fields (st st' : Version2.AgentState) (w w' : world) :
  cycle2 st w = Ok (st', w') ->
  Version2.max_iterations st' = Version2.max_iterations st
  /\ Version2.iteration st' =
       (if retry2 (Version2.status st')
        then Version2.iteration st + 1 else Version2.iteration st)
  /\ length (Version2.iteration_results st')
     = S (length (Version2.iteration_results st))
  /\ generator_calls w' = S (generator_calls w)
  /\ readable (Version2.report st').
Proof.
  unfold Version2.cycle.
  destruct (Version2.generator_node _ st w) as [sg wg] eqn:Hgen.
  intros H. apply bind_ok in H as ([se we] & Hex & Hcr).
  apply version2_execution_fields in Hex as (Hm1 & Hi1 & Hl1 & Hg1).
  apply version2_critic_fields in Hcr
    as (Hm2 & Hr2 & Hres2 & Hi2 & Hg2 & Hread).
  unfold Version2.generator_node in Hgen. injection Hgen as <- <-.
  cbn in Hm1, Hi1, Hl1, Hg1.
  rewrite Hm2, Hm1, Hi2, Hi1, Hres2, Hl1, Hg2, Hg1, Hr2.
  repeat split; exact Hread.
Qed.

(** Every execution attempt ends with the verdict [v], whatever the state
    and the world it starts in. *)
Definition always_verdict2 (v : string) : Prop :=
  forall st w, exists st' w',
    cycle2 st w = Ok (st', w') /\ Version2.status st' = JStr v.

(** [k] cycles one after the other, whatever the verdicts. *)
Fixpoint cycles2 (k : nat) (st : Version2.AgentState) (w : world)
  : res (Version2.AgentState * world) :=
  match k with
  | O => Ok (st, w)
  | S k' => let* (st', w') := cycle2 st w in cycles2 k' st' w'
  end.

(** In the run that starts in [st] and [w], each of the first [n]
    execution attempts ends with the verdict [v]. *)
Definition verdicts_are2 (v : string) (n : nat) (st : Version2.AgentState)
    (w : world) : Prop :=
  forall k, (1 <= k <= n)%nat ->
            exists st' w',
              cycles2 k st w = Ok (st', w') /\ Version2.status st' = JStr v.

Lemma verdicts_step2 (v : string) (n : nat) (st : Version2.AgentState)
    (w : world) :
  verdicts_are2 v (S n) st w ->
  exists st1 w1,
    cycle2 st w = Ok (st1, w1) /\ Version2.status st1 = JStr v
    /\ verdicts_are2 v n st1 w1.
Proof.
  intros H. destruct (H 1%nat) as (st1 & w1 & Hc & Hs); [lia|].
  cbn [cycles2] in Hc.
  destruct (cycle2 st w) as [[sa wa]|e] eqn:Hcy; [|discriminate].
  cbn in Hc. injection Hc as -> ->.
  exists st1, w1. split; [done|]. split; [exact Hs|].
  intros k Hk. destruct (H (S k)) as (st' & w' & Hc & Hs'); [lia|].
  cbn [cycles2] in Hc. rewrite Hcy in Hc. by exists st', w'.
Qed.

Lemma always_verdicts2 (v : string) :
  always_verdict2 v -> forall n st w, verdicts_are2 v n st w.
Proof.
  intros Hfix n st w k [Hk _]. clear n. revert st w.
  destruct k as [|k]; [lia|]. clear Hk.
  induction k as [|k IH]; intros st w;
    destruct (Hfix st w) as (st1 & w1 & Hcy & Hst).
  - exists st1, w1. cbn [cycles2]. by rewrite Hcy.
  - destruct (IH st1 w1) as (st' & w' & Hc & Hs). exists st', w'.
    split; [|exact Hs]. change (cycles2 (S (S k)) st w)
      with (let* (st', w') := cycle2 st w in cycles2 (S k) st' w').
    by rewrite Hcy.
Qed.

(** The limit of the super-steps falls between two cycles here as well. *)
Lemma version2_cycle_is_whole (ran : nat) :
  (Version2.recursion_limit <? 3 * ran + 4)%nat
  = (Version2.recursion_limit <? 3 * ran + 2)%nat.
Proof.
  unfold Version2.recursion_limit.
  destruct (Nat.ltb_spec 25 (3 * ran + 4)), (Nat.ltb_spec 25 (3 * ran + 2));
    (reflexivity || lia).
Qed.

Lemma version2_within_limit (ran : nat) :
  (ran <= 7)%nat -> (Version2.recursion_limit <? 3 * ran + 4)%nat = false.
Proof. intros H. apply Nat.ltb_ge. unfold Version2.recursion_limit. lia. Qed.

Lemma version2_reporter_within_limit (ran : nat) :
  (ran <= 6)%nat -> (Version2.recursion_limit <? 3 * S ran + 2)%nat = false.
Proof. intros H. apply Nat.ltb_ge. unfold Version2.recursion_limit. lia. Qed.

(** In Version2.py the retry verdict of a failed test run is
    [test_error]: when the critic returns it after every attempt, the
    budget is used up as in builder.py, and the reporter receives the
    state with the verdict [test_error] of the last critic step. *)
Lemma version2_loop_exhausts_budget (r : nat) :
  forall (st : Version2.AgentState) (w : world) (fuel ran : nat),
    Version2.max_iterations st - Version2.iteration st + 1
      = Z.of_nat (S r) ->
    (S r <= fuel)%nat ->
    (ran + S r <= 7)%nat ->
    verdicts_are2 "test_error" (S r) st w ->
    exists final w',
      loop2 fuel ran st w = Some (Ok (final, w'))
      /\ Version2.status final = JStr "test_error"
      /\ Version2.iteration final = Version2.iteration st + Z.of_nat (S r)
      /\ length (Version2.iteration_results final)
         = (length (Version2.iteration_results st) + S r)%nat
      /\ generator_calls w' = (generator_calls w + S r)%nat.
Proof.
  induction r as [|r IH]; intros st w fuel ran Hleft Hfuel Hran Hfix;
    (destruct fuel as [|fuel]; [lia|]); cbn [Version2.loop];
    (rewrite version2_within_limit; [|lia]);
    destruct (verdicts_step2 _ _ _ _ Hfix) as (st1 & w1 & Hcy & Hst & Hnext);
    rewrite Hcy;
    destruct (version2_cycle_fields st st1 w w1 Hcy)
      as (Hm & Hi & Hl & Hg & Hrd);
    rewrite Hst in Hi; cbn in Hi;
    unfold Version2.should_continue; rewrite Hst;
    cbn [eq_str String.eqb Ascii.eqb Bool.eqb orb].
  - assert (Z.ltb (Version2.max_iterations st1) (Version2.iteration st1)
            = true) as -> by (apply Z.ltb_lt; lia).
    cbn [fst]. rewrite version2_reporter_within_limit; [|lia].
    destruct (version2_reporter_total st1 w1 Hrd)
      as (final & w' & Hrep & Hs & Hit & Hres & Hgc).
    exists final, w'. split; [by rewrite Hrep|].
    split; [by rewrite Hs|]. split; [rewrite Hit; lia|].
    split; [rewrite Hres; lia | lia].
  - assert (Z.ltb (Version2.max_iterations st1) (Version2.iteration st1)
            = false) as -> by (apply Z.ltb_ge; lia).
    cbn [fst].
    destruct (IH st1 w1 fuel (S ran))
      as (final & w' & Hloop & Hs & Hit & Hres & Hgc);
      [lia | lia | lia | exact Hnext |].
    exists final, w'. split; [exact Hloop|].
    split; [exact Hs|]. split; [lia|]. split; lia.
Qed.

(** With the verdict [needs_fix], which is no retry verdict in
    Version2.py, the first cycle is the last and the verdict stays. *)
Lemma version2_needs_fix_stops :
  forall (st : Version2.AgentState) (w : world) (fuel ran : nat),
    Version2.iteration st <= Version2.max_iterations st ->
    (ran <= 6)%nat ->
    verdicts_are2 "needs_fix" 1 st w ->
    exists final w',
      loop2 (S fuel) ran st w = Some (Ok (final, w'))
      /\ Version2.status final = JStr "needs_fix"
      /\ Version2.iteration final = Version2.iteration st
      /\ generator_calls w' = S (generator_calls w).
Proof.
  intros st w fuel ran Hin Hran Hfix. cbn [Version2.loop].
  rewrite version2_within_limit; [|lia].
  destruct (verdicts_step2 _ _ _ _ Hfix) as (st1 & w1 & Hcy & Hst & _).
  rewrite Hcy.
  destruct (version2_cycle_fields st st1 w w1 Hcy)
    as (Hm & Hi & Hl & Hg & Hrd).
  rewrite Hst in Hi. cbn in Hi.
  unfold Version2.should_continue. rewrite Hst.
  cbn [eq_str String.eqb Ascii.eqb Bool.eqb orb].
  assert (Z.ltb (Version2.max_iterations st1) (Version2.iteration st1)
          = false) as -> by (apply Z.ltb_ge; lia).
  cbn [fst]. rewrite version2_reporter_within_limit; [|lia].
  destruct (version2_reporter_total st1 w1 Hrd)
    as (final & w' & Hrep & Hs & Hit & Hres & Hgc).
  exists final, w'. split; [by rewrite Hrep|].
  split; [by rewrite Hs, Hst|]. split; lia.
Qed.

Lemma version2_detector_counters (st : Version2.AgentState) :
  let st' := Version2.function_detector_node re_findall st in
  Version2.iteration st' = Version2.iteration st
  /\ Version2.max_iterations st' = Version2.max_iterations st
  /\ Version2.iteration_results st' = Version2.iteration_results st.
Proof. repeat split. Qed.

Lemma version2_budget_termination
    (readme : string) (max_iter : Z) (w : world) (fuel : nat) :
  1 <= max_iter <= 7 ->
  (Z.to_nat max_iter <= fuel)%nat ->
  verdicts_are2 "test_error" (Z.to_nat max_iter)
    (Version2.function_detector_node re_findall
       (Version2.initial_state readme max_iter)) w ->
  exists final w',
    Version2.app re_findall json_loads pytest llm_generator llm_critic
      llm_reporter fuel (Version2.initial_state readme max_iter) w
      = Some (Ok (final, w'))
    /\ Version2.status final = JStr "test_error"
    /\ Version2.iteration final = max_iter + 1
    /\ length (Version2.iteration_results final) = Z.to_nat max_iter
    /\ generator_calls w' = (generator_calls w + Z.to_nat max_iter)%nat.
Proof.
  intros Hmax Hfuel Hfix. unfold Version2.app.
  set (st0 := Version2.function_detector_node _ _) in *.
  assert (Version2.iteration st0 = 1
          /\ Version2.max_iterations st0 = max_iter
          /\ Version2.iteration_results st0 = []) as (Hi & Hm & Hr).
  { apply (version2_detector_counters
             (Version2.initial_state readme max_iter)). }
  destruct (Z.to_nat max_iter) as [|r] eqn:Hn; [lia|].
  destruct (version2_loop_exhausts_budget r st0 w fuel 0)
    as (final & w' & Hloop & Hs & Hit & Hres & Hgc);
    [lia | lia | lia | exact Hfix |].
  exists final, w'. split; [exact Hloop|].
  rewrite Hi in Hit. rewrite Hr in Hres. cbn in Hres.
  repeat split; [exact Hs | lia | lia | lia].
Qed.

End Version2Loop.

(** ** Budget termination in both loops *)

Section Budget.

Import World.

Variable re_findall : string -> bool -> string -> list string.
Variable ast_parse : string -> res Ast.node.
Variable json_loads : string -> res json.
Variable pytest : nat -> gmap string string -> process.
Variable llm_generator : nat -> Graph.generator_prompt -> string.
Variable llm_critic : nat -> Graph.critic_prompt -> string.
Variable llm_reporter : nat -> Graph.reporter_prompt -> string.
Variable llm_generator2 : nat -> Version2.generator_prompt -> string.
Variable llm_critic2 : nat -> Version2.critic_prompt -> string.
Variable llm_reporter2 : nat -> Version2.reporter_prompt -> string.

(** The reporter writes the final message and its entry of the history;
    the verdict it returns is the one it received. *)
Lemma reporter_keeps_status (st final : Graph.GraphState) (w w' : world) :
  Graph.reporter_node llm_reporter st w = Ok (final, w') ->
  Graph.status final = Graph.status st.
Proof.
  unfold Graph.reporter_node. intros H.
  apply bind_ok in H as (summary & _ & H).
  apply bind_ok in H as (p & _ & H). apply bind_ok in H as (c & _ & H).
  by injection H as <- _.
Qed.

Lemma version2_reporter_keeps_status (st final : Version2.AgentState)
    (w w' : world) :
  Version2.reporter_node llm_reporter2 st w = Ok (final, w') ->
  Version2.status final = Version2.status st.
Proof.
  unfold Version2.reporter_node. intros H.
  apply bind_ok in H as (summary & _ & H).
  apply bind_ok in H as (c & _ & H). apply bind_ok in H as (p & _ & H).
  apply bind_ok in H as (f & _ & H).
  by injection H as <- _.
Qed.

(** C1 (the defect).  In a run with a budget [max_iterations] of at
    least 1 in which the critic returns the retry verdict of a failed run
    after every execution attempt ([needs_fix] in nodes.py, [test_error]
    in Version2.py), the loop does stop after exactly [max_iterations]
    cycles with the counter at [max_iterations + 1], but the final
    verdict is not [max_iterations]: the edge function assigns that
    verdict to its argument only, and the reporter and the final state
    carry the verdict of the last critic step.  This holds for a budget
    up to 5 in builder.py and up to 7 in Version2.py.  With a budget of
    6 or more the graph of builder.py does not reach the reporter at
    all: after six cycles it has used its 25 super-steps and the run
    ends with [GraphRecursionError]. *)
Theorem C1_budget_verdict_is_lost
    (readme user : string) (max_iter : Z) (w : world) (fuel : nat) :
  1 <= max_iter ->
  (Z.to_nat max_iter <= fuel)%nat ->
  let st0 :=
    Graph.function_detector_node re_findall ast_parse
      (Graph.initial_state readme user max_iter) in
  let run :=
    Graph.main_graph re_findall ast_parse json_loads pytest llm_generator
      llm_critic llm_reporter fuel
      (Graph.initial_state readme user max_iter) w in
  let st2 :=
    Version2.function_detector_node re_findall
      (Version2.initial_state readme max_iter) in
  let run2 :=
    Version2.app re_findall json_loads pytest llm_generator2 llm_critic2
      llm_reporter2 fuel (Version2.initial_state readme max_iter) w in
  (max_iter <= 5 ->
   verdicts_are ast_parse json_loads pytest llm_generator llm_critic
     "needs_fix" (Z.to_nat max_iter) st0 w ->
   exists final w',
     run = Some (Ok (final, w'))
     /\ Graph.status final = JStr "needs_fix"
     /\ Graph.iteration final = max_iter + 1
     /\ length (Graph.iteration_results final) = Z.to_nat max_iter
     /\ generator_calls w' = (generator_calls w + Z.to_nat max_iter)%nat
     /\ pytest_runs w' = (pytest_runs w + Z.to_nat max_iter)%nat)
  /\ (6 <= max_iter ->
      verdicts_are ast_parse json_loads pytest llm_generator llm_critic
        "needs_fix" 6 st0 w ->
      run = Some (Raise Graph.recursion_error))
  /\ (max_iter <= 7 ->
      verdicts_are2 json_loads pytest llm_generator2 llm_critic2
        "test_error" (Z.to_nat max_iter) st2 w ->
      exists final w',
        run2 = Some (Ok (final, w'))
        /\ Version2.status final = JStr "test_error"
        /\ Version2.iteration final = max_iter + 1
        /\ length (Version2.iteration_results final) = Z.to_nat max_iter
        /\ generator_calls w'
           = (generator_calls w + Z.to_nat max_iter)%nat).
Proof.
  intros Hmax Hfuel st0 run st2 run2. split; [|split].
  - intros Hup Hfix. by apply graph_budget_termination.
  - intros Hlow Hfix. by apply graph_recursion_limit.
  - intros Hup Hfix. by apply version2_budget_termination.
Qed.

(** C2 (the defect).  After a critic step that leaves the counter above
    [max_iterations] and a verdict other than [success] (and other than
    [source_error] in Version2.py), the edge function names the reporter
    and assigns the verdict [max_iterations] to its argument, but the
    verdict is not overwritten before reporting: the reporter is run on
    the state as the critic returned it, and the verdict it reports and
    returns is the one of the critic. *)
Theorem C2_overwrite_is_lost
    (st st1 : Graph.GraphState) (s s1 : Version2.AgentState)
    (w w1 : world) (fuel ran : nat) :
  (ran <= 4)%nat ->
  (Graph.cycle ast_parse json_loads pytest llm_generator llm_critic st w
     = Ok (st1, w1) ->
   Graph.status st1 <> JStr "success" ->
   Graph.max_iterations st1 < Graph.iteration st1 ->
   Graph.should_continue st1
     = (Graph.reporter, Graph.set_status (JStr "max_iterations") st1)
   /\ Graph.loop ast_parse json_loads pytest llm_generator llm_critic
        llm_reporter (S fuel) ran st w
      = Some (Graph.reporter_node llm_reporter st1 w1)
   /\ forall final w',
        Graph.reporter_node llm_reporter st1 w1 = Ok (final, w') ->
        Graph.status final = Graph.status st1)
  /\ (Version2.cycle json_loads pytest llm_generator2 llm_critic2 s w
        = Ok (s1, w1) ->
      Version2.status s1 <> JStr "success" ->
      Version2.status s1 <> JStr "source_error" ->
      Version2.max_iterations s1 < Version2.iteration s1 ->
      fst (Version2.should_continue s1) = Version2.reporter
      /\ Version2.status (snd (Version2.should_continue s1))
         = JStr "max_iterations"
      /\ Version2.loop json_loads pytest llm_generator2 llm_critic2
           llm_reporter2 (S fuel) ran s w
         = Some (Version2.reporter_node llm_reporter2 s1 w1)
      /\ forall final w',
           Version2.reporter_node llm_reporter2 s1 w1 = Ok (final, w') ->
           Version2.status final = Version2.status s1).
Proof.
  intros Hran. split.
  - intros Hcy Hs Hover.
    assert (Graph.should_continue st1
            = (Graph.reporter,
               Graph.set_status (JStr "max_iterations") st1)) as Hsc.
    { rewrite graph_route.
      assert ((Graph.max_iterations st1 <? Graph.iteration st1) = true)
        as -> by (apply Z.ltb_lt; lia).
      destruct (eq_str (Graph.status st1) "success") eqn:Hsucc.
      - by apply eq_str_true in Hsucc.
      - by rewrite andb_false_r. }
    split; [exact Hsc|]. split.
    + cbn [Graph.loop]. rewrite within_limit, Hcy, Hsc; [|lia].
      cbn [fst]. by rewrite reporter_within_limit.
    + intros final w'. apply reporter_keeps_status.
  - intros Hcy Hs He Hover.
    destruct (version2_route s1) as [Hfst Hsnd].
    assert ((Version2.max_iterations s1 <? Version2.iteration s1) = true)
      as Hlt by (apply Z.ltb_lt; lia).
    rewrite Hlt in Hfst, Hsnd. rewrite andb_false_r in Hfst.
    assert (eq_str (Version2.status s1) "success"
            || eq_str (Version2.status s1) "source_error" = false) as Hfin.
    { apply orb_false_iff. split.
      - destruct (eq_str _ "success") eqn:H; [|done].
        by apply eq_str_true in H.
      - destruct (eq_str _ "source_error") eqn:H; [|done].
        by apply eq_str_true in H. }
    rewrite Hfin in Hsnd. cbn [negb andb] in Hsnd.
    split; [exact Hfst|]. split; [exact Hsnd|]. split.
    + cbn [Version2.loop]. rewrite version2_within_limit, Hcy, Hfst; [|lia].
      rewrite version2_reporter_within_limit; [done | lia].
    + intros final w'. apply version2_reporter_keeps_status.
Qed.

End Budget.

(** A world in which every test run fails: the source does not parse,
    the one collected test fails, and the critic answers in prose. *)
Definition no_match (pattern : string) (multiline : bool) (text : string)
  : list string := [].

Definition no_parse (code : string) : res Ast.node :=
  Raise (SyntaxError "invalid syntax").

Definition prose {P : Type} (k : nat) (prompt : P) : string :=
  "I am sorry, the tests failed.".

Definition quoted (s : string) : string :=
  String (ascii_of_N 34) s +:+ String (ascii_of_N 34) "".

Definition failing_report_text : string :=
  "{" +:+ quoted "summary" +:+ ": {" +:+ quoted "collected" +:+ ": 1, "
  +:+ quoted "passed" +:+ ": 0, " +:+ quoted "failed" +:+ ": 1}}".

Definition failing_report : json :=
  JObj [("summary",
         JObj [("collected", JInt 1); ("passed", JInt 0);
               ("failed", JInt 1)])].

(** A critic that answers with a well-formed [needs_fix] payload. *)
Definition needs_fix_text : string :=
  "{" +:+ quoted "status" +:+ ": " +:+ quoted "needs_fix" +:+ "}".

Definition says_needs_fix {P : Type} (k : nat) (prompt : P) : string :=
  needs_fix_text.

(** The decoder on the two JSON texts of this world. *)
Definition loads_known (s : string) : res json :=
  if String.eqb s failing_report_text then Ok failing_report
  else if String.eqb s needs_fix_text
       then Ok (JObj [("status", JStr "needs_fix")])
       else Raise (JSONDecodeError "Expecting value").

Definition failing_run (k : nat) (fs : gmap string string) : World.process :=
  {| World.proc_outcome := World.Exited 1 "" "";
     World.proc_report := Some failing_report_text |}.

Lemma failing_run_graph (test_file : string) (w : World.world) :
  fst (Graph.run_pytest_json loads_known failing_run test_file w)
    = (1, failing_report, "", "").
Proof.
  unfold Graph.run_pytest_json. fold (cleared w). cbn [World.proc_outcome].
  by rewrite after_process_report.
Qed.

Lemma failing_run_version2 (test_file : string) (w : World.world) :
  fst (Version2.run_pytest_json loads_known failing_run test_file w)
    = (1, failing_report, "", "").
Proof.
  unfold Version2.run_pytest_json. cbn [World.proc_outcome].
  by rewrite after_process_report.
Qed.

(** After the failing run the critic of either variant asks the model. *)
Lemma graph_critic_failing
    (llm_critic : nat -> Graph.critic_prompt -> string)
    (st : Graph.GraphState) (w : World.world) :
  Graph.report st = failing_report ->
  exists prompt,
    Graph.critic_node loads_known llm_critic st w
    = let* st' :=
        Graph.critic_verdict loads_known
          (llm_critic (World.critic_calls w) prompt) st in
      Ok (st', World.tick_critic w).
Proof.
  intros H. unfold Graph.critic_node. rewrite H. by eexists.
Qed.

Lemma version2_critic_failing
    (llm_critic : nat -> Version2.critic_prompt -> string)
    (st : Version2.AgentState) (w : World.world) :
  Version2.report st = failing_report ->
  exists prompt,
    Version2.critic_node loads_known llm_critic st w
    = let* st' :=
        Version2.critic_verdict loads_known
          (llm_critic (World.critic_calls w) prompt) st in
      Ok (st', World.tick_critic w).
Proof.
  intros H. unfold Version2.critic_node. rewrite H.
  cbn [bind dict_get assoc failing_report String.eqb Ascii.eqb Bool.eqb].
  rewrite andb_false_r. by eexists.
Qed.

Lemma graph_cycle_failing
    (llm_critic : nat -> Graph.critic_prompt -> string)
    (st : Graph.GraphState) (w : World.world) :
  exists sx wx prompt,
    Graph.report sx = failing_report
    /\ Graph.cycle no_parse loads_known failing_run prose llm_critic st w
       = let* st' :=
           Graph.critic_verdict loads_known
             (llm_critic (World.critic_calls wx) prompt) sx in
         Ok (st', World.tick_critic wx).
Proof.
  unfold Graph.cycle.
  destruct (Graph.test_generator_node prose st w) as [sg wg].
  set (sc := Graph.combiner_node no_parse sg).
  unfold Graph.execution_node.
  pose proof (failing_run_graph Graph.test_file_path
                (World.write_file Graph.test_file_path
                   (Graph.combined_code sc) wg)) as Hfst.
  destruct (Graph.run_pytest_json loads_known failing_run _ _)
    as [[[[rc rep] out] err] w1].
  cbn [fst] in Hfst. injection Hfst as -> -> -> ->.
  cbn [bind truthy failing_report dict_get assoc String.eqb Ascii.eqb
       Bool.eqb].
  set (sx := Graph.log _ _ _).
  destruct (graph_critic_failing llm_critic sx w1 eq_refl) as (prompt & ->).
  by exists sx, w1, prompt.
Qed.

Lemma version2_cycle_failing
    (llm_critic : nat -> Version2.critic_prompt -> string)
    (st : Version2.AgentState) (w : World.world) :
  exists sx wx prompt,
    Version2.report sx = failing_report
    /\ Version2.cycle loads_known failing_run prose llm_critic st w
       = let* st' :=
           Version2.critic_verdict loads_known
             (llm_critic (World.critic_calls wx) prompt) sx in
         Ok (st', World.tick_critic wx).
Proof.
  unfold Version2.cycle.
  destruct (Version2.generator_node prose st w) as [sg wg].
  unfold Version2.execution_node.
  pose proof (failing_run_version2 Version2.test_file_path
                (World.write_file Version2.test_file_path
                   (Version2.test_code sg) wg)) as Hfst.
  destruct (Version2.run_pytest_json loads_known failing_run _ _)
    as [[[[rc rep] out] err] w1].
  cbn [fst] in Hfst. injection Hfst as -> -> -> ->.
  cbn [bind truthy failing_report dict_get assoc String.eqb Ascii.eqb
       Bool.eqb].
  set (sx := Version2.set_iteration_results _ _).
  destruct (version2_critic_failing llm_critic sx w1 eq_refl)
    as (prompt & ->).
  by exists sx, w1, prompt.
Qed.

Lemma failing_world_needs_fix :
  always_needs_fix no_parse loads_known failing_run prose prose.
Proof.
  intros st w.
  destruct (graph_cycle_failing prose st w) as (sx & wx & prompt & _ & ->).
  eexists _, _. split; reflexivity.
Qed.

Lemma failing_world_test_error :
  always_verdict2 loads_known failing_run prose prose "test_error".
Proof.
  intros st w.
  destruct (version2_cycle_failing prose st w) as (sx & wx & prompt & _ & ->).
  eexists _, _. split; reflexivity.
Qed.

Lemma needs_fix_world_graph :
  always_needs_fix no_parse loads_known failing_run prose says_needs_fix.
Proof.
  intros st w.
  destruct (graph_cycle_failing says_needs_fix st w)
    as (sx & wx & prompt & _ & ->).
  eexists _, _. split; reflexivity.
Qed.

Lemma needs_fix_world_version2 :
  always_verdict2 loads_known failing_run prose says_needs_fix "needs_fix".
Proof.
  intros st w.
  destruct (version2_cycle_failing says_needs_fix st w)
    as (sx & wx & prompt & _ & ->).
  eexists _, _. split; reflexivity.
Qed.

(** A run of either graph with a budget of 2 in that world, and a run of
    builder.py with a budget of 6. *)
Lemma C1_budget_verdict_is_lost_witness :
  1 <= 2
  /\ (Z.to_nat 2 <= 2)%nat
  /\ (exists final w',
        Graph.main_graph no_match no_parse loads_known failing_run prose
          prose prose 2 (Graph.initial_state "" "" 2) World.empty_world
          = Some (Ok (final, w'))
        /\ Graph.status final = JStr "needs_fix"
        /\ Graph.iteration final = 3
        /\ length (Graph.iteration_results final) = 2%nat
        /\ World.generator_calls w' = 2%nat
        /\ World.pytest_runs w' = 2%nat)
  /\ (exists final w',
        Version2.app no_match loads_known failing_run prose prose prose 2
          (Version2.initial_state "" 2) World.empty_world
          = Some (Ok (final, w'))
        /\ Version2.status final = JStr "test_error"
        /\ Version2.iteration final = 3
        /\ length (Version2.iteration_results final) = 2%nat
        /\ World.generator_calls w' = 2%nat)
  /\ 1 <= 6
  /\ (Z.to_nat 6 <= 6)%nat
  /\ Graph.main_graph no_match no_parse loads_known failing_run prose
       prose prose 6 (Graph.initial_state "" "" 6) World.empty_world
     = Some (Raise Graph.recursion_error).
Proof.
  split; [lia|]. split; [cbn; lia|].
  destruct (C1_budget_verdict_is_lost no_match no_parse loads_known
              failing_run prose prose prose prose prose prose "" "" 2
              World.empty_world 2) as (Hg & _ & Hv); [lia | cbn; lia |].
  split.
  { apply Hg; [lia|]. apply always_verdicts, failing_world_needs_fix. }
  split.
  { apply Hv; [lia|]. apply always_verdicts2, failing_world_test_error. }
  split; [lia|]. split; [cbn; lia|].
  destruct (C1_budget_verdict_is_lost no_match no_parse loads_known
              failing_run prose prose prose prose prose prose "" "" 6
              World.empty_world 6) as (_ & Hl & _); [lia | cbn; lia |].
  apply Hl; [lia|]. apply always_verdicts, failing_world_needs_fix.
Defined.

(** After one failed cycle with a budget of 1 the counter is above the
    budget: the edge function names the reporter, and the reporter of
    either graph returns the verdict of the critic. *)
Lemma C2_overwrite_is_lost_witness :
  let st :=
    Graph.function_detector_node no_match no_parse
      (Graph.initial_state "" "" 1) in
  let s :=
    Version2.function_detector_node no_match (Version2.initial_state "" 1) in
  (0 <= 4)%nat
  /\ (exists st1 w1,
        Graph.cycle no_parse loads_known failing_run prose prose st
          World.empty_world = Ok (st1, w1)
        /\ Graph.status st1 = JStr "needs_fix"
        /\ Graph.max_iterations st1 < Graph.iteration st1
        /\ Graph.should_continue st1
           = (Graph.reporter, Graph.set_status (JStr "max_iterations") st1)
        /\ Graph.loop no_parse loads_known failing_run prose prose prose 1 0
             st World.empty_world
           = Some (Graph.reporter_node prose st1 w1)
        /\ forall final w',
             Graph.reporter_node prose st1 w1 = Ok (final, w') ->
             Graph.status final = JStr "needs_fix")
  /\ (exists s1 w1,
        Version2.cycle loads_known failing_run prose prose s
          World.empty_world = Ok (s1, w1)
        /\ Version2.status s1 = JStr "test_error"
        /\ Version2.max_iterations s1 < Version2.iteration s1
        /\ Version2.status (snd (Version2.should_continue s1))
           = JStr "max_iterations"
        /\ Version2.loop loads_known failing_run prose prose prose 1 0 s
             World.empty_world
           = Some (Version2.reporter_node prose s1 w1)
        /\ forall final w',
             Version2.reporter_node prose s1 w1 = Ok (final, w') ->
             Version2.status final = JStr "test_error").
Proof.
  intros st s. split; [lia|].
  destruct (failing_world_needs_fix st World.empty_world)
    as (st1 & w1 & Hcy & Hst).
  destruct (failing_world_test_error s World.empty_world)
    as (s1 & w2 & Hcy2 & Hst2).
  destruct (cycle_fields _ _ _ _ _ _ _ _ _ Hcy) as (Hm & Hi & _).
  destruct (version2_cycle_fields _ _ _ _ _ _ _ _ Hcy2) as (Hm2 & Hi2 & _).
  rewrite Hst in Hi. rewrite Hst2 in Hi2.
  assert (Graph.max_iterations st1 < Graph.iteration st1) as Hover
    by (rewrite Hm, Hi; reflexivity).
  assert (Version2.max_iterations s1 < Version2.iteration s1) as Hover2
    by (rewrite Hm2, Hi2; reflexivity).
  split.
  - exists st1, w1.
    destruct (C2_overwrite_is_lost no_parse loads_known failing_run prose
                prose prose prose prose prose st st1 s s1 World.empty_world
                w1 0 0) as ((Hsc & Hloop & Hrep) & _);
      [lia | exact Hcy | by rewrite Hst | exact Hover |].
    do 4 (split; [done|]). split; [exact Hloop|].
    intros final w' H. by rewrite (Hrep final w' H).
  - exists s1, w2.
    destruct (C2_overwrite_is_lost no_parse loads_known failing_run prose
                prose prose prose prose prose st st1 s s1 World.empty_world
                w2 0 0) as (_ & Hv); [lia|].
    destruct Hv as (_ & Hsnd & Hloop & Hrep);
      [exact Hcy2 | by rewrite Hst2 | by rewrite Hst2 | exact Hover2 |].
    do 3 (split; [done|]). split; [exact Hsnd|]. split; [exact Hloop|].
    intros final w' H. by rewrite (Hrep final w' H).
Defined.

(** Two more departures from a stop after exactly [max_iterations]
    cycles.  With a budget of 0, which main.py accepts as
    [--max-iterations 0], nodes.py still performs one cycle and ends at
    iteration 2: one generation is run past the budget.  And in
    Version2.py the verdict [needs_fix] is no retry verdict: with a
    budget of 3 the run goes to the reporter after the first cycle, at
    iteration 1. *)
Lemma runs_off_the_budget :
  (always_needs_fix no_parse loads_known failing_run prose says_needs_fix
   /\ exists final w',
        Graph.main_graph no_match no_parse loads_known failing_run prose
          says_needs_fix prose 1 (Graph.initial_state "" "" 0)
          World.empty_world
          = Some (Ok (final, w'))
        /\ Graph.status final = JStr "needs_fix"
        /\ Graph.iteration final = 2
        /\ World.generator_calls w' = 1%nat)
  /\ (always_verdict2 loads_known failing_run prose says_needs_fix
        "needs_fix"
      /\ exists final w',
           Version2.app no_match loads_known failing_run prose
             says_needs_fix prose 3 (Version2.initial_state "" 3)
             World.empty_world
             = Some (Ok (final, w'))
           /\ Version2.status final = JStr "needs_fix"
           /\ Version2.iteration final = 1
           /\ World.generator_calls w' = 1%nat).
Proof.
  split; (split; [first [exact needs_fix_world_graph
                        | exact needs_fix_world_version2]|]).
  - eexists _, _. split; [vm_compute; reflexivity|]. repeat split.
  - eexists _, _. split; [vm_compute; reflexivity|]. repeat split.
Qed.

(* ===================================================================== *)
(** * Further properties of the code                                      *)
(* ===================================================================== *)

Ltac unbind H :=
  let a := fresh "a" in
  let Ha := fresh "Ha" in
  apply bind_ok in H as (a & Ha & H).

(** ** Whole runs of the graph of builder.py *)

Section Runs.

Import World.

Variable re_findall : string -> bool -> string -> list string.
Variable ast_parse : string -> res Ast.node.
Variable json_loads : string -> res json.
Variable pytest : nat -> gmap string string -> process.
Variable llm_generator : nat -> Graph.generator_prompt -> string.
Variable llm_critic : nat -> Graph.critic_prompt -> string.
Variable llm_reporter : nat -> Graph.reporter_prompt -> string.

(** The fields that only the caller and the detector write. *)
Record same_inputs (st st' : Graph.GraphState) : Prop := {
  same_readme : Graph.readme_content st' = Graph.readme_content st;
  same_user : Graph.user_functions st' = Graph.user_functions st;
  same_detected : Graph.detected_functions st' = Graph.detected_functions st;
  same_num : Graph.num_functions st' = Graph.num_functions st;
  same_framework : Graph.framework st' = Graph.framework st;
  same_max : Graph.max_iterations st' = Graph.max_iterations st
}.

Lemma same_inputs_refl (st : Graph.GraphState) : same_inputs st st.
Proof. by split. Qed.

Lemma same_inputs_trans (a b c : Graph.GraphState) :
  same_inputs a b -> same_inputs b c -> same_inputs a c.
Proof.
  intros [H1 H2 H3 H4 H5 H6] [K1 K2 K3 K4 K5 K6].
  split; congruence.
Qed.

(** The calls to the services between two worlds: [g] generations, [p]
    test runs, [r] reports, and at most [c] questions to the critic. *)
Record calls (w w' : world) (g p c r : nat) : Prop := {
  calls_generator : generator_calls w' = (generator_calls w + g)%nat;
  calls_pytest : pytest_runs w' = (pytest_runs w + p)%nat;
  calls_critic_lower : (critic_calls w <= critic_calls w')%nat;
  calls_critic_upper : (critic_calls w' <= critic_calls w + c)%nat;
  calls_reporter : reporter_calls w' = (reporter_calls w + r)%nat
}.

Lemma calls_trans (a b c : world) (g p k r g' p' k' r' : nat) :
  calls a b g p k r -> calls b c g' p' k' r' ->
  calls a c (g + g') (p + p') (k + k') (r + r').
Proof. intros [] []. split; lia. Qed.

Lemma run_pytest_calls (test_file : string) (w : world) :
  calls w (snd (Graph.run_pytest_json json_loads pytest test_file w)) 0 1 0 0.
Proof.
  unfold Graph.run_pytest_json.
  set (w0 := if exists_file _ _ then _ else _).
  assert (calls w w0 0 0 0 0) as H0.
  { subst w0. destruct (exists_file _ _); split; cbn; lia. }
  set (p := pytest _ _).
  assert (calls w0 (after_process p w0) 0 1 0 0) as H1.
  { unfold after_process. destruct (proc_report p); split; cbn; lia. }
  pose proof (calls_trans _ _ _ _ _ _ _ _ _ _ _ H0 H1) as H.
  destruct (proc_outcome p);
    [destruct (files (after_process p w0) !! report_path);
     [destruct (json_loads _)|]|]; exact H.
Qed.

(** The execution node: one record stamped with the current iteration. *)
Lemma execution_effects (st st' : Graph.GraphState) (w w' : world) :
  Graph.execution_node json_loads pytest st w = Ok (st', w') ->
  same_inputs st st'
  /\ Graph.iteration st' = Graph.iteration st
  /\ Graph.test_code st' = Graph.test_code st
  /\ (exists r, Graph.iteration_results st' = Graph.iteration_results st ++ [r]
                /\ Graph.ir_iteration r = Graph.iteration st)
  /\ calls w w' 0 1 0 0.
Proof.
  unfold Graph.execution_node.
  pose proof (run_pytest_calls Graph.test_file_path
                (write_file Graph.test_file_path (Graph.combined_code st) w))
    as Hc.
  destruct (Graph.run_pytest_json _ _ _ _) as [[[[rc rep] out] err] w2].
  intros H. unbind H. unbind H. unbind H. unbind H. unbind H.
  injection H as <- <-. cbn in Hc.
  split; [by split|]. split; [done|]. split; [done|].
  split; [by eexists|]. destruct Hc. split; cbn in *; lia.
Qed.

Lemma critic_verdict_effects (content : string) (st st' : Graph.GraphState) :
  Graph.critic_verdict json_loads content st = Ok st' ->
  same_inputs st st'
  /\ Graph.report st' = Graph.report st
  /\ Graph.iteration_results st' = Graph.iteration_results st
  /\ Graph.test_code st' = Graph.test_code st
  /\ Graph.iteration st' =
       (if eq_str (Graph.status st') "needs_fix"
        then Graph.iteration st + 1 else Graph.iteration st).
Proof.
  unfold Graph.critic_verdict. intros H.
  unbind H. unbind H. unbind H. injection H as <-.
  cbn [Graph.status Graph.log Graph.set_history Graph.set_feedback
       Graph.set_status].
  destruct (eq_str a0 "needs_fix") eqn:Hfix; cbn; rewrite Hfix;
    (split; [by split|]); repeat split.
Qed.

Lemma critic_effects (st st' : Graph.GraphState) (w w' : world) :
  Graph.critic_node json_loads llm_critic st w = Ok (st', w') ->
  same_inputs st st'
  /\ Graph.report st' = Graph.report st
  /\ Graph.iteration_results st' = Graph.iteration_results st
  /\ Graph.test_code st' = Graph.test_code st
  /\ Graph.iteration st' =
       (if eq_str (Graph.status st') "needs_fix"
        then Graph.iteration st + 1 else Graph.iteration st)
  /\ calls w w' 0 0 1 0
  /\ readable (Graph.report st).
Proof.
  unfold Graph.critic_node. intros H.
  unbind H. unbind H. unbind H. unbind H.
  assert (readable (Graph.report st)) as Hread.
  { exists a. split; [exact Ha | exact (dict_get_ok _ _ _ _ Ha0)]. }
  destruct (a2 && eq_num a1 a0).
  - injection H as <- <-.
    split; [by split|]. repeat split; cbn; try lia. exact Hread.
  - unbind H. unbind H. unbind H. injection H as <- <-.
    destruct (critic_verdict_effects _ _ _ Ha5) as (Hin & Hr & Hres & Ht & Hi).
    do 5 (split; [done|]). split; [split; cbn; lia | exact Hread].
Qed.

Abbreviation cycle :=
  (Graph.cycle ast_parse json_loads pytest llm_generator llm_critic).
Abbreviation loop :=
  (Graph.loop ast_parse json_loads pytest llm_generator llm_critic
     llm_reporter).

(** One cycle that does not raise. *)
Record cycle_effects (st : Graph.GraphState) (w : world)
    (st' : Graph.GraphState) (w' : world) : Prop := {
  ce_inputs : same_inputs st st';
  ce_iteration :
    Graph.iteration st' =
      (if eq_str (Graph.status st') "needs_fix"
       then Graph.iteration st + 1 else Graph.iteration st);
  ce_record :
    exists r, Graph.iteration_results st' = Graph.iteration_results st ++ [r]
              /\ Graph.ir_iteration r = Graph.iteration st;
  ce_test_code :
    exists prompt,
      Graph.test_code st'
      = Parser.extract_code (llm_generator (generator_calls w) prompt);
  ce_calls : calls w w' 1 1 1 0;
  ce_readable : readable (Graph.report st')
}.

Lemma cycle_effects_of (st st' : Graph.GraphState) (w w' : world) :
  cycle st w = Ok (st', w') -> cycle_effects st w st' w'.
Proof.
  unfold Graph.cycle.
  destruct (Graph.test_generator_node _ st w) as [sg wg] eqn:Hgen.
  intros H. apply bind_ok in H as ([se we] & Hex & Hcr).
  apply execution_effects in Hex as (Hin1 & Hi1 & Ht1 & (r & Hr1 & Hri) & Hc1).
  apply critic_effects in Hcr
    as (Hin2 & Hrep & Hres2 & Ht2 & Hi2 & Hc2 & Hread).
  unfold Graph.test_generator_node in Hgen. injection Hgen as <- <-.
  cbn in Hi1, Ht1, Hr1, Hri.
  assert (same_inputs st se) as Hin0.
  { destruct Hin1. by split. }
  split.
  - exact (same_inputs_trans _ _ _ Hin0 Hin2).
  - by rewrite Hi2, Hi1.
  - exists r. by rewrite Hres2, Hr1.
  - eexists. rewrite Ht2, Ht1. reflexivity.
  - destruct Hc1, Hc2. cbn in *. split; lia.
  - by rewrite Hrep.
Qed.

Lemma reporter_effects (st : Graph.GraphState) (w : world) :
  readable (Graph.report st) ->
  exists st' w',
    Graph.reporter_node llm_reporter st w = Ok (st', w')
    /\ same_inputs st st'
    /\ Graph.status st' = Graph.status st
    /\ Graph.iteration st' = Graph.iteration st
    /\ Graph.iteration_results st' = Graph.iteration_results st
    /\ Graph.test_code st' = Graph.test_code st
    /\ calls w w' 0 0 0 1.
Proof.
  intros (summary & Hs & Hd). unfold Graph.reporter_node.
  rewrite Hs. cbn [bind].
  destruct (dict_get_dict summary "passed" (JInt 0) Hd) as (p & ->).
  destruct (dict_get_dict summary "collected" (JInt 0) Hd) as (c & ->).
  cbn [bind]. eexists _, _. split; [reflexivity|].
  split; [by split|]. do 4 (split; [done|]). split; cbn; lia.
Qed.

(** A run that reaches the reporter after [k] cycles. *)
Record run_effects (st : Graph.GraphState) (w : world)
    (final : Graph.GraphState) (w' : world) (k : nat) : Prop := {
  re_cycles_lower : (1 <= k)%nat;
  re_cycles_upper :
    Z.of_nat k
    <= Z.max 1 (Graph.max_iterations st - Graph.iteration st + 1);
  re_inputs : same_inputs st final;
  re_calls : calls w w' k k k 1;
  re_records :
    exists rs,
      Graph.iteration_results final = Graph.iteration_results st ++ rs
      /\ length rs = k
      /\ forall (i : nat) r,
           rs !! i = Some r ->
           Graph.ir_iteration r = Graph.iteration st + Z.of_nat i;
  re_test_code :
    exists prompt,
      Graph.test_code final
      = Parser.extract_code
          (llm_generator (generator_calls w + k - 1)%nat prompt);
  re_iteration :
    Graph.iteration st + Z.of_nat k - 1 <= Graph.iteration final
    <= Graph.iteration st + Z.of_nat k
}.

(** The last cycle of a run, and the reporter after it. *)
Lemma last_cycle_effects (st st1 : Graph.GraphState) (w w1 : world) :
  cycle_effects st w st1 w1 ->
  exists final w',
    Graph.reporter_node llm_reporter st1 w1 = Ok (final, w')
    /\ run_effects st w final w' 1.
Proof.
  intros [Hin Hi (r0 & Hr0 & Hri) (prompt & Hcode) Hc Hread].
  destruct (reporter_effects st1 w1) as
    (final & w' & Hrep & Hin3 & Hs3 & Hi3 & Hr3 & Ht3 & Hc3);
    [exact Hread|].
  exists final, w'. split; [exact Hrep|]. split.
  - lia.
  - lia.
  - exact (same_inputs_trans _ _ _ Hin Hin3).
  - destruct Hc, Hc3. split; lia.
  - exists [r0]. rewrite Hr3, Hr0. split; [done|]. split; [done|].
    intros [|i] x Hx; [injection Hx as <-; lia | done].
  - exists prompt. rewrite Ht3, Hcode. do 2 f_equal. lia.
  - rewrite Hi3, Hi. destruct (eq_str _ _); lia.
Qed.

(** Whatever the services answer, the loop stops: a cycle raises, the
    limit of the super-steps is met, or the reporter is reached after at
    least one cycle and at most [max_iterations - iteration + 1]
    cycles. *)
Lemma loop_effects (r : nat) :
  forall (st : Graph.GraphState) (w : world) (fuel ran : nat),
    Graph.max_iterations st - Graph.iteration st + 1 <= Z.of_nat r ->
    (r <= fuel)%nat -> (1 <= fuel)%nat ->
    exists res,
      loop fuel ran st w = Some res
      /\ forall final w', res = Ok (final, w') ->
                          exists k, run_effects st w final w' k.
Proof.
  assert (forall st st1 w w1 (b : bool),
            cycle_effects st w st1 w1 ->
            exists res,
              (if b then Some (Raise Graph.recursion_error)
               else Some (Graph.reporter_node llm_reporter st1 w1))
              = Some res
              /\ forall final w', res = Ok (final, w') ->
                                  exists k, run_effects st w final w' k)
    as Hstop.
  { intros st st1 w w1 b Hce. destruct b; [by eexists|].
    destruct (last_cycle_effects st st1 w w1 Hce)
      as (final & w' & -> & Hrun).
    exists (Ok (final, w')). split; [done|].
    intros ? ? [= <- <-]. by exists 1%nat. }
  induction r as [|r IH]; intros st w fuel ran Hleft Hfuel Hone;
    (destruct fuel as [|fuel]; [lia|]); cbn [Graph.loop];
    (destruct (_ <? _)%nat; [by eexists|]);
    (destruct (Graph.cycle _ _ _ _ _ st w) as [[st1 w1]|e] eqn:Hcy;
     [|by exists (Raise e)]);
    pose proof (cycle_effects_of st st1 w w1 Hcy) as Hce;
    rewrite graph_route; cbn [fst];
    (destruct (eq_str (Graph.status st1) "needs_fix") eqn:Hfix;
     cbn [andb]; [|by apply Hstop]);
    (destruct (Z.ltb_spec (Graph.max_iterations st1) (Graph.iteration st1))
       as [Hover|Hin']; cbn [negb]; [by apply Hstop|]);
    destruct Hce as [Hin Hi (r0 & Hr0 & Hri) (prompt & Hcode) Hc Hread];
    pose proof (same_max _ _ Hin) as Hmax; rewrite Hfix in Hi.
  - lia.
  - destruct (IH st1 w1 fuel (S ran)) as (res & Hloop & Hres);
      [lia | lia | lia |].
    exists res. split; [exact Hloop|].
    intros final w' ->. destruct (Hres final w' eq_refl) as (k & Hk).
    destruct Hk as [Hk1 Hk2 Hin4 Hc4 (rs & Hrs & Hlen & Hnum)
                        (prompt' & Hcode') Hit].
    exists (S k). split.
    + lia.
    + lia.
    + exact (same_inputs_trans _ _ _ Hin Hin4).
    + destruct Hc, Hc4. split; lia.
    + exists (r0 :: rs). rewrite Hrs, Hr0, <- app_assoc. split; [done|].
      split; [cbn; lia|].
      intros [|i] x Hx; [injection Hx as <-; lia|].
      cbn in Hx. rewrite (Hnum i x Hx). lia.
    + exists prompt'. rewrite Hcode'. destruct Hc as [Hg _ _ _ _].
      rewrite Hg. do 2 f_equal. lia.
    + lia.
Qed.

Abbreviation main_graph :=
  (Graph.main_graph re_findall ast_parse json_loads pytest llm_generator
     llm_critic llm_reporter).

Lemma main_graph_effects (readme user : string) (max_iter : Z) (w : world)
    (fuel : nat) :
  (Z.to_nat max_iter <= fuel)%nat -> (1 <= fuel)%nat ->
  exists res,
    main_graph fuel (Graph.initial_state readme user max_iter) w = Some res
    /\ forall final w',
         res = Ok (final, w') ->
         exists k,
           run_effects
             (Graph.function_detector_node re_findall ast_parse
                (Graph.initial_state readme user max_iter)) w final w' k.
Proof.
  intros Hfuel Hone. unfold Graph.main_graph.
  destruct (detector_counters re_findall ast_parse
              (Graph.initial_state readme user max_iter)) as (Hi & Hm & _).
  cbn in Hi, Hm.
  apply (loop_effects (Z.to_nat max_iter)); [lia | exact Hfuel | exact Hone].
Qed.

Lemma detector_inputs (st : Graph.GraphState) :
  let st' := Graph.function_detector_node re_findall ast_parse st in
  Graph.readme_content st' = Graph.readme_content st
  /\ Graph.user_functions st' = Graph.user_functions st
  /\ Graph.max_iterations st' = Graph.max_iterations st
  /\ Graph.test_code st' = Graph.test_code st.
Proof.
  unfold Graph.function_detector_node. cbn [Graph.log Graph.user_functions
    Graph.readme_content Graph.set_history Graph.set_framework].
  destruct (Parser.extract_functions_from_readme _ _) as [|r rs];
    [destruct (Parser.extract_functions_from_python_file _ _) as [|c cs]|];
    repeat split.
Qed.

(** Every run of the compiled graph ends, whatever the services answer:
    with fuel for [max_iterations] cycles (one at least) the run raises
    or returns.  A run that returns has made as many generations as test
    runs, one at least and [max(1, max_iterations)] at most; it has asked
    the critic model at most once per test run and the reporter model
    exactly once. *)
Theorem graph_run_is_bounded (readme user : string) (max_iter : Z)
    (w : world) (fuel : nat) :
  (Z.to_nat max_iter <= fuel)%nat -> (1 <= fuel)%nat ->
  exists res,
    main_graph fuel (Graph.initial_state readme user max_iter) w = Some res
    /\ forall final w',
         res = Ok (final, w') ->
         exists k : nat,
           (1 <= k)%nat /\ Z.of_nat k <= Z.max 1 max_iter
           /\ generator_calls w' = (generator_calls w + k)%nat
           /\ pytest_runs w' = (pytest_runs w + k)%nat
           /\ (critic_calls w <= critic_calls w' <= critic_calls w + k)%nat
           /\ reporter_calls w' = (reporter_calls w + 1)%nat.
Proof.
  intros Hfuel Hone.
  destruct (main_graph_effects readme user max_iter w fuel Hfuel Hone)
    as (res & Hrun & Hres).
  exists res. split; [exact Hrun|]. intros final w' Hok.
  destruct (Hres final w' Hok) as (k & [Hk1 Hk2 _ [Hg Hp Hc1 Hc2 Hr] _ _ _]).
  destruct (detector_counters re_findall ast_parse
              (Graph.initial_state readme user max_iter)) as (Hi & Hm & _).
  cbn in Hi, Hm. rewrite Hi, Hm in Hk2.
  exists k. repeat split; try done. lia.
Qed.

(** The iteration records of a run that returns are numbered 1, 2, ... in
    the order of the test runs, one record for each test run. *)
Theorem graph_records_are_numbered (readme user : string) (max_iter : Z)
    (w : world) (fuel : nat) :
  (Z.to_nat max_iter <= fuel)%nat -> (1 <= fuel)%nat ->
  exists res,
    main_graph fuel (Graph.initial_state readme user max_iter) w = Some res
    /\ forall final w',
         res = Ok (final, w') ->
         pytest_runs w'
         = (pytest_runs w + length (Graph.iteration_results final))%nat
         /\ forall (i : nat) r,
              Graph.iteration_results final !! i = Some r ->
              Graph.ir_iteration r = Z.of_nat i + 1.
Proof.
  intros Hfuel Hone.
  destruct (main_graph_effects readme user max_iter w fuel Hfuel Hone)
    as (res & Hrun & Hres).
  exists res. split; [exact Hrun|]. intros final w' Hok.
  destruct (Hres final w' Hok)
    as (k & [_ _ _ [_ Hp _ _ _] (rs & Hrs & Hlen & Hnum) _ _]).
  destruct (detector_counters re_findall ast_parse
              (Graph.initial_state readme user max_iter)) as (Hi & _ & Hr0).
  cbn in Hi, Hr0. rewrite Hr0 in Hrs. cbn in Hrs. rewrite Hrs.
  split; [lia|]. intros i r Hr. rewrite (Hnum i r Hr), Hi. lia.
Qed.

(** A run that returns hands back the inputs as it received them and the
    result of the detection as the detector node left it: the loop writes
    none of these fields, and [num_functions] is still the number of the
    detected names. *)
Theorem graph_run_keeps_inputs (readme user : string) (max_iter : Z)
    (w : world) (fuel : nat) :
  (Z.to_nat max_iter <= fuel)%nat -> (1 <= fuel)%nat ->
  exists res,
    main_graph fuel (Graph.initial_state readme user max_iter) w = Some res
    /\ forall final w',
         res = Ok (final, w') ->
         Graph.readme_content final = readme
         /\ Graph.user_functions final = user
         /\ Graph.max_iterations final = max_iter
         /\ Graph.framework final = Parser.detect_framework user
         /\ Graph.detected_functions final
            = (match Parser.extract_functions_from_readme re_findall readme
               with
               | [] => Parser.extract_functions_from_python_file ast_parse
                         user
               | names => names
               end)
         /\ Graph.num_functions final
            = Z.of_nat (length (Graph.detected_functions final)).
Proof.
  intros Hfuel Hone.
  destruct (main_graph_effects readme user max_iter w fuel Hfuel Hone)
    as (res & Hrun & Hres).
  exists res. split; [exact Hrun|]. intros final w' Hok.
  destruct (Hres final w' Hok) as (k & [_ _ [H1 H2 H3 H4 H5 H6] _ _ _ _]).
  destruct (detector_fields re_findall ast_parse
              (Graph.initial_state readme user max_iter)) as (Hd & Hn & Hf).
  destruct (detector_inputs (Graph.initial_state readme user max_iter))
    as (Hr & Hu & Hm & _).
  cbn in Hd, Hn, Hf, Hr, Hu, Hm.
  rewrite H1, H2, H3, H4, H5, H6, Hd, Hf, Hr, Hu, Hm.
  repeat split; try done.
  - by destruct (Parser.extract_functions_from_readme _ _).
  - by rewrite Hn, Hd.
Qed.

End Runs.

(** ** Whole runs of the graph of Version2.py *)

Section Version2Runs.

Import World.

Variable re_findall : string -> bool -> string -> list string.
Variable json_loads : string -> res json.
Variable pytest : nat -> gmap string string -> process.
Variable llm_generator : nat -> Version2.generator_prompt -> string.
Variable llm_critic : nat -> Version2.critic_prompt -> string.
Variable llm_reporter : nat -> Version2.reporter_prompt -> string.

Abbreviation cycle2 :=
  (Version2.cycle json_loads pytest llm_generator llm_critic).
Abbreviation loop2 :=
  (Version2.loop json_loads pytest llm_generator llm_critic llm_reporter).

Record same_inputs2 (st st' : Version2.AgentState) : Prop := {
  same_readme2 : Version2.readme_content st' = Version2.readme_content st;
  same_detected2 :
    Version2.detected_functions st' = Version2.detected_functions st;
  same_num2 : Version2.num_functions st' = Version2.num_functions st;
  same_max2 : Version2.max_iterations st' = Version2.max_iterations st
}.

Lemma same_inputs2_trans (a b c : Version2.AgentState) :
  same_inputs2 a b -> same_inputs2 b c -> same_inputs2 a c.
Proof. intros [H1 H2 H3 H4] [K1 K2 K3 K4]. split; congruence. Qed.

Lemma version2_run_pytest_calls (test_file : string) (w : world) :
  calls w (snd (Version2.run_pytest_json json_loads pytest test_file w))
    0 1 0 0.
Proof.
  unfold Version2.run_pytest_json. set (p := pytest _ _).
  assert (calls w (after_process p w) 0 1 0 0) as H.
  { unfold after_process. destruct (proc_report p); split; cbn; lia. }
  destruct (proc_outcome p);
    [destruct (files (after_process p w) !! report_path);
     [destruct (json_loads _)|]|]; exact H.
Qed.

Lemma version2_execution_effects (st st' : Version2.AgentState)
    (w w' : world) :
  Version2.execution_node json_loads pytest st w = Ok (st', w') ->
  same_inputs2 st st'
  /\ Version2.iteration st' = Version2.iteration st
  /\ Version2.test_code st' = Version2.test_code st
  /\ (exists r,
        Version2.iteration_results st' = Version2.iteration_results st ++ [r]
        /\ Version2.ir_iteration r = Version2.iteration st)
  /\ calls w w' 0 1 0 0.
Proof.
  unfold Version2.execution_node.
  pose proof (version2_run_pytest_calls Version2.test_file_path
                (write_file Version2.test_file_path (Version2.test_code st) w))
    as Hc.
  destruct (Version2.run_pytest_json _ _ _ _) as [[[[rc rep] out] err] w2].
  intros H. unbind H. unbind H. unbind H. unbind H. unbind H.
  injection H as <- <-. cbn in Hc.
  split; [by split|]. split; [done|]. split; [done|].
  split; [by eexists|]. destruct Hc. split; cbn in *; lia.
Qed.

Lemma version2_verdict_effects (content : string)
    (st st' : Version2.AgentState) :
  Version2.critic_verdict json_loads content st = Ok st' ->
  same_inputs2 st st'
  /\ Version2.report st' = Version2.report st
  /\ Version2.iteration_results st' = Version2.iteration_results st
  /\ Version2.test_code st' = Version2.test_code st
  /\ Version2.iteration st' =
       (if retry2 (Version2.status st')
        then Version2.iteration st + 1 else Version2.iteration st).
Proof.
  unfold Version2.critic_verdict. intros H.
  apply bind_ok in H as (v & _ & H). apply bind_ok in H as (m & _ & H).
  apply bind_ok in H as (f & _ & H). injection H as <-.
  cbn [Version2.status Version2.log Version2.set_history
       Version2.set_feedback Version2.set_status].
  unfold retry2.
  destruct (eq_str v "test_error" || eq_str v "incomplete") eqn:Hr; cbn;
    rewrite Hr; (split; [by split|]); repeat split.
Qed.

Lemma version2_critic_effects (st st' : Version2.AgentState)
    (w w' : world) :
  Version2.critic_node json_loads llm_critic st w = Ok (st', w') ->
  same_inputs2 st st'
  /\ Version2.report st' = Version2.report st
  /\ Version2.iteration_results st' = Version2.iteration_results st
  /\ Version2.test_code st' = Version2.test_code st
  /\ Version2.iteration st' =
       (if retry2 (Version2.status st')
        then Version2.iteration st + 1 else Version2.iteration st)
  /\ calls w w' 0 0 1 0
  /\ readable (Version2.report st).
Proof.
  unfold Version2.critic_node. intros H.
  apply bind_ok in H as (summary & Hs & H).
  apply bind_ok in H as (c & Hc & H). apply bind_ok in H as (p & _ & H).
  apply bind_ok in H as (f & _ & H). apply bind_ok in H as (e & _ & H).
  assert (readable (Version2.report st)) as Hread.
  { exists summary. split; [exact Hs | exact (dict_get_ok _ _ _ _ Hc)]. }
  destruct (_ && _).
  - injection H as <- <-.
    split; [by split|]. repeat split; cbn; try lia. exact Hread.
  - apply bind_ok in H as (s & Hv & H). injection H as <- <-.
    destruct (version2_verdict_effects _ _ _ Hv) as (Hin & Hr & Hres & Ht & Hi).
    do 5 (split; [done|]). split; [split; cbn; lia | exact Hread].
Qed.

Record cycle_effects2 (st : Version2.AgentState) (w : world)
    (st' : Version2.AgentState) (w' : world) : Prop := {
  ce2_inputs : same_inputs2 st st';
  ce2_iteration :
    Version2.iteration st' =
      (if retry2 (Version2.status st')
       then Version2.iteration st + 1 else Version2.iteration st);
  ce2_record :
    exists r,
      Version2.iteration_results st' = Version2.iteration_results st ++ [r]
      /\ Version2.ir_iteration r = Version2.iteration st;
  ce2_test_code :
    exists prompt,
      Version2.test_code st'
      = Parser.extract_code (llm_generator (generator_calls w) prompt);
  ce2_calls : calls w w' 1 1 1 0;
  ce2_readable : readable (Version2.report st')
}.

Lemma cycle_effects2_of (st st' : Version2.AgentState) (w w' : world) :
  cycle2 st w = Ok (st', w') -> cycle_effects2 st w st' w'.
Proof.
  unfold Version2.cycle.
  destruct (Version2.generator_node _ st w) as [sg wg] eqn:Hgen.
  intros H. apply bind_ok in H as ([se we] & Hex & Hcr).
  apply version2_execution_effects in Hex
    as (Hin1 & Hi1 & Ht1 & (r & Hr1 & Hri) & Hc1).
  apply version2_critic_effects in Hcr
    as (Hin2 & Hrep & Hres2 & Ht2 & Hi2 & Hc2 & Hread).
  unfold Version2.generator_node in Hgen. injection Hgen as <- <-.
  cbn in Hi1, Ht1, Hr1, Hri.
  assert (same_inputs2 st se) as Hin0.
  { destruct Hin1. by split. }
  split.
  - exact (same_inputs2_trans _ _ _ Hin0 Hin2).
  - by rewrite Hi2, Hi1.
  - exists r. by rewrite Hres2, Hr1.
  - eexists. rewrite Ht2, Ht1. reflexivity.
  - destruct Hc1, Hc2. cbn in *. split; lia.
  - by rewrite Hrep.
Qed.

Lemma version2_reporter_effects (st : Version2.AgentState) (w : world) :
  readable (Version2.report st) ->
  exists st' w',
    Version2.reporter_node llm_reporter st w = Ok (st', w')
    /\ same_inputs2 st st'
    /\ Version2.status st' = Version2.status st
    /\ Version2.iteration st' = Version2.iteration st
    /\ Version2.iteration_results st' = Version2.iteration_results st
    /\ Version2.test_code st' = Version2.test_code st
    /\ calls w w' 0 0 0 1.
Proof.
  intros (summary & Hs & Hd). unfold Version2.reporter_node.
  rewrite Hs. cbn [bind].
  destruct (dict_get_dict summary "collected" (JInt 0) Hd) as (c & ->).
  destruct (dict_get_dict summary "passed" (JInt 0) Hd) as (p & ->).
  destruct (dict_get_dict summary "failed" (JInt 0) Hd) as (f & ->).
  cbn [bind]. eexists _, _. split; [reflexivity|].
  split; [by split|]. do 4 (split; [done|]). split; cbn; lia.
Qed.

Record run_effects2 (st : Version2.AgentState) (w : world)
    (final : Version2.AgentState) (w' : world) (k : nat) : Prop := {
  re2_cycles_lower : (1 <= k)%nat;
  re2_cycles_upper :
    Z.of_nat k
    <= Z.max 1 (Version2.max_iterations st - Version2.iteration st + 1);
  re2_inputs : same_inputs2 st final;
  re2_calls : calls w w' k k k 1;
  re2_records :
    exists rs,
      Version2.iteration_results final = Version2.iteration_results st ++ rs
      /\ length rs = k
      /\ forall (i : nat) r,
           rs !! i = Some r ->
           Version2.ir_iteration r = Version2.iteration st + Z.of_nat i;
  re2_test_code :
    exists prompt,
      Version2.test_code final
      = Parser.extract_code
          (llm_generator (generator_calls w + k - 1)%nat prompt);
  re2_iteration :
    Version2.iteration st + Z.of_nat k - 1 <= Version2.iteration final
    <= Version2.iteration st + Z.of_nat k
}.

Lemma version2_last_cycle_effects (st st1 : Version2.AgentState)
    (w w1 : world) :
  cycle_effects2 st w st1 w1 ->
  exists final w',
    Version2.reporter_node llm_reporter st1 w1 = Ok (final, w')
    /\ run_effects2 st w final w' 1.
Proof.
  intros [Hin Hi (r0 & Hr0 & Hri) (prompt & Hcode) Hc Hread].
  destruct (version2_reporter_effects st1 w1) as
    (final & w' & Hrep & Hin3 & Hs3 & Hi3 & Hr3 & Ht3 & Hc3);
    [exact Hread|].
  exists final, w'. split; [exact Hrep|]. split.
  - lia.
  - lia.
  - exact (same_inputs2_trans _ _ _ Hin Hin3).
  - destruct Hc, Hc3. split; lia.
  - exists [r0]. rewrite Hr3, Hr0. split; [done|]. split; [done|].
    intros [|i] x Hx; [injection Hx as <-; lia | done].
  - exists prompt. rewrite Ht3, Hcode. do 2 f_equal. lia.
  - rewrite Hi3, Hi. destruct (retry2 _); lia.
Qed.

Lemma version2_loop_effects (r : nat) :
  forall (st : Version2.AgentState) (w : world) (fuel ran : nat),
    Version2.max_iterations st - Version2.iteration st + 1 <= Z.of_nat r ->
    (r <= fuel)%nat -> (1 <= fuel)%nat ->
    exists res,
      loop2 fuel ran st w = Some res
      /\ forall final w', res = Ok (final, w') ->
                          exists k, run_effects2 st w final w' k.
Proof.
  assert (forall st st1 w w1 (b : bool),
            cycle_effects2 st w st1 w1 ->
            exists res,
              (if b then Some (Raise Version2.recursion_error)
               else Some (Version2.reporter_node llm_reporter st1 w1))
              = Some res
              /\ forall final w', res = Ok (final, w') ->
                                  exists k, run_effects2 st w final w' k)
    as Hstop.
  { intros st st1 w w1 b Hce. destruct b; [by eexists|].
    destruct (version2_last_cycle_effects st st1 w w1 Hce)
      as (final & w' & -> & Hrun).
    exists (Ok (final, w')). split; [done|].
    intros ? ? [= <- <-]. by exists 1%nat. }
  induction r as [|r IH]; intros st w fuel ran Hleft Hfuel Hone;
    (destruct fuel as [|fuel]; [lia|]); cbn [Version2.loop];
    (destruct (_ <? _)%nat; [by eexists|]);
    (destruct (Version2.cycle _ _ _ _ st w) as [[st1 w1]|e] eqn:Hcy;
     [|by exists (Raise e)]);
    pose proof (cycle_effects2_of st st1 w w1 Hcy) as Hce;
    unfold Version2.should_continue;
    (destruct (eq_str (Version2.status st1) "success") eqn:Hs;
     [by apply Hstop|]);
    (destruct (eq_str (Version2.status st1) "source_error") eqn:He;
     [by apply Hstop|]);
    (destruct (Z.ltb_spec (Version2.max_iterations st1)
                 (Version2.iteration st1)) as [Hover|Hin'];
     [by apply Hstop|]);
    (destruct (eq_str (Version2.status st1) "test_error"
               || eq_str (Version2.status st1) "incomplete") eqn:Hretry;
     [|by apply Hstop]); cbn [fst];
    destruct Hce as [Hin Hi (r0 & Hr0 & Hri) (prompt & Hcode) Hc Hread];
    pose proof (same_max2 _ _ Hin) as Hmax; unfold retry2 in Hi;
    rewrite Hretry in Hi.
  - lia.
  - destruct (IH st1 w1 fuel (S ran)) as (res & Hloop & Hres);
      [lia | lia | lia |].
    exists res. split; [exact Hloop|].
    intros final w' ->. destruct (Hres final w' eq_refl) as (k & Hk).
    destruct Hk as [Hk1 Hk2 Hin4 Hc4 (rs & Hrs & Hlen & Hnum)
                        (prompt' & Hcode') Hit].
    exists (S k). split.
    + lia.
    + lia.
    + exact (same_inputs2_trans _ _ _ Hin Hin4).
    + destruct Hc, Hc4. split; lia.
    + exists (r0 :: rs). rewrite Hrs, Hr0, <- app_assoc. split; [done|].
      split; [cbn; lia|].
      intros [|i] x Hx; [injection Hx as <-; lia|].
      cbn in Hx. rewrite (Hnum i x Hx). lia.
    + exists prompt'. rewrite Hcode'. destruct Hc as [Hg _ _ _ _].
      rewrite Hg. do 2 f_equal. lia.
    + lia.
Qed.

Abbreviation app :=
  (Version2.app re_findall json_loads pytest llm_generator llm_critic
     llm_reporter).

Lemma app_effects (readme : string) (max_iter : Z) (w : world)
    (fuel : nat) :
  (Z.to_nat max_iter <= fuel)%nat -> (1 <= fuel)%nat ->
  exists res,
    app fuel (Version2.initial_state readme max_iter) w = Some res
    /\ forall final w',
         res = Ok (final, w') ->
         exists k,
           run_effects2
             (Version2.function_detector_node re_findall
                (Version2.initial_state readme max_iter)) w final w' k.
Proof.
  intros Hfuel Hone. unfold Version2.app.
  apply (version2_loop_effects (Z.to_nat max_iter));
    [cbn; lia | exact Hfuel | exact Hone].
Qed.

(** Every run of the graph of Version2.py ends, whatever the services
    answer: with fuel for [max_iterations] cycles (one at least) the run
    raises or returns.  A run that returns has made as many generations
    as test runs, one at least and [max(1, max_iterations)] at most; it
    has asked the critic model at most once per test run and the reporter
    model exactly once. *)
Theorem version2_run_is_bounded (readme : string) (max_iter : Z)
    (w : world) (fuel : nat) :
  (Z.to_nat max_iter <= fuel)%nat -> (1 <= fuel)%nat ->
  exists res,
    app fuel (Version2.initial_state readme max_iter) w = Some res
    /\ forall final w',
         res = Ok (final, w') ->
         exists k : nat,
           (1 <= k)%nat /\ Z.of_nat k <= Z.max 1 max_iter
           /\ generator_calls w' = (generator_calls w + k)%nat
           /\ pytest_runs w' = (pytest_runs w + k)%nat
           /\ (critic_calls w <= critic_calls w' <= critic_calls w + k)%nat
           /\ reporter_calls w' = (reporter_calls w + 1)%nat.
Proof.
  intros Hfuel Hone.
  destruct (app_effects readme max_iter w fuel Hfuel Hone)
    as (res & Hrun & Hres).
  exists res. split; [exact Hrun|]. intros final w' Hok.
  destruct (Hres final w' Hok) as (k & [Hk1 Hk2 _ [Hg Hp Hc1 Hc2 Hr] _ _ _]).
  cbn in Hk2. exists k. repeat split; try done. lia.
Qed.

(** The iteration records of a run of Version2.py that returns are
    numbered 1, 2, ... in the order of the test runs.  So the record that
    the summary page looks up at index [iteration - 2], for a record of
    an iteration above 1, is there and is the record of the test run
    before. *)
Theorem version2_records_are_numbered (readme : string) (max_iter : Z)
    (w : world) (fuel : nat) :
  (Z.to_nat max_iter <= fuel)%nat -> (1 <= fuel)%nat ->
  exists res,
    app fuel (Version2.initial_state readme max_iter) w = Some res
    /\ forall final w',
         res = Ok (final, w') ->
         (forall (i : nat) r,
            Version2.iteration_results final !! i = Some r ->
            Version2.ir_iteration r = Z.of_nat i + 1)
         /\ (forall (i : nat) r,
               Version2.iteration_results final !! i = Some r ->
               1 < Version2.ir_iteration r ->
               exists previous,
                 Version2.iteration_results final
                   !! Z.to_nat (Version2.ir_iteration r - 2) = Some previous
                 /\ Version2.iteration_results final !! (i - 1)%nat
                    = Some previous
                 /\ Version2.ir_iteration previous
                    = Version2.ir_iteration r - 1).
Proof.
  intros Hfuel Hone.
  destruct (app_effects readme max_iter w fuel Hfuel Hone)
    as (res & Hrun & Hres).
  exists res. split; [exact Hrun|]. intros final w' Hok.
  destruct (Hres final w' Hok)
    as (k & [_ _ _ _ (rs & Hrs & Hlen & Hnum) _ _]).
  cbn in Hrs, Hnum. rewrite Hrs.
  assert (forall (i : nat) r,
            rs !! i = Some r -> Version2.ir_iteration r = Z.of_nat i + 1)
    as Hn.
  { intros i r Hr. rewrite (Hnum i r Hr). lia. }
  split; [exact Hn|]. intros i r Hr Hgt.
  pose proof (Hn i r Hr) as Hi.
  destruct i as [|i]; [lia|].
  destruct (lookup_lt_is_Some_2 rs i) as (previous & Hp).
  { apply lookup_lt_Some in Hr. lia. }
  exists previous.
  replace (Z.to_nat (Version2.ir_iteration r - 2)) with i by lia.
  replace (S i - 1)%nat with i by lia.
  split; [exact Hp|]. split; [exact Hp|].
  rewrite (Hn i previous Hp). lia.
Qed.

End Version2Runs.

(** ** The command line program (main.py) and the pre-check of app.py *)

Section Program.

Import World.

Variable re_findall : string -> bool -> string -> list string.
Variable ast_parse : string -> res Ast.node.
Variable json_loads : string -> res json.
Variable pytest : nat -> gmap string string -> process.
Variable llm_generator : nat -> Graph.generator_prompt -> string.
Variable llm_critic : nat -> Graph.critic_prompt -> string.
Variable llm_reporter : nat -> Graph.reporter_prompt -> string.

Abbreviation main :=
  (Main.main re_findall ast_parse json_loads pytest llm_generator llm_critic
     llm_reporter).
Abbreviation main_graph :=
  (Graph.main_graph re_findall ast_parse json_loads pytest llm_generator
     llm_critic llm_reporter).

(** When the README or the code file is not there, [main] exits with
    status 1 before the graph is invoked: no service is called and no
    file is written, whatever the other arguments are. *)
Theorem main_exits_on_missing_file (fuel : nat) (args : Main.arguments)
    (w : world) :
  FileHandler.read_file (Main.readme args) w = None
  \/ FileHandler.read_file (Main.code args) w = None ->
  main fuel args w = Some (Main.SystemExit 1 w).
Proof.
  intros [H | H]; unfold Main.main; rewrite H; [done|].
  by destruct (FileHandler.read_file (Main.readme args) w).
Qed.

(** When both files are there, [main] ends once the graph has ended, and
    never by [sys.exit].  If the graph raises, so does [main].  If the
    graph returns, [main] writes one file on top of what the graph left:
    [test_final_generated.py] when the final status is [success] and
    [test_final_failed.py] otherwise, and what it writes is the cleaned
    reply to the last call of the generator model. *)
Theorem main_saves_last_generation (fuel : nat) (args : Main.arguments)
    (w : world) (readme_content user_functions : string) :
  FileHandler.read_file (Main.readme args) w = Some readme_content ->
  FileHandler.read_file (Main.code args) w = Some user_functions ->
  (Z.to_nat (Main.max_iterations args) <= fuel)%nat -> (1 <= fuel)%nat ->
  let run :=
    main_graph fuel
      (Graph.initial_state readme_content user_functions
         (Main.max_iterations args)) w in
  exists ending,
    main fuel args w = Some ending
    /\ match ending with
       | Main.SystemExit _ _ => False
       | Main.Uncaught e => run = Some (Raise e)
       | Main.Returned w' =>
           exists final w1 prompt,
             run = Some (Ok (final, w1))
             /\ (generator_calls w < generator_calls w1)%nat
             /\ w' =
                  write_file
                    (if eq_str (Graph.status final) "success"
                     then Main.generated_path else Main.failed_path)
                    (Parser.extract_code
                       (llm_generator (generator_calls w1 - 1)%nat prompt))
                    w1
       end.
Proof.
  intros Hr Hc Hfuel Hone run. unfold Main.main. rewrite Hr, Hc.
  destruct (main_graph_effects re_findall ast_parse json_loads pytest
              llm_generator llm_critic llm_reporter readme_content
              user_functions (Main.max_iterations args) w fuel Hfuel Hone)
    as (res & Hrun & Hres).
  fold run in Hrun |- *. rewrite Hrun.
  destruct res as [[final w1]|e]; [|by eexists].
  destruct (Hres final w1 eq_refl)
    as (k & [Hk1 _ _ [Hg _ _ _ _] _ (prompt & Hcode) _]).
  assert (generator_calls w + k - 1 = generator_calls w1 - 1)%nat as Hn
    by lia.
  rewrite Hn in Hcode.
  destruct (eq_str (Graph.status final) "success") eqn:Hs;
    eexists; (split; [reflexivity|]); exists final, w1, prompt;
    (split; [done|]); (split; [lia|]);
    unfold FileHandler.write_file; by rewrite Hs, Hcode.
Qed.

(** The pre-check of app.py and the detector node of nodes.py agree: the
    pre-check stops exactly when the detector will find no function, and
    otherwise it announces the names and the framework that the detector
    will store. *)
Theorem precheck_agrees_with_detector (readme user : string) (max_iter : Z) :
  let st :=
    Graph.function_detector_node re_findall ast_parse
      (Graph.initial_state readme user max_iter) in
  match App.precheck re_findall ast_parse readme user with
  | None => Graph.detected_functions st = [] /\ Graph.num_functions st = 0
  | Some (names, tag) =>
      names <> []
      /\ Graph.detected_functions st = names
      /\ Graph.num_functions st = Z.of_nat (length names)
      /\ Graph.framework st = tag
  end.
Proof.
  intros st.
  destruct (detector_fields re_findall ast_parse
              (Graph.initial_state readme user max_iter)) as (Hd & Hn & Hf).
  fold st in Hd, Hn, Hf. cbn in Hd, Hn, Hf.
  unfold App.precheck.
  destruct (Parser.extract_functions_from_readme re_findall readme)
    as [|r rs];
    [destruct (Parser.extract_functions_from_python_file ast_parse user)
       as [|c cs]|];
    rewrite Hn, Hd; repeat split; done.
Qed.

End Program.

(** ** Runs in a world where every test run fails *)

Lemma failing_graph_run (w : World.world) :
  exists final w',
    Graph.main_graph no_match no_parse loads_known failing_run prose prose
      prose 2 (Graph.initial_state "" "" 2) w = Some (Ok (final, w')).
Proof.
  destruct (graph_budget_termination no_match no_parse loads_known
              failing_run prose prose prose "" "" 2 w 2)
    as (final & w' & H & _);
    [lia | cbn; lia | apply always_verdicts, failing_world_needs_fix |].
  by exists final, w'.
Qed.

Lemma failing_version2_run (w : World.world) :
  exists final w',
    Version2.app no_match loads_known failing_run prose prose prose 2
      (Version2.initial_state "" 2) w = Some (Ok (final, w')).
Proof.
  destruct (version2_budget_termination no_match loads_known failing_run
              prose prose prose "" 2 w 2)
    as (final & w' & H & _);
    [lia | cbn; lia | apply always_verdicts2, failing_world_test_error |].
  by exists final, w'.
Qed.

Lemma graph_run_is_bounded_witness :
  (Z.to_nat 2 <= 2)%nat /\ (1 <= 2)%nat
  /\ exists final w',
       Graph.main_graph no_match no_parse loads_known failing_run prose
         prose prose 2 (Graph.initial_state "" "" 2) World.empty_world
       = Some (Ok (final, w'))
       /\ exists k : nat,
            (1 <= k)%nat /\ Z.of_nat k <= Z.max 1 2
            /\ World.generator_calls w' = (0 + k)%nat
            /\ World.pytest_runs w' = (0 + k)%nat
            /\ (0 <= World.critic_calls w' <= 0 + k)%nat
            /\ World.reporter_calls w' = (0 + 1)%nat.
Proof.
  split; [cbn; lia|]. split; [lia|].
  destruct (failing_graph_run World.empty_world) as (final & w' & Hrun).
  exists final, w'. split; [exact Hrun|].
  destruct (graph_run_is_bounded no_match no_parse loads_known failing_run
              prose prose prose "" "" 2 World.empty_world 2)
    as (res & Hres & Hk); [cbn; lia | lia |].
  rewrite Hrun in Hres. injection Hres as <-.
  exact (Hk final w' eq_refl).
Defined.

Lemma graph_records_are_numbered_witness :
  (Z.to_nat 2 <= 2)%nat /\ (1 <= 2)%nat
  /\ exists final w',
       Graph.main_graph no_match no_parse loads_known failing_run prose
         prose prose 2 (Graph.initial_state "" "" 2) World.empty_world
       = Some (Ok (final, w'))
       /\ World.pytest_runs w'
          = (0 + length (Graph.iteration_results final))%nat
       /\ forall (i : nat) r,
            Graph.iteration_results final !! i = Some r ->
            Graph.ir_iteration r = Z.of_nat i + 1.
Proof.
  split; [cbn; lia|]. split; [lia|].
  destruct (failing_graph_run World.empty_world) as (final & w' & Hrun).
  exists final, w'. split; [exact Hrun|].
  destruct (graph_records_are_numbered no_match no_parse loads_known
              failing_run prose prose prose "" "" 2 World.empty_world 2)
    as (res & Hres & Hk); [cbn; lia | lia |].
  rewrite Hrun in Hres. injection Hres as <-.
  exact (Hk final w' eq_refl).
Defined.

Lemma graph_run_keeps_inputs_witness :
  (Z.to_nat 2 <= 2)%nat /\ (1 <= 2)%nat
  /\ exists final w',
       Graph.main_graph no_match no_parse loads_known failing_run prose
         prose prose 2 (Graph.initial_state "" "" 2) World.empty_world
       = Some (Ok (final, w'))
       /\ Graph.readme_content final = ""
       /\ Graph.user_functions final = ""
       /\ Graph.max_iterations final = 2
       /\ Graph.framework final = "generic"
       /\ Graph.detected_functions final = []
       /\ Graph.num_functions final = 0.
Proof.
  split; [cbn; lia|]. split; [lia|].
  destruct (failing_graph_run World.empty_world) as (final & w' & Hrun).
  exists final, w'. split; [exact Hrun|].
  destruct (graph_run_keeps_inputs no_match no_parse loads_known
              failing_run prose prose prose "" "" 2 World.empty_world 2)
    as (res & Hres & Hk); [cbn; lia | lia |].
  rewrite Hrun in Hres. injection Hres as <-.
  destruct (Hk final w' eq_refl) as (H1 & H2 & H3 & H4 & H5 & H6).
  rewrite H6, H5. repeat split; done.
Defined.

Lemma version2_run_is_bounded_witness :
  (Z.to_nat 2 <= 2)%nat /\ (1 <= 2)%nat
  /\ exists final w',
       Version2.app no_match loads_known failing_run prose prose prose 2
         (Version2.initial_state "" 2) World.empty_world
       = Some (Ok (final, w'))
       /\ exists k : nat,
            (1 <= k)%nat /\ Z.of_nat k <= Z.max 1 2
            /\ World.generator_calls w' = (0 + k)%nat
            /\ World.pytest_runs w' = (0 + k)%nat
            /\ (0 <= World.critic_calls w' <= 0 + k)%nat
            /\ World.reporter_calls w' = (0 + 1)%nat.
Proof.
  split; [cbn; lia|]. split; [lia|].
  destruct (failing_version2_run World.empty_world) as (final & w' & Hrun).
  exists final, w'. split; [exact Hrun|].
  destruct (version2_run_is_bounded no_match loads_known failing_run
              prose prose prose "" 2 World.empty_world 2)
    as (res & Hres & Hk); [cbn; lia | lia |].
  rewrite Hrun in Hres. injection Hres as <-.
  exact (Hk final w' eq_refl).
Defined.

Lemma version2_records_are_numbered_witness :
  (Z.to_nat 2 <= 2)%nat /\ (1 <= 2)%nat
  /\ exists final w',
       Version2.app no_match loads_known failing_run prose prose prose 2
         (Version2.initial_state "" 2) World.empty_world
       = Some (Ok (final, w'))
       /\ (forall (i : nat) r,
             Version2.iteration_results final !! i = Some r ->
             Version2.ir_iteration r = Z.of_nat i + 1)
       /\ (forall (i : nat) r,
             Version2.iteration_results final !! i = Some r ->
             1 < Version2.ir_iteration r ->
             exists previous,
               Version2.iteration_results final
                 !! Z.to_nat (Version2.ir_iteration r - 2) = Some previous
               /\ Version2.iteration_results final !! (i - 1)%nat
                  = Some previous
               /\ Version2.ir_iteration previous
                  = Version2.ir_iteration r - 1).
Proof.
  split; [cbn; lia|]. split; [lia|].
  destruct (failing_version2_run World.empty_world) as (final & w' & Hrun).
  exists final, w'. split; [exact Hrun|].
  destruct (version2_records_are_numbered no_match loads_known failing_run
              prose prose prose "" 2 World.empty_world 2)
    as (res & Hres & Hk); [cbn; lia | lia |].
  rewrite Hrun in Hres. injection Hres as <-.
  exact (Hk final w' eq_refl).
Defined.

(** A working directory with the two input files of main.py. *)
Definition two_files : World.world :=
  World.write_file "README.md" ""
    (World.write_file "functions.py" "" World.empty_world).

Definition command_line : Main.arguments :=
  {| Main.readme := "README.md"; Main.code := "functions.py";
     Main.max_iterations := 2 |}.

Lemma main_exits_on_missing_file_witness :
  (FileHandler.read_file (Main.readme command_line) World.empty_world = None
   \/ FileHandler.read_file (Main.code command_line) World.empty_world = None)
  /\ Main.main no_match no_parse loads_known failing_run prose prose prose 0
       command_line World.empty_world
     = Some (Main.SystemExit 1 World.empty_world).
Proof.
  split; [by left|].
  apply (main_exits_on_missing_file no_match no_parse loads_known
           failing_run prose prose prose 0 command_line World.empty_world).
  by left.
Defined.

Lemma main_saves_last_generation_witness :
  FileHandler.read_file (Main.readme command_line) two_files = Some ""
  /\ FileHandler.read_file (Main.code command_line) two_files = Some ""
  /\ (Z.to_nat (Main.max_iterations command_line) <= 2)%nat
  /\ (1 <= 2)%nat
  /\ exists w' final w1 (prompt : Graph.generator_prompt),
       Main.main no_match no_parse loads_known failing_run prose prose prose
         2 command_line two_files = Some (Main.Returned w')
       /\ Graph.main_graph no_match no_parse loads_known failing_run prose
            prose prose 2 (Graph.initial_state "" "" 2) two_files
          = Some (Ok (final, w1))
       /\ w' =
            World.write_file
              (if eq_str (Graph.status final) "success"
               then Main.generated_path else Main.failed_path)
              (Parser.extract_code
                 (prose (World.generator_calls w1 - 1)%nat prompt))
              w1.
Proof.
  split; [reflexivity|]. split; [reflexivity|].
  split; [cbn; lia|]. split; [lia|].
  destruct (failing_graph_run two_files) as (final & w1 & Hrun).
  destruct (main_saves_last_generation no_match no_parse loads_known
              failing_run prose prose prose 2 command_line two_files "" ""
              eq_refl eq_refl) as (ending & Hmain & Hend);
    [cbn; lia | lia |].
  destruct ending as [s w0 | w' | e]; [destruct Hend | | ].
  - destruct Hend as (final' & w1' & prompt & Hrun' & _ & Hw).
    exists w', final', w1', prompt.
    split; [exact Hmain|]. split; [exact Hrun' | exact Hw].
  - assert (Some (Ok (final, w1))
            = Some (@Raise (Graph.GraphState * World.world) e)) as Habs
      by (rewrite <- Hrun; exact Hend).
    discriminate Habs.
Defined.

(** ** The test run and what the nodes make of it *)

Section TestRun.

Import World.

Variable json_loads : string -> res json.
Variable pytest : nat -> gmap string string -> process.
Variable llm_critic2 : nat -> Version2.critic_prompt -> string.

(** A report that does not decode hides the run in nodes.py and in
    Version2.py: the failure of [json.load] is caught with the failures
    of the subprocess, and the adapter returns the code -1, no report,
    no output and the message of the error, whatever the exit code and
    the two streams of the test run were.  Version1.py keeps the exit
    flag and the streams and only drops the report. *)
Theorem unreadable_report_hides_the_run
    (test_file : string) (w : world) (content : string) (e : exn)
    (rc : Z) (out err : string) :
  (forall k fs,
     pytest k fs = {| proc_outcome := Exited rc out err;
                      proc_report := Some content |}) ->
  json_loads content = Raise e ->
  fst (Graph.run_pytest_json json_loads pytest test_file w)
    = (-1, JNull, "", exn_str e)
  /\ fst (Version2.run_pytest_json json_loads pytest test_file w)
     = (-1, JNull, "", exn_str e)
  /\ fst (Version1.run_pytest_json json_loads pytest test_file w)
     = Ok (rc =? 0, JNull, out, err).
Proof.
  intros Hrun He. split; [|split].
  - unfold Graph.run_pytest_json. fold (cleared w). rewrite Hrun.
    cbn [proc_outcome]. rewrite after_process_report. cbn [proc_report].
    by rewrite He.
  - unfold Version2.run_pytest_json. rewrite Hrun. cbn [proc_outcome].
    rewrite after_process_report. cbn [proc_report]. by rewrite He.
  - unfold Version1.run_pytest_json. rewrite Hrun. cbn [proc_outcome].
    rewrite after_process_report. cbn [proc_report]. by rewrite He.
Qed.

(** The execution node of nodes.py starts the test run in a directory
    where the test file holds the combined code of the state and where
    there is no report file: two test runners that behave alike on such
    directories cannot be told apart by the node. *)
Theorem execution_runs_on_fresh_files
    (pytest' : nat -> gmap string string -> process)
    (st : Graph.GraphState) (w : world) :
  (forall k fs,
     fs !! Graph.test_file_path = Some (Graph.combined_code st) ->
     fs !! report_path = None ->
     pytest k fs = pytest' k fs) ->
  Graph.execution_node json_loads pytest st w
  = Graph.execution_node json_loads pytest' st w.
Proof.
  intros Hsame. unfold Graph.execution_node, Graph.run_pytest_json.
  set (w1 := write_file Graph.test_file_path (Graph.combined_code st) w).
  fold (cleared w1).
  rewrite (Hsame (pytest_runs (cleared w1)) (files (cleared w1)));
    [reflexivity | | apply cleared_no_report].
  unfold cleared, exists_file. case_bool_decide.
  - cbn. rewrite lookup_delete_ne; [|done]. apply lookup_insert_eq.
  - apply lookup_insert_eq.
Qed.

(** In Version2.py a cycle can only raise in the execution node, on a
    report of the wrong shape.  Once the execution node has returned, the
    critic returns too, whatever the model replies: every failure to find
    or to decode a verdict is caught, and a text that starts with a brace
    decodes to an object if it decodes at all. *)
Theorem version2_critic_never_raises
    (st st1 : Version2.AgentState) (w w1 : world) :
  (forall text v, json_loads text = Ok v -> startswith "{" text = true ->
                  is_dict v = true) ->
  Version2.execution_node json_loads pytest st w = Ok (st1, w1) ->
  exists st2 w2,
    Version2.critic_node json_loads llm_critic2 st1 w1 = Ok (st2, w2).
Proof.
  intros Hobj. unfold Version2.execution_node.
  destruct (Version2.run_pytest_json _ _ _ _) as [[[[rc rep] out] err] w2].
  intros H.
  apply bind_ok in H as (summary & Hs & H).
  apply bind_ok in H as (c & Hc & H). apply bind_ok in H as (p & Hp & H).
  apply bind_ok in H as (f & Hf & H). apply bind_ok in H as (e & He & H).
  injection H as <- <-.
  unfold Version2.critic_node.
  cbn [Version2.report Version2.set_iteration_results Version2.log
       Version2.set_history Version2.set_pytest_stderr
       Version2.set_pytest_output Version2.set_report
       Version2.set_return_code].
  assert (dict_get (if truthy rep then rep else JObj []) "summary" (JObj [])
          = Ok summary) as ->.
  { destruct (truthy rep); [exact Hs|]. by injection Hs as <-. }
  cbn [bind]. rewrite Hc, Hp, Hf, He. cbn [bind].
  destruct (_ && _); [by eexists _, _|].
  match goal with
  | |- context [Version2.critic_verdict json_loads ?reply ?s] =>
      destruct (version2_verdict_total json_loads reply s Hobj) as (s2 & ->)
  end.
  by eexists _, _.
Qed.

End TestRun.

(** A reply of the test runner that is not JSON. *)
Definition broken_run (k : nat) (fs : gmap string string) : World.process :=
  {| World.proc_outcome := World.Exited 0 "1 passed" "";
     World.proc_report := Some "{" |}.

Lemma unreadable_report_hides_the_run_witness :
  (forall k fs,
     broken_run k fs = {| World.proc_outcome := World.Exited 0 "1 passed" "";
                          World.proc_report := Some "{" |})
  /\ never_json "{" = Raise (JSONDecodeError "Expecting value")
  /\ fst (Graph.run_pytest_json never_json broken_run "test_combined.py"
            World.empty_world)
     = (-1, JNull, "", "Expecting value")
  /\ fst (Version2.run_pytest_json never_json broken_run "test_generated.py"
            World.empty_world)
     = (-1, JNull, "", "Expecting value")
  /\ fst (Version1.run_pytest_json never_json broken_run "test_generated.py"
            World.empty_world)
     = Ok (true, JNull, "1 passed", "").
Proof.
  split; [reflexivity|]. split; [reflexivity|].
  destruct (unreadable_report_hides_the_run never_json broken_run
              "test_combined.py" World.empty_world "{"
              (JSONDecodeError "Expecting value") 0 "1 passed" ""
              (fun _ _ => eq_refl) eq_refl) as (H1 & _).
  destruct (unreadable_report_hides_the_run never_json broken_run
              "test_generated.py" World.empty_world "{"
              (JSONDecodeError "Expecting value") 0 "1 passed" ""
              (fun _ _ => eq_refl) eq_refl) as (_ & H2 & H3).
  split; [exact H1|]. split; [exact H2 | exact H3].
Defined.

(** A test runner that fails the tests on the directories that the
    execution node of nodes.py prepares for the state [st], and writes a
    broken report on any other. *)
Definition picky_run (st : Graph.GraphState) (k : nat)
    (fs : gmap string string) : World.process :=
  match fs !! Graph.test_file_path, fs !! World.report_path with
  | Some text, None =>
      if String.eqb text (Graph.combined_code st) then failing_run k fs
      else broken_run k fs
  | _, _ => broken_run k fs
  end.

Lemma execution_runs_on_fresh_files_witness :
  let st := Graph.initial_state "" "" 2 in
  (forall k fs,
     fs !! Graph.test_file_path = Some (Graph.combined_code st) ->
     fs !! World.report_path = None ->
     failing_run k fs = picky_run st k fs)
  /\ Graph.execution_node loads_known failing_run st World.empty_world
     = Graph.execution_node loads_known (picky_run st) st World.empty_world.
Proof.
  intros st.
  assert (forall k fs,
            fs !! Graph.test_file_path = Some (Graph.combined_code st) ->
            fs !! World.report_path = None ->
            failing_run k fs = picky_run st k fs) as Hsame.
  { intros k fs Ht Hr. unfold picky_run. rewrite Ht, Hr.
    by rewrite String.eqb_refl. }
  split; [exact Hsame|].
  exact (execution_runs_on_fresh_files loads_known failing_run
           (picky_run st) st World.empty_world Hsame).
Defined.

Lemma loads_known_objects (text : string) (v : json) :
  loads_known text = Ok v -> startswith "{" text = true -> is_dict v = true.
Proof.
  unfold loads_known. intros H _.
  destruct (String.eqb text failing_report_text); [by injection H as <-|].
  destruct (String.eqb text needs_fix_text); [by injection H as <-|].
  discriminate.
Qed.

Lemma version2_critic_never_raises_witness :
  (forall text v, loads_known text = Ok v -> startswith "{" text = true ->
                  is_dict v = true)
  /\ exists st1 w1,
       Version2.execution_node loads_known failing_run
         (Version2.initial_state "" 2) World.empty_world = Ok (st1, w1)
       /\ exists st2 w2,
            Version2.critic_node loads_known prose st1 w1 = Ok (st2, w2).
Proof.
  split; [exact loads_known_objects|].
  eexists _, _. split; [reflexivity|].
  apply (version2_critic_never_raises loads_known failing_run prose
           (Version2.initial_state "" 2) _ World.empty_world _
           loads_known_objects).
  reflexivity.
Defined.

(** ** The names that the detector works with *)

Section Names.

Import Parser.

(** What the set of the names seen so far is once the loop has read a
    list. *)
Fixpoint seen_after (functions : list string) (seen : gset string)
  : gset string :=
  match functions with
  | [] => seen
  | func :: rest =>
      if bool_decide (func ∉ seen) && negb (excluded func)
      then seen_after rest ({[func]} ∪ seen)
      else seen_after rest seen
  end.

Lemma unique_loop_step (func : string) (rest : list string)
    (seen : gset string) (unique : list string) :
  unique_loop (func :: rest) seen unique
  = if bool_decide (func ∉ seen) && negb (excluded func)
    then unique_loop rest ({[func]} ∪ seen) (unique ++ [func])
    else unique_loop rest seen unique.
Proof.
  cbn [unique_loop]. unfold excluded.
  destruct (bool_decide (func ∉ seen)); cbn [andb]; [|done].
  by destruct (startswith "_" func), (elem (lower func) stopwords).
Qed.

Lemma unique_loop_acc (functions : list string) :
  forall seen unique,
    unique_loop functions seen unique
    = unique ++ unique_loop functions seen [].
Proof.
  induction functions as [|func rest IH]; intros seen unique.
  - cbn. by rewrite app_nil_r.
  - rewrite !unique_loop_step. destruct (_ && _); [|apply IH].
    rewrite (IH _ (unique ++ [func])), (IH _ ([] ++ [func])).
    by rewrite <- app_assoc.
Qed.

Lemma unique_loop_app (l1 l2 : list string) :
  forall seen unique,
    unique_loop (l1 ++ l2) seen unique
    = unique_loop l1 seen unique ++ unique_loop l2 (seen_after l1 seen) [].
Proof.
  induction l1 as [|func rest IH]; intros seen unique.
  - cbn [app seen_after unique_loop]. apply unique_loop_acc.
  - rewrite <- app_comm_cons, !unique_loop_step. cbn [seen_after].
    destruct (_ && _); apply IH.
Qed.

Lemma unique_loop_elem (functions : list string) :
  forall seen unique x,
    x ∈ unique_loop functions seen unique
    <-> x ∈ unique
        \/ (x ∈ functions /\ (x ∉ seen) /\ excluded x = false).
Proof.
  induction functions as [|func rest IH]; intros seen unique x.
  - cbn. rewrite elem_of_nil. tauto.
  - rewrite unique_loop_step, elem_of_cons.
    destruct (bool_decide (func ∉ seen)) eqn:Hfresh; cbn [andb].
    + apply bool_decide_eq_true in Hfresh.
      destruct (excluded func) eqn:Hex; cbn [negb]; rewrite IH.
      * split; [tauto|]. intros [H | ([-> | H] & Hs & He)]; [tauto | | tauto].
        congruence.
      * rewrite elem_of_app, list_elem_of_singleton, elem_of_union,
          elem_of_singleton.
        destruct (decide (x = func)) as [-> | Hne]; tauto.
    + apply bool_decide_eq_false in Hfresh. rewrite IH.
      split; [tauto|]. intros [H | ([-> | H] & Hs & He)]; tauto.
Qed.

Lemma unique_loop_sublist (functions : list string) :
  forall seen, unique_loop functions seen [] `sublist_of` functions.
Proof.
  induction functions as [|func rest IH]; intros seen.
  - cbn. constructor.
  - rewrite unique_loop_step. destruct (_ && _).
    + rewrite unique_loop_acc. cbn [app]. apply sublist_skip, IH.
    + apply sublist_cons, IH.
Qed.

(** The names drawn from the README are captures of the patterns, in the
    order in which the patterns captured them, and none of them is a
    stopword in any letter case.  Below the cap nothing is lost: when
    fewer than 20 names are returned (15 in Version2.py), every capture
    that does not start with an underscore and is not a stopword is
    among them. *)
Theorem readme_names_are_the_captures
    (re_findall : string -> bool -> string -> list string)
    (readme : string) :
  let names := extract_functions_from_readme re_findall readme in
  let captures := readme_matches re_findall readme in
  let names2 := Version2.extract_functions_from_readme re_findall readme in
  let captures2 := Version2.readme_matches re_findall readme in
  (names `sublist_of` captures
   /\ (forall x, x ∈ names -> lower x ∉ stopwords)
   /\ ((length names < 20)%nat ->
       forall x, x ∈ captures -> startswith "_" x = false ->
                 lower x ∉ stopwords -> x ∈ names))
  /\ (names2 `sublist_of` captures2
      /\ (forall x, x ∈ names2 -> lower x ∉ stopwords)
      /\ ((length names2 < 15)%nat ->
          forall x, x ∈ captures2 -> startswith "_" x = false ->
                    lower x ∉ stopwords -> x ∈ names2)).
Proof.
  assert (forall (n : nat) (l : list string),
            take n (unique_loop l ∅ []) `sublist_of` l
            /\ (forall x, x ∈ take n (unique_loop l ∅ []) ->
                          lower x ∉ stopwords)
            /\ ((length (take n (unique_loop l ∅ [])) < n)%nat ->
                forall x, x ∈ l -> startswith "_" x = false ->
                          lower x ∉ stopwords ->
                          x ∈ take n (unique_loop l ∅ []))) as H.
  { intros n l. split; [|split].
    - etransitivity; [apply sublist_take | apply unique_loop_sublist].
    - intros x Hx%subseteq_take%unique_loop_elem.
      destruct Hx as [Hx | (_ & _ & Hex)]; [by apply elem_of_nil in Hx|].
      unfold excluded in Hex. apply orb_false_iff in Hex as [_ Hs].
      intros Hin%elem_true. congruence.
    - intros Hlen x Hx Hp Hs.
      rewrite take_ge by (rewrite length_take in Hlen; lia).
      apply unique_loop_elem. right. split; [done|].
      split; [apply not_elem_of_empty|].
      unfold excluded. rewrite Hp. cbn [orb].
      destruct (elem (lower x) stopwords) eqn:He; [|done].
      by apply elem_true in He. }
  intros names captures names2 captures2. split; apply H.
Qed.

(** For one README and the same captures of the seven patterns that the
    two files share, the names of Version2.py are the first names of
    parser.py: the eighth pattern of parser.py and its higher cap only
    add names at the end. *)
Theorem version2_names_start_parser_names
    (re_findall : string -> bool -> string -> list string)
    (readme : string) :
  Version2.extract_functions_from_readme re_findall readme
  `prefix_of` extract_functions_from_readme re_findall readme.
Proof.
  unfold Version2.extract_functions_from_readme, extract_functions_from_readme.
  assert (readme_matches re_findall readme
          = Version2.readme_matches re_findall readme
            ++ re_findall pattern8 false readme) as ->.
  { unfold readme_matches, Version2.readme_matches.
    by rewrite <- !app_assoc. }
  rewrite unique_loop_app.
  set (u := unique_loop (Version2.readme_matches re_findall readme) ∅ []).
  set (v := unique_loop _ (seen_after _ _) []).
  destruct (decide (15 <= length u)%nat) as [Hlong | Hshort].
  - exists (drop 15 (take 20 (u ++ v))).
    rewrite <- (take_drop 15 (take 20 (u ++ v))) at 1.
    f_equal. rewrite take_take. replace (15 `min` 20)%nat with 15%nat by lia.
    by rewrite take_app_le.
  - rewrite (take_ge u) by lia.
    exists (take (20 - length u) v). by rewrite take_app_ge by lia.
Qed.

(** *** Names read from the source file *)

(** [n] is a node of the tree [t]: the root, or a node of the tree of
    one of its children. *)
Inductive in_tree (n : Ast.node) : Ast.node -> Prop :=
| in_tree_root : in_tree n n
| in_tree_child (c t : Ast.node) :
    c ∈ Ast.children_of t -> in_tree n c -> in_tree n t.

(** [ast.walk] yields the nodes of the trees of its queue, and all of
    them when it has fuel for their sizes. *)
Lemma walk_queue_nodes (fuel : nat) :
  forall queue n,
    (Ast.sizes queue <= fuel)%nat ->
    (n ∈ Ast.walk_queue fuel queue <-> exists t, t ∈ queue /\ in_tree n t).
Proof.
  induction fuel as [|fuel IH]; intros queue n Hfuel.
  - destruct queue as [|t q].
    + cbn. split; [by intros H%elem_of_nil|].
      by intros (t & H%elem_of_nil & _).
    + cbn in Hfuel. pose proof (size_children t). lia.
  - destruct queue as [|t q]; cbn [Ast.walk_queue].
    + split; [by intros H%elem_of_nil|].
      by intros (t & H%elem_of_nil & _).
    + cbn in Hfuel. pose proof (size_children t) as Hsize.
      rewrite elem_of_cons, IH by (rewrite sizes_app; lia).
      split.
      * intros [-> | (c & Hc & Hn)].
        -- exists t. split; [apply list_elem_of_here | constructor].
        -- apply elem_of_app in Hc as [Hc | Hc].
           ++ exists c. split; [by apply list_elem_of_further | done].
           ++ exists t. split; [apply list_elem_of_here|].
              by apply (in_tree_child n c t).
      * intros (t' & Ht & Hn). apply elem_of_cons in Ht as [-> | Ht].
        -- inversion Hn as [|c t0 Hc Hnc]; subst; [by left|].
           right. exists c. split; [|done].
           apply elem_of_app. by right.
        -- right. exists t'. split; [|done]. apply elem_of_app. by left.
Qed.

Lemma walk_nodes (tree n : Ast.node) : n ∈ Ast.walk tree <-> in_tree n tree.
Proof.
  unfold Ast.walk. rewrite walk_queue_nodes by (cbn; lia).
  split.
  - by intros (t & ->%list_elem_of_singleton & H).
  - intros H. exists tree. split; [apply list_elem_of_here | done].
Qed.

(** The names read from the source file are names of function
    definitions of its syntax tree, at any depth (methods and nested
    functions count), none starts with an underscore, and there are at
    most 20 of them; below the cap every such definition is named.  A
    source that does not parse yields no name. *)
Theorem source_names_are_the_definitions
    (ast_parse : string -> res Ast.node) (python_code : string) :
  let names := extract_functions_from_python_file ast_parse python_code in
  (length names <= 20)%nat
  /\ (forall e, ast_parse python_code = Raise e -> names = [])
  /\ (forall tree,
        ast_parse python_code = Ok tree ->
        (forall x, x ∈ names ->
           startswith "_" x = false
           /\ exists lineno end_lineno children,
                in_tree (Ast.FunctionDef x lineno end_lineno children) tree)
        /\ ((length names < 20)%nat ->
            forall x lineno end_lineno children,
              in_tree (Ast.FunctionDef x lineno end_lineno children) tree ->
              startswith "_" x = false -> x ∈ names)).
Proof.
  intros names. subst names. unfold extract_functions_from_python_file.
  split; [|split].
  - destruct (ast_parse python_code); [rewrite length_take|cbn]; lia.
  - by intros e ->.
  - intros tree ->. split.
    + intros x Hx%subseteq_take%list_elem_of_omap.
      destruct Hx as (n & Hn%walk_nodes & Hname).
      destruct n as [name l e ch | |]; try discriminate.
      cbn in Hname. destruct (startswith "_" name) eqn:Hp; [discriminate|].
      injection Hname as <-. split; [done|]. by exists l, e, ch.
    + intros Hlen x l e ch Hin Hp.
      rewrite take_ge by (rewrite length_take in Hlen; lia).
      apply list_elem_of_omap. exists (Ast.FunctionDef x l e ch).
      split; [by apply walk_nodes|]. cbn. by rewrite Hp.
Qed.

End Names.

(** ** What the extracted code never holds *)

Section Fences.

(** No fence marker occurs in the text. *)
Definition fence_free (s : string) : Prop := find Re.fence_text s = None.

(** The number of backquotes that the text starts with. *)
Fixpoint lead (s : string) : nat :=
  match s with
  | EmptyString => O
  | String c r => if Ascii.eqb "`" c then S (lead r) else O
  end.

Lemma fence_prefix_lead (s : string) :
  strip_prefix Re.fence_text s = None <-> (lead s < 3)%nat.
Proof.
  unfold strip_prefix, Re.fence_text.
  destruct s as [|c1 [|c2 [|c3 r]]]; cbn [prefix_by lead];
    repeat (destruct (Ascii.eqb "`" _)); split; (done || lia).
Qed.

Lemma fence_free_cons (c : ascii) (s : string) :
  strip_prefix Re.fence_text (String c s) = None -> fence_free s ->
  fence_free (String c s).
Proof.
  unfold fence_free, find, strip_prefix. intros Hp Hs.
  cbn [find_by]. by rewrite Hp, Hs.
Qed.

Lemma fence_free_suffix (t s : string) :
  fence_free s -> suffix_of t s -> fence_free t.
Proof. apply find_by_none_suffix. Qed.

Lemma fence_free_prefix (a b : string) : fence_free (a +:+ b) -> fence_free a.
Proof.
  unfold fence_free, find. intros H.
  destruct (find_by Ascii.eqb Re.fence_text a) as [[x y]|] eqn:Ha; [|done].
  destruct (find_by_sound _ _ _ _ _ Ha) as (m & -> & Hm).
  destruct (find_by_occurs Ascii.eqb Re.fence_text x m (y +:+ b) Hm)
    as [z Hz].
  rewrite !str_app_assoc in H. congruence.
Qed.

Lemma fence_free_middle (a b c : string) :
  fence_free (a +:+ b +:+ c) -> fence_free b.
Proof.
  intros H. apply (fence_free_prefix b c).
  apply (fence_free_suffix _ _ H). by exists a.
Qed.

Lemma rstrip_split (s : string) : exists ws, s = rstrip s +:+ ws.
Proof.
  induction s as [|c s [ws IH]]; [by exists ""|]. rewrite rstrip_cons.
  destruct (rstrip s) as [|c' r'].
  - destruct (isspace c).
    + by exists (String c s).
    + exists ws. cbn in IH. by rewrite IH.
  - exists ws. rewrite IH at 1. reflexivity.
Qed.

Lemma fence_free_strip (s : string) : fence_free s -> fence_free (strip s).
Proof.
  intros H. unfold strip.
  destruct (lstrip_split s) as (ws & Hl).
  destruct (rstrip_split (lstrip s)) as (ws' & Hr).
  apply (fence_free_middle ws (rstrip (lstrip s)) ws').
  by rewrite <- Hr, <- Hl.
Qed.

(** *** Deleting the matches of a pattern that does not look behind *)

Variable m : Re.matcher.
Hypothesis m_bol : forall b b' t, m b t = m b' t.

Lemma sub_bol (s : string) :
  forall k b b', Re.sub_from m b k s = Re.sub_from m b' k s.
Proof.
  induction s as [|c r IH]; intros k b b'; [done|]. cbn [Re.sub_from].
  destruct k as [|k]; [|done]. by rewrite (m_bol b b').
Qed.

Lemma sub_skip (u r : string) (b : bool) :
  Re.sub_from m b (String.length u) (u +:+ r) = Re.sub_from m b O r.
Proof.
  revert b. induction u as [|c u IH]; intros b; [done|].
  rewrite str_app_cons. cbn [String.length Re.sub_from].
  rewrite IH. apply sub_bol.
Qed.

Lemma sub_match (b : bool) (c : ascii) (u rest g : string) :
  m b (String c u +:+ rest) = Some (rest, g) ->
  Re.sub_from m b O (String c u +:+ rest) = Re.sub_from m b O rest.
Proof.
  intros H. rewrite str_app_cons in *. cbn [Re.sub_from]. rewrite H.
  unfold Re.consumed. cbn [String.length]. rewrite str_app_length.
  replace (S (String.length u + String.length rest) - String.length rest)%nat
    with (S (String.length u)) by lia.
  rewrite sub_skip. apply sub_bol.
Qed.

Lemma sub_miss (b : bool) (c : ascii) (r : string) :
  m b (String c r) = None ->
  Re.sub_from m b O (String c r)
  = String c (Re.sub_from m (Ascii.eqb c newline) O r).
Proof. intros H. cbn [Re.sub_from]. by rewrite H. Qed.

End Fences.

Section FenceFree.

Lemma fence_python_bol (b b' : bool) (t : string) :
  Re.fence_python b t = Re.fence_python b' t.
Proof. reflexivity. Qed.

Lemma fence_python_miss (b : bool) (s : string) :
  strip_prefix Re.fence_text s = None -> Re.fence_python b s = None.
Proof. intros H. unfold Re.fence_python. by rewrite H. Qed.

Lemma fence_python_hit (b : bool) (s rest0 : string) :
  strip_prefix Re.fence_text s = Some rest0 ->
  exists c u rest,
    s = String c u +:+ rest /\ Re.fence_python b s = Some (rest, "").
Proof.
  intros H. unfold Re.fence_python. rewrite H.
  destruct (prefix_by_split _ _ _ _ H) as (m & -> & _ & Hlen).
  destruct m as [|c m]; [discriminate|].
  destruct (ci_prefix "python" rest0) as [rest|] eqn:Hp.
  - destruct (prefix_by_split _ _ _ _ Hp) as (m' & -> & _ & _).
    exists c, (m +:+ m'), rest. by rewrite !str_app_cons, !str_app_assoc.
  - by exists c, m, rest0.
Qed.

(** Where the text starts with fewer than three backquotes, so does what
    is left of it, with as many. *)
Lemma sub_fence_python_lead (s : string) :
  forall b, (lead s < 3)%nat ->
            lead (Re.sub_from Re.fence_python b O s) = lead s.
Proof.
  induction s as [|c r IH]; intros b Hlead; [done|].
  rewrite (sub_miss Re.fence_python b c r)
    by (by apply fence_python_miss, fence_prefix_lead).
  cbn [lead] in *. destruct (Ascii.eqb "`" c); [|done].
  rewrite IH; [done | lia].
Qed.

Lemma sub_fence_python_free (n : nat) :
  forall s b, (String.length s <= n)%nat ->
              fence_free (Re.sub_from Re.fence_python b O s).
Proof.
  induction n as [|n IH]; intros s b Hn.
  - destruct s; [done | cbn in Hn; lia].
  - destruct s as [|c r]; [done|].
    destruct (strip_prefix Re.fence_text (String c r)) as [rest0|] eqn:Hp.
    + destruct (fence_python_hit b _ _ Hp) as (c' & u & rest & Hs & Hm).
      rewrite Hs in Hm |- *.
      rewrite (sub_match Re.fence_python fence_python_bol b c' u rest "" Hm).
      apply IH. apply (f_equal String.length) in Hs.
      rewrite str_app_cons in Hs. cbn [String.length] in Hs, Hn.
      rewrite str_app_length in Hs. lia.
    + rewrite (sub_miss Re.fence_python b c r)
        by (by apply fence_python_miss).
      apply fence_free_cons; [|apply IH; cbn in Hn; lia].
      apply fence_prefix_lead. apply fence_prefix_lead in Hp.
      cbn [lead] in *. destruct (Ascii.eqb "`" c); [|lia].
      rewrite sub_fence_python_lead; lia.
Qed.

Lemma clean_fence_free (raw : string) : fence_free (Parser.clean raw).
Proof.
  unfold Parser.clean. apply fence_free_strip.
  set (t := Re.sub Re.fence_python _).
  assert (fence_free t) as Ht.
  { subst t. unfold Re.sub. by apply (sub_fence_python_free _ _ _ (le_n _)). }
  unfold Re.sub. rewrite (sub_no_match Re.fence t); [exact Ht|].
  intros bol u Hu _. unfold Re.fence.
  by rewrite (fence_prefix_none t Ht u Hu).
Qed.

(** The code that [extract_code] of parser.py (and of Version2.py, which
    has the same text) returns holds no fence marker, whatever the reply
    of the model is: the first substitution leaves none behind, so that
    the second has nothing to delete, and trimming and cutting out the
    marker region add none.  This is the test code that the generator
    nodes store. *)
Theorem extract_code_has_no_fence (raw : string) :
  contains Re.fence_text (Parser.extract_code raw) = false
  /\ (forall llm st w,
        contains Re.fence_text
          (Graph.test_code (fst (Graph.test_generator_node llm st w)))
        = false)
  /\ (forall llm st w,
        contains Re.fence_text
          (Version2.test_code (fst (Version2.generator_node llm st w)))
        = false).
Proof.
  assert (forall raw, contains Re.fence_text (Parser.extract_code raw) = false)
    as H.
  { clear raw. intros raw. unfold contains.
    change (find Re.fence_text (Parser.extract_code raw))
      with (find_by Ascii.eqb Re.fence_text (Parser.extract_code raw)).
    assert (fence_free (Parser.extract_code raw)) as Hfree.
    { unfold Parser.extract_code.
      destruct (String.eqb raw ""); [done|].
      pose proof (clean_fence_free raw) as Hc.
      destruct (Re.search Re.marker (Parser.clean raw)) as [body|] eqn:Hm.
      - apply fence_free_strip.
        destruct (search_marker_sound _ _ Hm) as (pre & o & c & post & E & _).
        rewrite E in Hc.
        apply (fence_free_middle (pre +:+ o) body (c +:+ post)).
        by rewrite !str_app_assoc.
      - by apply fence_free_strip. }
    unfold fence_free, find in Hfree. by rewrite Hfree. }
  split; [apply H|]. split; intros llm st w; apply H.
Qed.

End FenceFree.

(** ** Trimming the generated file to [n] tests (Version1.py) *)

Section Findall.

(** Whether the position after the text [u] is the start of a line, when
    the position before it is one or not as [b] says. *)
Fixpoint end_bol (b : bool) (u : string) : bool :=
  match u with
  | EmptyString => b
  | String c r => end_bol (Ascii.eqb c newline) r
  end.

Lemma end_bol_app (b : bool) (u v : string) :
  end_bol b (u +:+ v) = end_bol (end_bol b u) v.
Proof. revert b. induction u as [|c u IH]; intros b; [done|]. apply IH. Qed.

Lemma end_bol_cons (b b' : bool) (c : ascii) (u : string) :
  end_bol b (String c u) = end_bol b' (String c u).
Proof. reflexivity. Qed.

Variable m : Re.matcher.

Lemma findall_skip (u r : string) (b : bool) :
  Re.findall_from m b (String.length u) (u +:+ r)
  = Re.findall_from m (end_bol b u) O r.
Proof.
  revert b. induction u as [|c u IH]; intros b.
  - cbn. by destruct r.
  - rewrite str_app_cons. cbn [String.length Re.findall_from end_bol].
    apply IH.
Qed.

Lemma findall_hit (b : bool) (c : ascii) (u rest g : string) :
  m b (String c u +:+ rest) = Some (rest, g) ->
  Re.findall_from m b O (String c u +:+ rest)
  = g :: Re.findall_from m (end_bol b (String c u)) O rest.
Proof.
  intros H. rewrite str_app_cons in *. cbn [Re.findall_from]. rewrite H.
  unfold Re.consumed. cbn [String.length]. rewrite str_app_length.
  replace (S (String.length u + String.length rest) - String.length rest
           - 1)%nat with (String.length u) by lia.
  by rewrite findall_skip.
Qed.

Lemma findall_miss (b : bool) (c : ascii) (r : string) :
  m b (String c r) = None ->
  Re.findall_from m b O (String c r)
  = Re.findall_from m (Ascii.eqb c newline) O r.
Proof. intros H. cbn [Re.findall_from]. by rewrite H. Qed.

Lemma findall_empty (b : bool) (k : nat) : Re.findall_from m b k "" = [].
Proof. reflexivity. Qed.

End Findall.

Section Trimming.

Import Version1.

(** *** White space *)

Definition all_space (s : string) : Prop := string_forall isspace s = true.

Lemma lstrip_spec (s : string) :
  exists ws, s = ws +:+ lstrip s /\ all_space ws.
Proof.
  induction s as [|c s (ws & IH & Hws)]; [by exists ""|]. cbn [lstrip].
  destruct (isspace c) eqn:Hc; [|by exists ""].
  exists (String c ws). rewrite str_app_cons, <- IH. split; [done|].
  unfold all_space. cbn. by rewrite Hc.
Qed.

Lemma lstrip_app (ws t : string) :
  all_space ws -> lstrip (ws +:+ t) = lstrip t.
Proof.
  unfold all_space. induction ws as [|c ws IH]; [done|]. intros H.
  rewrite str_app_cons. cbn [lstrip string_forall] in *.
  destruct (isspace c); [by apply IH | discriminate].
Qed.

Lemma lstrip_word (c : ascii) (t : string) :
  isspace c = false -> lstrip (String c t) = String c t.
Proof. intros H. cbn. by rewrite H. Qed.

(** *** The start of a test function *)

(** The texts that [\s*def\s+test_] matches. *)
Definition is_test_def (g : string) : Prop :=
  exists ws1 w ws2,
    g = ws1 +:+ "def" +:+ String w ws2 +:+ "test_"
    /\ all_space ws1 /\ isspace w = true /\ all_space ws2.

Lemma test_def_sound (b : bool) (s rest g : string) :
  test_def b s = Some (rest, g) ->
  b = true /\ s = g +:+ rest /\ is_test_def g.
Proof.
  unfold test_def. destruct b; [|discriminate]. intros H. split; [done|].
  destruct (lstrip_spec s) as (ws1 & Hs & Hws1).
  destruct (strip_prefix "def" (lstrip s)) as [rest1|] eqn:Hd;
    [|discriminate].
  destruct (prefix_by_split _ _ _ _ Hd) as (d & Hd' & Hm & _).
  apply matches_eq in Hm. subst d.
  destruct rest1 as [|w r1]; [discriminate|].
  destruct (isspace w) eqn:Hw; [|discriminate].
  destruct (lstrip_spec (String w r1)) as (ws2 & Hr1 & Hws2).
  destruct (strip_prefix "test_" (lstrip (String w r1))) as [rest'|] eqn:Ht;
    [|discriminate].
  destruct (prefix_by_split _ _ _ _ Ht) as (t & Ht' & Hm & _).
  apply matches_eq in Hm. subst t.
  injection H as -> <-.
  destruct ws2 as [|w' ws2].
  { rewrite str_app_nil_l in Hr1. rewrite <- Hr1 in Ht'.
    injection Ht' as -> _. discriminate. }
  rewrite str_app_cons in Hr1. injection Hr1 as <- Hr1.
  assert (s = (ws1 +:+ "def" +:+ String w ws2 +:+ "test_") +:+ rest)
    as Hsplit.
  { rewrite Hw in Hr1. cbn [lstrip] in Ht'. rewrite Hw in Ht'.
    rewrite Hs at 1. rewrite Hd', Hr1, Ht'.
    by repeat (rewrite str_app_assoc || rewrite str_app_cons). }
  assert (str_take (Re.consumed s rest) s
          = ws1 +:+ "def" +:+ String w ws2 +:+ "test_") as ->.
  { rewrite Hsplit at 1 2. unfold Re.consumed. rewrite str_app_length.
    replace (_ + _ - _)%nat
      with (String.length (ws1 +:+ "def" +:+ String w ws2 +:+ "test_"))
      by lia.
    generalize (ws1 +:+ "def" +:+ String w ws2 +:+ "test_").
    intros x. induction x as [|c x IH]; [by destruct rest|].
    rewrite str_app_cons. cbn. by rewrite IH. }
  split; [exact Hsplit|]. exists ws1, w, ws2.
  split; [done|]. split; [done|]. split; [done|].
  unfold all_space in *. cbn in Hws2. by rewrite Hw in Hws2.
Qed.

Lemma test_def_complete (g rest : string) :
  is_test_def g -> test_def true (g +:+ rest) = Some (rest, g).
Proof.
  intros (ws1 & w & ws2 & -> & Hws1 & Hw & Hws2). unfold test_def.
  rewrite !str_app_assoc, (lstrip_app ws1) by done.
  change (strip_prefix "def" (lstrip ("def" +:+ String w ws2 +:+ "test_"
                                      +:+ rest)))
    with (Some (String w ws2 +:+ "test_" +:+ rest)).
  rewrite str_app_cons, Hw, <- str_app_cons.
  rewrite (lstrip_app (String w ws2))
    by (unfold all_space in *; cbn; by rewrite Hw).
  change (strip_prefix "test_" (lstrip ("test_" +:+ rest)))
    with (Some rest).
  f_equal. f_equal.
  set (x := ws1 +:+ "def" +:+ String w ws2 +:+ "test_").
  replace (ws1 +:+ "def" +:+ String w ws2 +:+ "test_" +:+ rest)
    with (x +:+ rest) by (subst x; by rewrite !str_app_assoc).
  unfold Re.consumed. rewrite str_app_length.
  replace (_ + _ - _)%nat with (String.length x) by lia.
  clearbody x. induction x as [|c x IH]; [by destruct rest|].
  rewrite str_app_cons. cbn. by rewrite IH.
Qed.

Lemma is_test_def_nonempty (g : string) : is_test_def g -> g <> "".
Proof.
  intros (ws1 & w & ws2 & -> & _) H. apply (f_equal String.length) in H.
  rewrite !str_app_length in H. cbn in H. lia.
Qed.

Lemma is_test_def_end (b : bool) (g : string) :
  is_test_def g -> end_bol b g = false.
Proof.
  intros (ws1 & w & ws2 & -> & _).
  replace (ws1 +:+ "def" +:+ String w ws2 +:+ "test_")
    with ((ws1 +:+ "def" +:+ String w ws2) +:+ "test_")
    by (by rewrite !str_app_assoc).
  by rewrite end_bol_app.
Qed.

(** A match is a match whatever follows it; so where a longer text has
    none, a shorter one has none. *)
Lemma test_def_shorter (b : bool) (s z : string) :
  test_def b (s +:+ z) = None -> test_def b s = None.
Proof.
  intros H. destruct (test_def b s) as [[rest g]|] eqn:Hs; [|done].
  apply test_def_sound in Hs as (-> & -> & Hg).
  by rewrite str_app_assoc, (test_def_complete g (rest +:+ z) Hg) in H.
Qed.

Lemma test_piece_none (b : bool) (s : string) :
  test_def b s = None -> test_piece b s = None.
Proof. intros H. unfold test_piece. by rewrite H. Qed.

(** *** Stretches without the start of a test *)

(** No test starts inside [u] when [z] follows it. *)
Fixpoint quiet (b : bool) (u z : string) : Prop :=
  match u with
  | EmptyString => True
  | String c r =>
      test_def b (u +:+ z) = None /\ quiet (Ascii.eqb c newline) r z
  end.

Lemma quiet_shorter (u z z' : string) :
  forall b, quiet b u (z +:+ z') -> quiet b u z.
Proof.
  induction u as [|c u IH]; intros b; [done|]. cbn [quiet].
  intros [H Hq]. split; [|by apply IH].
  apply (test_def_shorter b _ z'). by rewrite str_app_assoc.
Qed.

Lemma quiet_findall (m : Re.matcher) (u z : string) :
  (forall b s, test_def b s = None -> m b s = None) ->
  forall b, quiet b u z ->
            Re.findall_from m b O (u +:+ z)
            = Re.findall_from m (end_bol b u) O z.
Proof.
  intros Hm. induction u as [|c u IH]; intros b; [done|].
  cbn [quiet end_bol]. intros [H Hq]. rewrite str_app_cons in *.
  rewrite findall_miss by (by apply Hm). by apply IH.
Qed.

(** The text at the start of which a test starts, or the empty text. *)
Definition starts (b : bool) (s : string) : Prop :=
  s = "" \/ (b = true /\ is_Some (test_def true s)).

Lemma quiet_lazy_body (u z : string) :
  forall b, quiet b u z -> starts (end_bol b u) z ->
            lazy_body b (u +:+ z) = z.
Proof.
  induction u as [|c u IH]; intros b.
  - intros _ [-> | [Hb [x Hx]]]; rewrite str_app_nil_l; cbn [end_bol] in *.
    + cbn [lazy_body]. by destruct (test_def b "").
    + subst b. destruct z; cbn [lazy_body]; by rewrite Hx.
  - cbn [quiet end_bol]. intros [H Hq] Hs. rewrite str_app_cons in *.
    cbn [lazy_body]. rewrite H. by apply IH.
Qed.

Lemma lazy_body_spec (s : string) :
  forall b, exists u,
    s = u +:+ lazy_body b s /\ quiet b u (lazy_body b s)
    /\ starts (end_bol b u) (lazy_body b s).
Proof.
  induction s as [|c s IH]; intros b.
  - exists "". cbn. destruct (test_def b ""); repeat split; by left.
  - cbn [lazy_body]. destruct (test_def b (String c s)) as [[rest g]|] eqn:H.
    + exists "". split; [done|]. split; [done|]. right.
      destruct (test_def_sound _ _ _ _ H) as (-> & _). by split.
    + destruct (IH (Ascii.eqb c newline)) as (u & Hu & Hq & Hs).
      exists (String c u). rewrite str_app_cons, <- Hu.
      split; [done|]. split; [|exact Hs]. cbn [quiet].
      rewrite str_app_cons, <- Hu. by split.
Qed.

Lemma search_span_spec (s : string) :
  forall b,
    match Re.search_span_from test_def b s with
    | Some (header, body) =>
        s = header +:+ body /\ quiet b header body
        /\ end_bol b header = true /\ is_Some (test_def true body)
    | None => quiet b s ""
    end.
Proof.
  induction s as [|c s IH]; intros b.
  - cbn. by destruct b.
  - cbn [Re.search_span_from].
    destruct (test_def b (String c s)) as [[rest g]|] eqn:H.
    + destruct (test_def_sound _ _ _ _ H) as (-> & _). by repeat split.
    + specialize (IH (Ascii.eqb c newline)).
      destruct (Re.search_span_from test_def (Ascii.eqb c newline) s)
        as [[header body]|].
      * destruct IH as (-> & Hq & Hb & Hs). rewrite str_app_cons.
        split; [done|]. split; [|by split]. cbn [quiet].
        by rewrite str_app_cons.
      * cbn [quiet]. by rewrite str_app_nil_r.
Qed.

(** *** The pieces *)

Lemma taken_prefix (x r : string) :
  str_take (Re.consumed (x +:+ r) r) (x +:+ r) = x.
Proof.
  unfold Re.consumed. rewrite str_app_length.
  replace (_ + _ - _)%nat with (String.length x) by lia.
  induction x as [|c x IH]; [by destruct r|].
  rewrite str_app_cons. cbn. by rewrite IH.
Qed.

Lemma join_empty_cons (x : string) (l : list string) :
  join "" (x :: l) = x +:+ join "" l.
Proof.
  destruct l; cbn [join]; [by rewrite str_app_nil_r|].
  by rewrite str_app_nil_l.
Qed.

Lemma join_empty_app (l k : list string) :
  join "" (l ++ k) = join "" l +:+ join "" k.
Proof.
  induction l as [|x l IH]; [done|].
  rewrite <- app_comm_cons, !join_empty_cons, IH.
  by rewrite str_app_assoc.
Qed.

(** [s] is cut into the pieces [ps]: each piece is the start of a test
    followed by a stretch in which no test starts. *)
Inductive tiled : string -> list string -> Prop :=
| tiled_nil : tiled "" []
| tiled_cons (g u s : string) (ps : list string) :
    is_test_def g -> quiet false u s -> starts (end_bol false u) s ->
    tiled s ps -> tiled (g +:+ u +:+ s) ((g +:+ u) :: ps).

Lemma pieces_tiled (n : nat) :
  forall s, (String.length s <= n)%nat -> starts true s ->
            tiled s (Re.findall_from test_piece true O s).
Proof.
  induction n as [|n IH]; intros s Hn Hs.
  - destruct s; [constructor | cbn in Hn; lia].
  - destruct Hs as [-> | [_ [[rest g] Hd]]]; [constructor|].
    destruct (test_def_sound _ _ _ _ Hd) as (_ & -> & Hg).
    destruct (lazy_body_spec rest false) as (u & Hu & Hq & Hst).
    remember (lazy_body false rest) as after eqn:Ha.
    assert (test_piece true (g +:+ rest) = Some (after, g +:+ u)) as Hp.
    { unfold test_piece. rewrite Hd, <- Ha. do 2 f_equal.
      rewrite Hu, <- str_app_assoc. apply taken_prefix. }
    clear Ha.
    pose proof (is_test_def_nonempty g Hg) as Hne.
    destruct g as [|c g']; [done|].
    rewrite Hu in Hp |- *. rewrite <- str_app_assoc in Hp |- *.
    rewrite str_app_cons in Hp |- *.
    rewrite (findall_hit test_piece true c (g' +:+ u) after _ Hp).
    rewrite <- str_app_cons, str_app_assoc.
    rewrite (end_bol_app true (String c g') u),
      (is_test_def_end true _ Hg).
    apply tiled_cons; [done | done | done |].
    destruct Hst as [-> | [Hb Hst]]; [constructor|].
    rewrite Hb. apply IH; [|by right].
    rewrite Hu in Hn. cbn [String.length] in Hn.
    rewrite !str_app_cons in Hn. cbn [String.length] in Hn.
    rewrite !str_app_length in Hn. lia.
Qed.

Lemma tiled_join (s : string) (ps : list string) :
  tiled s ps -> join "" ps = s.
Proof.
  induction 1 as [|g u s ps Hg Hq Hs Ht IH]; [done|].
  by rewrite join_empty_cons, IH, str_app_assoc.
Qed.

Lemma tiled_empty (ps : list string) : tiled "" ps -> ps = [].
Proof.
  inversion 1 as [|g u s ps' Hg Hq Hs Ht E]; [done|].
  pose proof (is_test_def_nonempty g Hg). by destruct g.
Qed.

Lemma tiled_starts (s : string) (ps : list string) :
  tiled s ps -> starts true s.
Proof.
  destruct 1 as [|g u s ps Hg Hq Hs Ht]; [by left|]. right.
  split; [done|]. by rewrite (test_def_complete g (u +:+ s) Hg).
Qed.

Lemma tiled_count (s : string) (ps : list string) :
  tiled s ps ->
  length (Re.findall_from test_def true O s) = length ps.
Proof.
  induction 1 as [|g u s ps Hg Hq Hs Ht IH]; [done|].
  pose proof (test_def_complete g (u +:+ s) Hg) as Hd.
  pose proof (is_test_def_nonempty g Hg) as Hne.
  pose proof (is_test_def_end true g Hg) as He.
  destruct g as [|c g']; [done|].
  rewrite (findall_hit test_def true c g' (u +:+ s) _ Hd), He.
  rewrite (quiet_findall test_def u s) by done.
  cbn [length]. f_equal.
  destruct Hs as [-> | [-> _]]; [|exact IH].
  by rewrite (tiled_empty _ Ht).
Qed.

Lemma tiled_take (s : string) (ps : list string) :
  tiled s ps -> forall k, tiled (join "" (take k ps)) (take k ps).
Proof.
  induction 1 as [|g u s ps Hg Hq Hs Ht IH]; intros k.
  - rewrite take_nil. constructor.
  - destruct k as [|k]; [constructor|]. cbn [take].
    rewrite join_empty_cons, str_app_assoc.
    assert (s = join "" (take k ps) +:+ join "" (drop k ps)) as Hcut.
    { by rewrite <- join_empty_app, take_drop, (tiled_join s ps Ht). }
    apply tiled_cons; [done | | | apply IH].
    + apply (quiet_shorter u _ (join "" (drop k ps))). by rewrite <- Hcut.
    + destruct (tiled_starts _ _ (IH k)) as [E | [_ Hst]]; [by left|].
      right. split; [|done].
      destruct Hs as [-> | [Hb _]]; [|done].
      apply tiled_empty in Ht. subst ps. rewrite take_nil in Hst.
      cbn in Hst. by destruct Hst.
Qed.

(** *** The trimmed file *)

(** The header, the pieces of the body and the number of pieces kept. *)
Lemma keep_at_most_n_tests_spec (code : string) (n : Z) :
  exists header (pieces : list string) (k : nat),
    code = header +:+ join "" pieces
    /\ keep_at_most_n_tests code n = header +:+ join "" (take k pieces)
    /\ k = Z.to_nat (clamp_index (Z.of_nat (length pieces)) n)
    /\ (forall j,
          length (Re.findall test_def (header +:+ join "" (take j pieces)))
          = length (take j pieces)).
Proof.
  unfold keep_at_most_n_tests, Re.search_span.
  pose proof (search_span_spec code true) as H.
  destruct (Re.search_span_from test_def true code) as [[header body]|].
  - destruct H as (-> & Hq & Hb & Hs).
    pose proof (pieces_tiled _ body (le_n _) (or_intror (conj eq_refl Hs)))
      as Ht.
    fold (Re.findall test_piece body) in Ht.
    set (pieces := Re.findall test_piece body) in *.
    exists header, pieces,
      (Z.to_nat (clamp_index (Z.of_nat (length pieces)) n)).
    split; [by rewrite (tiled_join _ _ Ht)|].
    split; [|split; [done|]].
    + unfold slice. do 3 f_equal.
      unfold clamp_index. cbn.
      replace (Z.to_nat (Z.min 0 (Z.of_nat (length pieces)))) with O by lia.
      by rewrite drop_0.
    + intros j. unfold Re.findall.
      assert (body = join "" (take j pieces) +:+ join "" (drop j pieces))
        as Hcut.
      { by rewrite <- join_empty_app, take_drop, (tiled_join _ _ Ht). }
      rewrite (quiet_findall test_def header (join "" (take j pieces)));
        [|done|apply (quiet_shorter _ _ (join "" (drop j pieces)));
               by rewrite <- Hcut].
      rewrite Hb. apply tiled_count, (tiled_take _ _ Ht).
  - exists code, [], O. cbn [join take length]. rewrite str_app_nil_r.
    split; [done|]. split; [done|].
    split; [unfold clamp_index; cbn [length]; destruct (n <? 0) eqn:E; lia|].
    intros j. rewrite take_nil. cbn [join length]. unfold Re.findall.
    by rewrite (quiet_findall test_def code "").
Qed.

(** Trimming only removes text at the end of the file, and it removes
    nothing when the file has no test or has at most [n] tests. *)
Theorem keep_at_most_n_tests_cuts_the_end (code : string) (n m : Z) :
  exists dropped,
    code = keep_at_most_n_tests code n +:+ dropped
    /\ (ensure_min_tests code m <= n -> keep_at_most_n_tests code n = code).
Proof.
  destruct (keep_at_most_n_tests_spec code n)
    as (header & pieces & k & Hcode & Hkeep & Hk & Hcount).
  exists (join "" (drop k pieces)). rewrite Hkeep. split.
  - by rewrite str_app_assoc, <- join_empty_app, take_drop.
  - unfold ensure_min_tests. intros Hn.
    specialize (Hcount (length pieces)). rewrite firstn_all in Hcount.
    rewrite <- Hcode in Hcount. rewrite Hcount in Hn.
    rewrite take_ge; [done|]. unfold clamp_index in Hk.
    destruct (n <? 0) eqn:E; lia.
Qed.

(** For [n >= 0] the trimmed file has [n] tests, or all the tests of the
    file when there are fewer: what [ensure_min_tests] counts after
    [keep_at_most_n_tests] is the smaller of [n] and what it counted
    before. *)
Theorem keep_at_most_n_tests_keeps_n (code : string) (n m m' : Z) :
  0 <= n ->
  ensure_min_tests (keep_at_most_n_tests code n) m
  = Z.min n (ensure_min_tests code m').
Proof.
  intros Hn.
  destruct (keep_at_most_n_tests_spec code n)
    as (header & pieces & k & Hcode & Hkeep & Hk & Hcount).
  unfold ensure_min_tests. rewrite Hkeep, (Hcount k).
  pose proof (Hcount (length pieces)) as Hall.
  rewrite firstn_all, <- Hcode in Hall. rewrite Hall, length_take.
  unfold clamp_index in Hk. destruct (n <? 0) eqn:E; lia.
Qed.

End Trimming.

(** A file with three tests. *)
Definition three_tests : string :=
  join nl ["import pytest"; ""; "def test_a():"; "    assert True"; "";
           "def test_b():"; "    assert True"; ""; "def test_c():";
           "    assert True"; ""].

Lemma keep_at_most_n_tests_keeps_n_witness :
  0 <= 2
  /\ Version1.ensure_min_tests (Version1.keep_at_most_n_tests three_tests 2) 2
     = Z.min 2 (Version1.ensure_min_tests three_tests 2).
Proof.
  split; [lia|].
  apply (keep_at_most_n_tests_keeps_n three_tests 2 2 2). lia.
Defined.

Example keep_two_of_three_tests :
  Version1.keep_at_most_n_tests three_tests 2
  = join nl ["import pytest"; ""; "def test_a():"; "    assert True"; "";
             "def test_b():"; "    assert True"; ""]
  /\ Version1.ensure_min_tests three_tests 0 = 3.
Proof. split; vm_compute; reflexivity. Qed.

(** ** The reply of the critic model in Version2.py *)

Section CriticSpan.

Variable json_loads : string -> res json.

Lemma find_brace (pre rest : string) :
  contains "{" pre = false ->
  find "{" (pre +:+ "{" +:+ rest) = Some (pre, rest).
Proof.
  unfold contains, find. induction pre as [|c pre IH]; intros H.
  - by destruct rest.
  - rewrite str_app_cons. cbn [find_by prefix_by] in *.
    destruct (Ascii.eqb "{" c); [discriminate|].
    destruct (find_by Ascii.eqb "{" pre) as [[? ?]|]; [discriminate|].
    by rewrite IH.
Qed.

Lemma no_last_brace (post : string) :
  contains "}" post = false -> Version2.upto_last_brace post = None.
Proof.
  unfold contains, find. induction post as [|c post IH]; [done|].
  cbn [find_by prefix_by Version2.upto_last_brace].
  rewrite (Ascii.eqb_sym c "}").
  destruct (Ascii.eqb "}" c); [discriminate|].
  destruct (find_by Ascii.eqb "}" post) as [[? ?]|]; [discriminate|].
  intros _. by rewrite IH.
Qed.

Lemma last_brace (body post : string) :
  contains "}" post = false ->
  Version2.upto_last_brace (body +:+ "}" +:+ post) = Some (body +:+ "}").
Proof.
  intros H. induction body as [|c body IH].
  - rewrite !str_app_nil_l. change ("}" +:+ post) with (String "}" post).
    cbn [Version2.upto_last_brace]. by rewrite (no_last_brace post H).
  - rewrite !(str_app_cons c body). cbn [Version2.upto_last_brace].
    by rewrite IH.
Qed.

(** The span that the critic decodes runs from the first opening brace
    of the reply to its last closing brace. *)
Lemma brace_span_first_to_last (pre body post : string) :
  contains "{" pre = false -> contains "}" post = false ->
  Version2.brace_span (pre +:+ "{" +:+ body +:+ "}" +:+ post)
  = Some ("{" +:+ body +:+ "}").
Proof.
  intros Hpre Hpost. unfold Version2.brace_span.
  rewrite (find_brace pre _ Hpre). cbv beta iota.
  by rewrite (last_brace body post Hpost).
Qed.

(** The critic of Version2.py reads its verdict from a JSON object that
    stands anywhere in the reply: with text before it that has no
    opening brace and text after it that has no closing brace, the
    status is the one of the object ([unknown] when it has none), the
    feedback is its feedback, else its message, else empty, and the
    iteration moves on by one exactly for the two retry verdicts. *)
Theorem version2_reads_verdict_inside_prose
    (pre body post : string) (fields : list (string * json))
    (st : Version2.AgentState) :
  contains "{" pre = false -> contains "}" post = false ->
  json_loads ("{" +:+ body +:+ "}") = Ok (JObj fields) ->
  exists st',
    Version2.critic_verdict json_loads
      (pre +:+ "{" +:+ body +:+ "}" +:+ post) st = Ok st'
    /\ Version2.status st' = default (JStr "unknown") (assoc "status" fields)
    /\ Version2.feedback st'
       = default (default (JStr "") (assoc "message" fields))
           (assoc "feedback" fields)
    /\ Version2.iteration st'
       = (if retry2 (Version2.status st')
          then Version2.iteration st + 1 else Version2.iteration st).
Proof.
  intros Hpre Hpost Hobj. unfold Version2.critic_verdict.
  rewrite (brace_span_first_to_last pre body post Hpre Hpost), Hobj.
  cbn [bind dict_get]. rewrite !assoc_default.
  set (v := default (JStr "unknown") (assoc "status" fields)).
  eexists. split; [reflexivity|].
  cbn [Version2.status Version2.log Version2.set_history
       Version2.set_feedback Version2.set_status Version2.feedback].
  unfold retry2.
  destruct (eq_str v "test_error" || eq_str v "incomplete") eqn:Hr;
    cbn; rewrite ?Hr; repeat split.
Qed.

End CriticSpan.

(** A reply with a sentence before and after the verdict. *)
Definition wordy_reply : string :=
  "Here is my verdict: " +:+ needs_fix_text +:+ " I hope this helps.".

Lemma version2_reads_verdict_inside_prose_witness :
  contains "{" "Here is my verdict: " = false
  /\ contains "}" " I hope this helps." = false
  /\ loads_known needs_fix_text = Ok (JObj [("status", JStr "needs_fix")])
  /\ exists st',
       Version2.critic_verdict loads_known wordy_reply
         (Version2.initial_state "" 3) = Ok st'
       /\ Version2.status st' = JStr "needs_fix"
       /\ Version2.feedback st' = JStr ""
       /\ Version2.iteration st' = 1.
Proof.
  split; [reflexivity|]. split; [reflexivity|]. split; [reflexivity|].
  destruct (version2_reads_verdict_inside_prose loads_known
              "Here is my verdict: "
              (quoted "status" +:+ ": " +:+ quoted "needs_fix")
              " I hope this helps." [("status", JStr "needs_fix")]
              (Version2.initial_state "" 3) eq_refl eq_refl eq_refl)
    as (st' & Hv & Hs & Hf & Hi).
  exists st'. split; [exact Hv|]. split; [exact Hs|]. split; [exact Hf|].
  rewrite Hi, Hs. reflexivity.
Defined.

(** ** Names that the source does not define *)

Section WholeSource.

Import Parser.

Variable ast_parse : string -> res Ast.node.

Lemma in_tree_trans (a b c : Ast.node) :
  in_tree a b -> in_tree b c -> in_tree a c.
Proof.
  intros Hab Hbc. induction Hbc as [|d t Hd Hbd IH]; [done|].
  by apply (in_tree_child a d t).
Qed.

(** The node is not one that the loop of [extract_user_functions]
    extracts. *)
Definition no_target (names : list string) (n : Ast.node) : Prop :=
  match n with
  | Ast.FunctionDef name _ _ _ => elem name names = false
  | Ast.ClassDef _ _ _ _ body _ =>
      existsb (is_target_method names) body = false
  | Ast.Other _ => True
  end.

Lemma extract_loop_no_target (user_code : string) (names : list string)
    (nodes : list Ast.node) :
  Forall (no_target names) nodes ->
  forall items seen,
    extract_loop user_code names nodes items seen = items.
Proof.
  induction 1 as [|n nodes Hn Hnodes IH]; intros items seen; [done|].
  destruct n as [name l e ch | name l e before body after | ch];
    cbn [extract_loop]; cbn in Hn; rewrite ?Hn; cbn [andb]; apply IH.
Qed.

(** When the source parses and none of the detected names is the name of
    a function definition of its syntax tree, at any depth, nothing is
    extracted and [extract_user_functions] returns the whole source. *)
Theorem undetected_names_keep_whole_source
    (user_code : string) (names : list string) (tree : Ast.node) :
  ast_parse user_code = Ok tree ->
  (forall x lineno end_lineno children,
     in_tree (Ast.FunctionDef x lineno end_lineno children) tree ->
     x ∉ names) ->
  extract_user_functions ast_parse user_code names = user_code.
Proof.
  intros Hparse Hnone. unfold extract_user_functions. rewrite Hparse.
  rewrite extract_loop_no_target; [done|].
  apply Forall_forall. intros n Hn%walk_nodes.
  destruct n as [name l e ch | name l e before body after | ch]; cbn.
  - destruct (elem name names) eqn:He; [|done].
    apply elem_true in He. by apply Hnone in Hn.
  - destruct (existsb (is_target_method names) body) eqn:He; [|done].
    apply existsb_exists in He as (item & Hitem & Ht).
    destruct item as [x l' e' ch' | |]; try discriminate.
    cbn in Ht. apply elem_true in Ht.
    exfalso. apply (Hnone x l' e' ch'); [|done].
    apply (in_tree_trans _ (Ast.ClassDef name l e before body after));
      [|done].
    apply (in_tree_child _ (Ast.FunctionDef x l' e' ch'));
      [|constructor].
    cbn. rewrite !elem_of_app. right. left. by apply list_elem_of_In.
  - done.
Qed.

End WholeSource.

Lemma undetected_names_keep_whole_source_witness :
  parse_plain plain_source = Ok plain_tree
  /\ (forall x lineno end_lineno children,
        in_tree (Ast.FunctionDef x lineno end_lineno children) plain_tree ->
        x ∉ ["total"])
  /\ Parser.extract_user_functions parse_plain plain_source ["total"]
     = plain_source.
Proof.
  assert (forall x lineno end_lineno children,
            in_tree (Ast.FunctionDef x lineno end_lineno children)
              plain_tree ->
            x ∉ ["total"]) as Hnone.
  { intros x l e ch Hin%walk_nodes. vm_compute in Hin.
    intros Hx%list_elem_of_singleton. subst x.
    repeat (apply elem_of_cons in Hin as [Hin | Hin];
            [discriminate Hin|]).
    by apply elem_of_nil in Hin. }
  split; [reflexivity|]. split; [exact Hnone|].
  exact (undetected_names_keep_whole_source parse_plain plain_source
           ["total"] plain_tree eq_refl Hnone).
Defined.

(** ** A test run that does not end *)

Section Subprocess.

Import World.

Variable json_loads : string -> res json.
Variable pytest : nat -> gmap string string -> process.

(** When [subprocess.run] raises (a time-out, a missing executable), the
    adapters of nodes.py and Version2.py return the code -1, no report,
    no output and the message of the exception, and their execution
    nodes go on with the empty report and a record of zeros; the adapter
    of Version1.py, which has no [try], lets the exception through. *)
Theorem subprocess_failure_becomes_a_code
    (e : exn) (st : Graph.GraphState) (st2 : Version2.AgentState)
    (test_file : string) (w : world) :
  (forall k fs, proc_outcome (pytest k fs) = Failed e) ->
  (exists st' w',
     Graph.execution_node json_loads pytest st w = Ok (st', w')
     /\ Graph.return_code st' = -1
     /\ Graph.report st' = JObj []
     /\ Graph.pytest_output st' = ""
     /\ Graph.pytest_stderr st' = exn_str e
     /\ Graph.iteration_results st'
        = Graph.iteration_results st ++ [zero_result st])
  /\ (exists st' w',
        Version2.execution_node json_loads pytest st2 w = Ok (st', w')
        /\ Version2.return_code st' = -1
        /\ Version2.report st' = JObj []
        /\ Version2.pytest_output st' = ""
        /\ Version2.pytest_stderr st' = exn_str e)
  /\ fst (Version1.run_pytest_json json_loads pytest test_file w) = Raise e.
Proof.
  intros Hfail. split; [|split].
  - unfold Graph.execution_node, Graph.run_pytest_json.
    rewrite Hfail. eexists _, _. split; [reflexivity|]. repeat split.
  - unfold Version2.execution_node, Version2.run_pytest_json.
    rewrite Hfail. eexists _, _. split; [reflexivity|]. repeat split.
  - unfold Version1.run_pytest_json. by rewrite Hfail.
Qed.

End Subprocess.

Lemma subprocess_failure_becomes_a_code_witness :
  (forall k fs,
     World.proc_outcome (timed_out k fs)
     = World.Failed (TimeoutExpired "Command timed out after 60 seconds"))
  /\ (exists st' w',
        Graph.execution_node never_json timed_out
          (Graph.initial_state "" "" 3) World.empty_world = Ok (st', w')
        /\ Graph.return_code st' = -1
        /\ Graph.pytest_stderr st' = "Command timed out after 60 seconds")
  /\ fst (Version1.run_pytest_json never_json timed_out "test_generated.py"
            World.empty_world)
     = Raise (TimeoutExpired "Command timed out after 60 seconds").
Proof.
  split; [reflexivity|].
  destruct (subprocess_failure_becomes_a_code never_json timed_out
              (TimeoutExpired "Command timed out after 60 seconds")
              (Graph.initial_state "" "" 3) (Version2.initial_state "" 3)
              "test_generated.py" World.empty_world (fun _ _ => eq_refl))
    as ((st' & w' & Hex & Hrc & _ & _ & Herr & _) & _ & H1).
  split; [|exact H1]. by exists st', w'.
Defined.

(** ** The history of a run *)

Section History.

Import World.

Variable re_findall : string -> bool -> string -> list string.
Variable ast_parse : string -> res Ast.node.
Variable json_loads : string -> res json.
Variable pytest : nat -> gmap string string -> process.
Variable llm_generator : nat -> Graph.generator_prompt -> string.
Variable llm_critic : nat -> Graph.critic_prompt -> string.
Variable llm_reporter : nat -> Graph.reporter_prompt -> string.

Definition agents (st : Graph.GraphState) : list string :=
  map Graph.agent (Graph.history st).

Definition cycle_agents : list string :=
  ["generator"; "combiner"; "executor"; "critic"].

Fixpoint repeat_agents (k : nat) : list string :=
  match k with
  | O => []
  | S k' => cycle_agents ++ repeat_agents k'
  end.

Lemma agents_log (a : string) (act : fstring) (st : Graph.GraphState) :
  agents (Graph.log a act st) = agents st ++ [a].
Proof. unfold agents, Graph.log. cbn. by rewrite map_app. Qed.

Lemma execution_agents (st st' : Graph.GraphState) (w w' : world) :
  Graph.execution_node json_loads pytest st w = Ok (st', w') ->
  agents st' = agents st ++ ["executor"].
Proof.
  unfold Graph.execution_node.
  destruct (Graph.run_pytest_json _ _ _ _) as [[[[rc rep] out] err] w2].
  intros H. unbind H. unbind H. unbind H. unbind H. unbind H.
  injection H as <- <-. by rewrite agents_log.
Qed.

Lemma critic_agents (st st' : Graph.GraphState) (w w' : world) :
  Graph.critic_node json_loads llm_critic st w = Ok (st', w') ->
  agents st' = agents st ++ ["critic"].
Proof.
  unfold Graph.critic_node. intros H.
  unbind H. unbind H. unbind H. unbind H.
  destruct (a2 && eq_num a1 a0).
  - injection H as <- <-. by rewrite agents_log.
  - unbind H. unbind H. unbind H. injection H as <- <-.
    unfold Graph.critic_verdict in Ha5.
    unbind Ha5. unbind Ha5. unbind Ha5. injection Ha5 as <-.
    destruct (eq_str _ _); unfold agents, Graph.log; cbn;
      by rewrite map_app.
Qed.

Lemma cycle_agents_of (st st' : Graph.GraphState) (w w' : world) :
  Graph.cycle ast_parse json_loads pytest llm_generator llm_critic st w
    = Ok (st', w') ->
  agents st' = agents st ++ cycle_agents
  /\ generator_calls w' = S (generator_calls w).
Proof.
  intros H. pose proof (cycle_effects_of _ _ _ _ _ _ _ _ _ H) as Hce.
  destruct Hce as [_ _ _ _ [Hg _ _ _ _] _].
  split; [|lia]. revert H. unfold Graph.cycle.
  destruct (Graph.test_generator_node _ st w) as [sg wg] eqn:Hgen.
  intros H. apply bind_ok in H as ([se we] & Hex & Hcr).
  apply execution_agents in Hex. apply critic_agents in Hcr.
  unfold Graph.test_generator_node in Hgen. injection Hgen as <- _.
  rewrite Hcr, Hex. unfold agents, Graph.combiner_node, Graph.log.
  cbn [Graph.history Graph.set_history Graph.set_combined_code
       Graph.set_test_code].
  rewrite !map_app. cbn [map Graph.agent]. by rewrite <- !app_assoc.
Qed.

Lemma loop_agents (fuel : nat) :
  forall (st final : Graph.GraphState) (w w' : world) (ran : nat),
    Graph.loop ast_parse json_loads pytest llm_generator llm_critic
      llm_reporter fuel ran st w = Some (Ok (final, w')) ->
    exists k : nat,
      generator_calls w' = (generator_calls w + S k)%nat
      /\ agents final
         = agents st ++ repeat_agents (S k) ++ ["reporter"].
Proof.
  induction fuel as [|fuel IH]; intros st final w w' ran; [discriminate|].
  cbn [Graph.loop].
  destruct (_ <? _)%nat; [discriminate|].
  destruct (Graph.cycle _ _ _ _ _ st w) as [[st1 w1]|e] eqn:Hcy;
    [|discriminate].
  destruct (cycle_agents_of _ _ _ _ Hcy) as (Ha & Hg).
  destruct (fst (Graph.should_continue st1)).
  - intros H. destruct (IH _ _ _ _ _ H) as (k & Hk & Hf).
    exists (S k). split; [lia|].
    rewrite Hf, Ha. cbn [repeat_agents]. by rewrite <- !app_assoc.
  - destruct (_ <? _)%nat; [discriminate|].
    intros [= H]. unfold Graph.reporter_node in H.
    unbind H. unbind H. unbind H. injection H as <- <-.
    exists O. split; [cbn; lia|].
    rewrite agents_log. unfold agents at 1.
    cbn [Graph.history Graph.set_final_message]. fold (agents st1).
    rewrite Ha. cbn [repeat_agents]. by rewrite <- !app_assoc.
Qed.

(** The history of a run that returns names the agents in the order in
    which they worked: the detector twice, then for every generator call
    the generator, the combiner, the executor and the critic, and the
    reporter at the end. *)
Theorem graph_history_follows_the_graph
    (readme user : string) (max_iter : Z) (w : world) (fuel : nat) :
  (Z.to_nat max_iter <= fuel)%nat -> (1 <= fuel)%nat ->
  exists res,
    Graph.main_graph re_findall ast_parse json_loads pytest llm_generator
      llm_critic llm_reporter fuel (Graph.initial_state readme user max_iter)
      w = Some res
    /\ forall final w',
         res = Ok (final, w') ->
         exists k : nat,
           generator_calls w' = (generator_calls w + k)%nat
           /\ map Graph.agent (Graph.history final)
              = ["detector"; "detector"] ++ repeat_agents k ++ ["reporter"].
Proof.
  intros Hfuel Hone.
  destruct (main_graph_effects re_findall ast_parse json_loads pytest
              llm_generator llm_critic llm_reporter readme user max_iter w
              fuel Hfuel Hone) as (res & Hrun & _).
  exists res. split; [exact Hrun|]. intros final w' ->.
  unfold Graph.main_graph in Hrun.
  destruct (loop_agents _ _ _ _ _ _ Hrun) as (k & Hk & Hf).
  exists (S k). split; [exact Hk|].
  fold (agents final). rewrite Hf. f_equal.
  unfold Graph.function_detector_node.
  destruct (Parser.extract_functions_from_readme _ _) as [|r rs];
    [destruct (Parser.extract_functions_from_python_file _ _) as [|c cs]|];
    reflexivity.
Qed.

End History.

Section Version2History.

Import World.

Variable re_findall : string -> bool -> string -> list string.
Variable json_loads : string -> res json.
Variable pytest : nat -> gmap string string -> process.
Variable llm_generator : nat -> Version2.generator_prompt -> string.
Variable llm_critic : nat -> Version2.critic_prompt -> string.
Variable llm_reporter : nat -> Version2.reporter_prompt -> string.

(** The iteration and the agent of every entry of the history. *)
Definition stamps (st : Version2.AgentState) : list (Z * string) :=
  map (fun e => (Version2.entry_iteration e, Version2.agent e))
    (Version2.history st).

Definition cycle_stamps (i : Z) : list (Z * string) :=
  [(i, "generator"); (i, "executor"); (i, "critic")].

Fixpoint run_stamps (i : Z) (k : nat) : list (Z * string) :=
  match k with
  | O => []
  | S k' => cycle_stamps i ++ run_stamps (i + 1) k'
  end.

Lemma version2_execution_stamps (st st' : Version2.AgentState)
    (w w' : world) :
  Version2.execution_node json_loads pytest st w = Ok (st', w') ->
  stamps st' = stamps st ++ [(Version2.iteration st, "executor")].
Proof.
  unfold Version2.execution_node.
  destruct (Version2.run_pytest_json _ _ _ _) as [[[[rc rep] out] err] w2].
  intros H. unbind H. unbind H. unbind H. unbind H. unbind H.
  injection H as <- <-. unfold stamps, Version2.log. cbn.
  by rewrite map_app.
Qed.

Lemma version2_critic_stamps (st st' : Version2.AgentState) (w w' : world) :
  Version2.critic_node json_loads llm_critic st w = Ok (st', w') ->
  stamps st' = stamps st ++ [(Version2.iteration st, "critic")].
Proof.
  unfold Version2.critic_node. intros H.
  unbind H. unbind H. unbind H. unbind H. unbind H.
  destruct (_ && _).
  - injection H as <- <-. unfold stamps, Version2.log. cbn.
    by rewrite map_app.
  - unbind H. injection H as <- <-.
    unfold Version2.critic_verdict in Ha4.
    unbind Ha4. unbind Ha4. unbind Ha4. injection Ha4 as <-.
    destruct (_ || _); unfold stamps, Version2.log; cbn;
      by rewrite map_app.
Qed.

Lemma version2_cycle_stamps (st st' : Version2.AgentState) (w w' : world) :
  Version2.cycle json_loads pytest llm_generator llm_critic st w
    = Ok (st', w') ->
  stamps st' = stamps st ++ cycle_stamps (Version2.iteration st).
Proof.
  unfold Version2.cycle.
  destruct (Version2.generator_node _ st w) as [sg wg] eqn:Hgen.
  intros H. apply bind_ok in H as ([se we] & Hex & Hcr).
  pose proof (version2_execution_effects _ _ _ _ _ _ Hex)
    as (_ & Hi & _).
  apply version2_execution_stamps in Hex.
  apply version2_critic_stamps in Hcr.
  unfold Version2.generator_node in Hgen. injection Hgen as <- _.
  rewrite Hcr, Hex, Hi. unfold stamps, Version2.log.
  cbn [Version2.history Version2.set_history Version2.set_test_code
       Version2.iteration].
  rewrite !map_app. cbn [map Version2.entry_iteration Version2.agent].
  by rewrite <- !app_assoc.
Qed.

Lemma version2_loop_stamps (fuel : nat) :
  forall (st final : Version2.AgentState) (w w' : world) (ran : nat),
    Version2.loop json_loads pytest llm_generator llm_critic llm_reporter
      fuel ran st w = Some (Ok (final, w')) ->
    exists k : nat,
      generator_calls w' = (generator_calls w + S k)%nat
      /\ stamps final
         = stamps st ++ run_stamps (Version2.iteration st) (S k)
           ++ [(Version2.iteration final, "reporter")].
Proof.
  induction fuel as [|fuel IH]; intros st final w w' ran; [discriminate|].
  cbn [Version2.loop].
  destruct (_ <? _)%nat; [discriminate|].
  destruct (Version2.cycle _ _ _ _ st w) as [[st1 w1]|e] eqn:Hcy;
    [|discriminate].
  pose proof (version2_cycle_stamps _ _ _ _ Hcy) as Ha.
  destruct (cycle_effects2_of _ _ _ _ _ _ _ _ Hcy)
    as [_ Hi _ _ [Hg _ _ _ _] _].
  destruct (fst (Version2.should_continue st1)) eqn:Hsc.
  - assert (Version2.iteration st1 = Version2.iteration st + 1) as Hnext.
    { unfold Version2.should_continue in Hsc.
      destruct (eq_str (Version2.status st1) "success"); [done|].
      destruct (eq_str (Version2.status st1) "source_error"); [done|].
      destruct (Version2.max_iterations st1 <? Version2.iteration st1);
        [done|].
      unfold retry2 in Hi.
      by destruct (eq_str (Version2.status st1) "test_error"
                   || eq_str (Version2.status st1) "incomplete"). }
    intros H. destruct (IH _ _ _ _ _ H) as (k & Hk & Hf).
    exists (S k). split; [lia|].
    rewrite Hf, Ha, Hnext.
    cbn [run_stamps]. by rewrite <- !app_assoc.
  - destruct (_ <? _)%nat; [discriminate|].
    intros [= H]. unfold Version2.reporter_node in H.
    unbind H. unbind H. unbind H. unbind H. injection H as <- <-.
    exists O. split; [cbn; lia|].
    unfold stamps at 1. unfold Version2.log.
    cbn [Version2.history Version2.set_history Version2.set_final_message
         Version2.iteration].
    rewrite map_app. fold (stamps st1). rewrite Ha.
    cbn [run_stamps map Version2.entry_iteration Version2.agent].
    by rewrite <- !app_assoc.
Qed.

(** The history of a run of Version2.py that returns: the detector at
    iteration 1, then for the i-th generator call the generator, the
    executor and the critic, all three stamped with iteration i, and at
    the end the reporter, stamped with the final iteration. *)
Theorem version2_history_is_stamped
    (readme : string) (max_iter : Z) (w : world) (fuel : nat) :
  (Z.to_nat max_iter <= fuel)%nat -> (1 <= fuel)%nat ->
  exists res,
    Version2.app re_findall json_loads pytest llm_generator llm_critic
      llm_reporter fuel (Version2.initial_state readme max_iter) w
    = Some res
    /\ forall final w',
         res = Ok (final, w') ->
         exists k : nat,
           generator_calls w' = (generator_calls w + k)%nat
           /\ map (fun e => (Version2.entry_iteration e, Version2.agent e))
                (Version2.history final)
              = [(1, "detector")] ++ run_stamps 1 k
                ++ [(Version2.iteration final, "reporter")].
Proof.
  intros Hfuel Hone.
  destruct (app_effects re_findall json_loads pytest llm_generator
              llm_critic llm_reporter readme max_iter w fuel Hfuel Hone)
    as (res & Hrun & _).
  exists res. split; [exact Hrun|]. intros final w' ->.
  unfold Version2.app in Hrun.
  destruct (version2_loop_stamps _ _ _ _ _ _ Hrun) as (k & Hk & Hf).
  exists (S k). split; [exact Hk|].
  fold (stamps final). rewrite Hf. reflexivity.
Qed.

End Version2History.

Lemma graph_history_follows_the_graph_witness :
  (Z.to_nat 2 <= 2)%nat /\ (1 <= 2)%nat
  /\ exists final w',
       Graph.main_graph no_match no_parse loads_known failing_run prose
         prose prose 2 (Graph.initial_state "" "" 2) World.empty_world
       = Some (Ok (final, w'))
       /\ exists k : nat,
            World.generator_calls w' = (0 + k)%nat
            /\ map Graph.agent (Graph.history final)
               = ["detector"; "detector"] ++ repeat_agents k
                 ++ ["reporter"].
Proof.
  split; [cbn; lia|]. split; [lia|].
  destruct (failing_graph_run World.empty_world) as (final & w' & Hrun).
  exists final, w'. split; [exact Hrun|].
  destruct (graph_history_follows_the_graph no_match no_parse loads_known
              failing_run prose prose prose "" "" 2 World.empty_world 2)
    as (res & Hres & Hk); [cbn; lia | lia |].
  rewrite Hrun in Hres. injection Hres as <-.
  exact (Hk final w' eq_refl).
Defined.

Lemma version2_history_is_stamped_witness :
  (Z.to_nat 2 <= 2)%nat /\ (1 <= 2)%nat
  /\ exists final w',
       Version2.app no_match loads_known failing_run prose prose prose 2
         (Version2.initial_state "" 2) World.empty_world
       = Some (Ok (final, w'))
       /\ exists k : nat,
            World.generator_calls w' = (0 + k)%nat
            /\ map (fun e => (Version2.entry_iteration e, Version2.agent e))
                 (Version2.history final)
               = [(1, "detector")] ++ run_stamps 1 k
                 ++ [(Version2.iteration final, "reporter")].
Proof.
  split; [cbn; lia|]. split; [lia|].
  destruct (failing_version2_run World.empty_world) as (final & w' & Hrun).
  exists final, w'. split; [exact Hrun|].
  destruct (version2_history_is_stamped no_match loads_known failing_run
              prose prose prose "" 2 World.empty_world 2)
    as (res & Hres & Hk); [cbn; lia | lia |].
  rewrite Hrun in Hres. injection Hres as <-.
  exact (Hk final w' eq_refl).
Defined.

(** ** The import lines of the combined file *)

Section Imports.

Lemma lstrip_head (s : string) (c : ascii) (r : string) :
  lstrip s = String c r -> isspace c = false.
Proof.
  induction s as [|a s IH]; [discriminate|]. cbn [lstrip].
  destruct (isspace a) eqn:Ha; [exact IH|]. by intros [= <- _].
Qed.

Lemma end_bol_one_line (b : bool) (h : string) :
  one_line h -> h <> "" -> end_bol b h = false.
Proof.
  unfold one_line, not_newline. revert b.
  induction h as [|c h IH]; intros b Hh Hne; [done|].
  cbn [string_forall] in Hh. apply andb_true_iff in Hh as [Hc Hh].
  cbn [end_bol]. destruct h as [|c' h'].
  - cbn [end_bol]. by apply negb_true_iff in Hc.
  - by apply IH.
Qed.

(** The current line and what follows it. *)
Lemma line_rest_spec (s : string) :
  exists h,
    s = h +:+ Re.line_rest s /\ one_line h
    /\ (Re.line_rest s = ""
        \/ exists r, Re.line_rest s = String newline r).
Proof.
  induction s as [|c s (h & Hs & Hh & Hr)].
  - exists "". repeat split. by left.
  - cbn [Re.line_rest]. destruct (Ascii.eqb c newline) eqn:Hc.
    + exists "". split; [done|]. split; [done|]. right.
      apply Ascii.eqb_eq in Hc. subst c. by exists s.
    + exists (String c h). rewrite str_app_cons, <- Hs.
      split; [done|]. split; [|exact Hr].
      unfold one_line, not_newline in *. cbn [string_forall].
      by rewrite Hc.
Qed.

(** What is matched ends where a line ends: nothing is left, or a
    newline comes next and the match does not end with one. *)
Definition ends_a_line (s rest : string) : Prop :=
  exists u,
    s = u +:+ rest /\ u <> ""
    /\ (rest = ""
        \/ ((exists r, rest = String newline r) /\ end_bol true u = false)).

(** From some text [x] on, the match runs over the white space at the
    start of [x] and to the end of the line that it then finds. *)
Lemma to_line_end (p x : string) :
  p <> "" -> ends_a_line (p +:+ x) (Re.line_rest (lstrip x)).
Proof.
  intros Hp.
  destruct (lstrip_spec x) as (ws & Hx & _).
  destruct (line_rest_spec (lstrip x)) as (h & Hl & Hh & Hr).
  exists (p +:+ ws +:+ h). split.
  { rewrite Hx at 1. rewrite Hl at 1. by rewrite !str_app_assoc. }
  split.
  { destruct p; [done|]. by rewrite str_app_cons. }
  destruct Hr as [Hr | Hr]; [by left|]. right. split; [exact Hr|].
  rewrite <- str_app_assoc, end_bol_app.
  apply end_bol_one_line; [exact Hh|]. intros ->.
  destruct Hr as (r & Hr). rewrite Hr, str_app_nil_l in Hl.
  apply lstrip_head in Hl. discriminate.
Qed.

Lemma import_line_ends (s rest g : string) :
  Re.import_line true s = Some (rest, g) -> ends_a_line s rest.
Proof.
  unfold Re.import_line.
  destruct (strip_prefix "import" s) as [rest0|] eqn:Hp; [|discriminate].
  destruct (prefix_by_split _ _ _ _ Hp) as (m & -> & Hm & _).
  apply matches_eq in Hm. subst m.
  destruct rest0 as [|w r]; [discriminate|].
  destruct (isspace w); [|discriminate].
  intros [= <- _]. by apply to_line_end.
Qed.

Lemma last_import_sound (x after : string) :
  Re.last_import x = Some after ->
  exists pre, x = pre +:+ "import" +:+ after.
Proof.
  revert after. induction x as [|c x IH]; intros after; [discriminate|].
  cbn [Re.last_import]. destruct (Ascii.eqb c newline); [discriminate|].
  destruct (Re.last_import x) as [a|].
  - intros [= <-]. destruct (IH a eq_refl) as (pre & ->).
    by exists (String c pre).
  - destruct (strip_prefix "import" (String c x)) as [rest|] eqn:Hp;
      [|discriminate].
    destruct rest as [|w t]; [discriminate|].
    destruct (isspace w); [|discriminate].
    intros [= <-].
    destruct (prefix_by_split _ _ _ _ Hp) as (m & Hs & Hm & _).
    apply matches_eq in Hm. subst m. exists "". by rewrite Hs.
Qed.

Lemma from_import_line_ends (s rest g : string) :
  Re.from_import_line true s = Some (rest, g) -> ends_a_line s rest.
Proof.
  unfold Re.from_import_line.
  destruct (strip_prefix "from" s) as [rest0|] eqn:Hp; [|discriminate].
  destruct (prefix_by_split _ _ _ _ Hp) as (m & -> & Hm & _).
  apply matches_eq in Hm. subst m.
  destruct rest0 as [|w r]; [discriminate|].
  destruct (isspace w); [|discriminate].
  destruct (Re.last_import (lstrip (String w r))) as [after|] eqn:Hl;
    [|discriminate].
  intros [= <- _].
  destruct (last_import_sound _ _ Hl) as (pre & Hpre).
  destruct (lstrip_spec (String w r)) as (ws & Hws & _).
  rewrite Hws, Hpre.
  replace ("from" +:+ ws +:+ pre +:+ "import" +:+ after)
    with (("from" +:+ ws +:+ pre +:+ "import") +:+ after)
    by (by rewrite !str_app_assoc).
  by apply to_line_end.
Qed.

End Imports.

Section Deletion.

(** A pattern anchored at the start of a line whose matches end where a
    line ends, and a property [P] of the positions of the text that
    holds from a position on once it holds there and that rules out an
    import line wherever the pattern does not match. *)
Variable m : Re.matcher.
Variable P : bool -> string -> Prop.
Hypothesis m_false : forall s, m false s = None.
Hypothesis m_ends :
  forall s rest g, m true s = Some (rest, g) -> ends_a_line s rest.
Hypothesis P_step :
  forall b c r, P b (String c r) -> P (Ascii.eqb c newline) r.
Hypothesis P_miss :
  forall b s, P b s -> m b s = None -> Re.import_line b s = None.

Lemma P_skip (u r : string) :
  forall b, P b (u +:+ r) -> P (end_bol b u) r.
Proof.
  induction u as [|c u IH]; intros b H; [done|].
  rewrite str_app_cons in H. cbn [end_bol]. by apply IH, (P_step b c).
Qed.

Lemma sub_skip_flag (u r : string) :
  forall b, Re.sub_from m b (String.length u) (u +:+ r)
            = Re.sub_from m (end_bol b u) O r.
Proof.
  induction u as [|c u IH]; intros b; [done|].
  rewrite str_app_cons. cbn [String.length Re.sub_from end_bol]. apply IH.
Qed.

Lemma sub_hit (b : bool) (c : ascii) (u rest g : string) :
  m b (String c u +:+ rest) = Some (rest, g) ->
  Re.sub_from m b O (String c u +:+ rest)
  = Re.sub_from m (end_bol b (String c u)) O rest.
Proof.
  intros H. rewrite str_app_cons in *. cbn [Re.sub_from]. rewrite H.
  unfold Re.consumed. cbn [String.length]. rewrite str_app_length.
  replace (S (String.length u + String.length rest) - String.length rest)%nat
    with (S (String.length u)) by lia.
  by rewrite sub_skip_flag.
Qed.

Lemma sub_mid (c : ascii) (r : string) :
  Re.sub_from m false O (String c r)
  = String c (Re.sub_from m (Ascii.eqb c newline) O r).
Proof. cbn [Re.sub_from]. by rewrite m_false. Qed.

(** Inside a line the text is kept as it is. *)
Lemma sub_mid_prefix (p : string) :
  forall s x,
    one_line p ->
    strip_prefix p (Re.sub_from m false O s) = Some x ->
    exists x', strip_prefix p s = Some x' /\ x = Re.sub_from m false O x'.
Proof.
  unfold one_line, not_newline, strip_prefix.
  induction p as [|a p IH]; intros s x Hp H.
  - injection H as <-. by exists s.
  - destruct s as [|c r]; [discriminate|]. rewrite sub_mid in H.
    cbn [prefix_by] in *. cbn [string_forall] in Hp.
    apply andb_true_iff in Hp as [Ha Hp].
    destruct (Ascii.eqb a c) eqn:Hac; [|discriminate].
    apply Ascii.eqb_eq in Hac. subst c.
    apply negb_true_iff in Ha. rewrite Ha in H. by apply IH.
Qed.

Lemma import_head (c : ascii) (r : string) :
  Re.import_line true (String c r) = None ->
  Re.import_line true (String c (Re.sub_from m (Ascii.eqb c newline) O r))
  = None.
Proof.
  unfold Re.import_line. intros H.
  destruct (strip_prefix "import"
              (String c (Re.sub_from m (Ascii.eqb c newline) O r)))
    as [rest|] eqn:Hp; [|done].
  destruct rest as [|w y]; [done|]. destruct (isspace w) eqn:Hw; [|done].
  exfalso.
  assert (forall x, strip_prefix "import" (String c x)
                    = if Ascii.eqb "i" c then strip_prefix "mport" x
                      else None) as Hstep by reflexivity.
  rewrite Hstep in Hp, H.
  destruct (Ascii.eqb "i" c) eqn:Hc; [|discriminate].
  apply Ascii.eqb_eq in Hc. subst c.
  change (Ascii.eqb "i" newline) with false in Hp.
  destruct (sub_mid_prefix "mport" r (String w y) eq_refl Hp)
    as (x' & Hx' & Hy).
  rewrite Hx' in H.
  destruct x' as [|c' r']; [discriminate|].
  rewrite sub_mid in Hy. injection Hy as <- _. by rewrite Hw in H.
Qed.

Lemma deletion_leaves_no_import (n : nat) :
  forall s b_in b_out,
    (String.length s <= n)%nat -> P b_in s ->
    b_in = b_out
    \/ (b_in = false /\ b_out = true
        /\ (s = "" \/ exists r, s = String newline r)) ->
    Re.search_from Re.import_line b_out (Re.sub_from m b_in O s) = None.
Proof.
  induction n as [|n IH]; intros s b_in b_out Hn HP Hb.
  { destruct s; [by destruct b_out | cbn in Hn; lia]. }
  destruct s as [|c r]; [by destruct b_out|]. cbn [String.length] in Hn.
  destruct Hb as [<- | (-> & -> & [Hs | (r' & Hs)])]; [|discriminate|].
  - destruct (m b_in (String c r)) as [[rest g]|] eqn:Hm.
    + destruct b_in; [|by rewrite m_false in Hm].
      destruct (m_ends _ _ _ Hm) as (u & Hu & Hne & Hrest).
      destruct u as [|c' u]; [done|]. rewrite Hu in Hm, HP |- *.
      rewrite (sub_hit _ _ _ _ _ Hm).
      apply (f_equal String.length) in Hu.
      rewrite str_app_cons in Hu. cbn [String.length] in Hu.
      rewrite str_app_length in Hu.
      destruct Hrest as [-> | [Hnl He]]; [done|].
      apply IH; [lia | by apply P_skip |]. rewrite He. right.
      split; [done|]. split; [done|]. by right.
    + cbn [Re.sub_from]. rewrite Hm. cbn [Re.search_from].
      assert (Re.import_line b_in
                (String c (Re.sub_from m (Ascii.eqb c newline) O r)) = None)
        as ->.
      { pose proof (P_miss _ _ HP Hm) as Hi.
        destruct b_in; [by apply import_head | done]. }
      apply IH; [lia | by apply (P_step b_in c) | by left].
  - injection Hs as -> ->. rewrite sub_mid. cbn [Re.search_from].
    change (Re.import_line true (String newline _)) with
      (@None (string * string)).
    change (Ascii.eqb newline newline) with true.
    apply IH; [lia | by apply (P_step false newline) | by left].
Qed.

End Deletion.

(** After the two substitutions of the combiner the pattern of the
    first finds nothing: no line of the cleaned fragment starts with
    [import] and a white-space character, be it a line of the source or
    one that the deletions put together. *)
Theorem clean_imports_leaves_no_import_line (code : string) :
  Re.search Re.import_line (Graph.clean_imports code) = None.
Proof.
  unfold Graph.clean_imports, Re.search, Re.sub.
  set (o1 := Re.sub_from Re.import_line true O code).
  assert (Re.search_from Re.import_line true o1 = None) as H1.
  { apply (deletion_leaves_no_import Re.import_line (fun _ _ => True)
             (fun _ => eq_refl) import_line_ends (fun _ _ _ _ => I)
             (fun _ _ _ H => H) _ code true true (le_n _) I).
    by left. }
  apply (deletion_leaves_no_import Re.from_import_line
           (fun b s => Re.search_from Re.import_line b s = None)
           (fun _ => eq_refl) from_import_line_ends) with (n := String.length o1).
  - intros b c r H. cbn [Re.search_from] in H.
    by destruct (Re.import_line b (String c r)) as [[? ?]|].
  - intros b s H _. destruct s; cbn [Re.search_from] in H;
      by destruct (Re.import_line b _) as [[? ?]|].
  - done.
  - exact H1.
  - by left.
Qed.
